(** * RackOptix optimisation core: aisle widths, beam elevations, slotting
      and the orchestrating engine, embedded from the Python sources under
      [rackoptix/backend/src].

    Conventions of the embedding.
    - Python [float] and [int] quantities that take part in real arithmetic
      are exact rationals ([Q]); integer counts and solver variables are [Z].
      [int(x)] is truncation towards zero, [round(x)] is round-half-to-even,
      and [/] raises [ZeroDivisionError] on a zero divisor.  A float result
      of the code is the rounding of the rational computed here.
    - A call that may raise returns a [result]; [try ... except Exception]
      is a match on it.
    - [np.random.random()] reads an explicit generator state ([Rng]).
    - The OR-tools solvers are external: a solver is a function from the
      model the code builds to an optional variable assignment, packaged
      with the one fact the code relies on (a returned assignment satisfies
      the model). *)

From Stdlib Require Import ZArith QArith Qround Qabs Lqa String Ascii List Lia.
From Stdlib Require Import DecimalString DecimalN DecimalPos.
From Stdlib Require Import Sorted.
From stdpp Require Import gmap strings list fin_maps.

Local Open Scope Z_scope.
Local Open Scope Q_scope.
Local Open Scope string_scope.
Local Open Scope list_scope.

(** ** Python primitives *)

Module Py.

Inductive exn :=
| ValueError (msg : string)
| RuntimeError (msg : string)
| ZeroDivisionError
| IndexError.

Inductive result (A : Type) :=
| Ok (a : A)
| Raise (e : exn).
Arguments Ok {A} a.
Arguments Raise {A} e.

Definition bind {A B} (r : result A) (k : A -> result B) : result B :=
  match r with
  | Ok a => k a
  | Raise e => Raise e
  end.

(** [a / b] on numbers *)
Definition div (a b : Q) : result Q :=
  if Qeq_bool b 0 then Raise ZeroDivisionError else Ok (a / b).

(** [int(x)]: truncation towards zero *)
Definition int (x : Q) : Z := Z.quot (Qnum x) (Zpos (Qden x)).

(** [round(x)]: nearest integer, ties to the even one *)
Definition round (x : Q) : Z :=
  let f := Qfloor x in
  match Qcompare (x - inject_Z f) (1 # 2) with
  | Lt => f
  | Gt => (f + 1)%Z
  | Eq => if Z.even f then f else (f + 1)%Z
  end.

(** [max(a, b)] keeps its first argument unless the second is larger;
    [min(a, b)] keeps its first argument unless the second is smaller. *)
Definition max (a b : Q) : Q := if Qle_bool b a then a else b.
Definition min (a b : Q) : Q := if Qle_bool a b then a else b.

Definition lt (a b : Q) : bool := negb (Qle_bool b a).

(** [max(xs)] of a non-empty list *)
Definition max_list (x : Q) (xs : list Q) : Q := fold_left max xs x.

(** [range(n)] over the integers *)
Definition range (n : Z) : list Z := map Z.of_nat (seq 0 (Z.to_nat n)).

(** [str(n)] of a non-negative integer *)
Definition str (n : Z) : string := NilZero.string_of_uint (N.to_uint (Z.to_N n)).

(** [l[i]] with Python's negative indices *)
Definition index {A} (l : list A) (i : Z) : result A :=
  let j := if (i <? 0)%Z then (Z.of_nat (length l) + i)%Z else i in
  if (j <? 0)%Z then Raise IndexError
  else match nth_error l (Z.to_nat j) with
       | Some a => Ok a
       | None => Raise IndexError
       end.

(** [sorted(l, key=..., reverse=True)]: stable, descending by key.
    [le k1 k2] is [k1 <= k2] on keys. An element is placed in front of
    the first later element whose key is not larger, so equal keys keep
    their original order. *)
Section Sorted.
Context {A K : Type} (key : A -> K) (le : K -> K -> bool).

Fixpoint insert_desc (x : A) (l : list A) : list A :=
  match l with
  | [] => [x]
  | y :: l' => if le (key y) (key x) then x :: y :: l'
               else y :: insert_desc x l'
  end.

Definition sorted_reverse (l : list A) : list A :=
  fold_right insert_desc [] l.
End Sorted.

(** [np.random.random()]: the generator state is the sequence of draws
    still to come. *)
Definition Rng := nat -> Q.
Definition random (g : Rng) : Q * Rng := (g 0%nat, fun n => g (S n)).

End Py.

Import Py.

#[global] Instance result_ret : MRet Py.result := @Py.Ok.
#[global] Instance result_bind : MBind Py.result :=
  fun A B (k : A -> Py.result B) (r : Py.result A) => Py.bind r k.

(** ** Data model ([models/*.py]) *)

Module Equipment.
Record t := {
  id : string;
  reach_height : Q;
  min_aisle_width : Q;
  max_aisle_width : Q;
  turning_radius : Q;
  lift_capacity : Q
}.
End Equipment.

Module Product.
Record t := {
  id : string;
  length : Q;
  width : Q;
  height : Q;
  weight : Q;
  velocity_class : string;
  monthly_throughput : Z
}.
End Product.

(** [Rack.configuration] is a dict read through [.get] and [in]; the keys
    the optimisation core reads or writes are optional fields. *)
Module Configuration.
Record t := {
  beam_levels : option Z;
  beam_elevations : option (list Q);
  beam_height : option Q;
  first_beam_height : option Q
}.
(** [configuration['beam_elevations'] = v] *)
Definition set_beam_elevations (v : list Q) (c : t) : t :=
  {| beam_levels := beam_levels c; beam_elevations := Some v;
     beam_height := beam_height c; first_beam_height := first_beam_height c |}.
(** [configuration['beam_levels'] = n] *)
Definition set_beam_levels (n : Z) (c : t) : t :=
  {| beam_levels := Some n; beam_elevations := beam_elevations c;
     beam_height := beam_height c; first_beam_height := first_beam_height c |}.
End Configuration.

Module Rack.
Record t := {
  id : string;
  layout_id : string;
  rack_type_id : string;
  height : Q;
  length : Q;
  depth : Q;
  bays : Z;
  configuration : Configuration.t
}.
Definition with_configuration (c : Configuration.t) (r : t) : t :=
  {| id := id r; layout_id := layout_id r; rack_type_id := rack_type_id r;
     height := height r; length := length r; depth := depth r;
     bays := bays r; configuration := c |}.
End Rack.

(** [Aisle.path] is a GeoJSON dict, kept here as the list under its key
    ["coordinates"]; [properties] is a dict of which the core reads the key
    ["type"]. *)
Module Aisle.
Record t := {
  id : string;
  layout_id : string;
  path : list (Q * Q);
  width : Q;
  properties : gmap string string
}.
End Aisle.

Module Layout.
Record t := {
  id : string;
  facility_id : string;
  status : string;
  racks : list Rack.t;
  aisles : list Aisle.t
}.
Definition with_racks (rs : list Rack.t) (l : t) : t :=
  {| id := id l; facility_id := facility_id l; status := status l;
     racks := rs; aisles := aisles l |}.
End Layout.

(** [Location.dimensions] and [Location.properties] are dicts; the keys the
    slotting code reads are fields, optional where the code tests for them. *)
Module Location.
Record t := {
  id : string;
  rack_id : string;
  bay_id : string;
  level : Z;
  position : Z;
  elevation : Q;
  dim_length : option Q;
  dim_width : option Q;
  dim_height : option Q;
  prop_rack_type : option string;
  prop_accessibility : option Q;
  prop_weight_limit : option Q
}.
End Location.

(** ** The constraint-programming model handed to CP-SAT

    Only what the two optimisers use: integer variables with a domain,
    linear comparisons between a variable or constant and a constant or a
    second term, [AddModuloEquality(0, v, m)], and [OnlyEnforceIf]. *)

Module CpSat.

Inductive term :=
| Const (c : Z)
| Var (v : nat).

Inductive constr :=
| Ge (a : term) (c : Z)                 (* a >= c *)
| Le (a : term) (c : Z)                 (* a <= c *)
| Lt (a b : term)                       (* a < b *)
| DiffGe (a b : term) (c : Z)           (* a - b >= c *)
| ModuloEq0 (a : term) (m : Z)          (* AddModuloEquality(0, a, m) *)
| OnlyEnforceIf (lit : nat) (c : constr).

Inductive sense := Minimize | Maximize.

Record model := {
  domains : list (Z * Z);               (* variable i ranges over domains[i] *)
  constraints : list constr;
  objective : option (sense * list (Z * term))  (* sum of coef * term *)
}.

Definition assignment := nat -> Z.

Definition eval (s : assignment) (a : term) : Z :=
  match a with
  | Const c => c
  | Var v => s v
  end.

Fixpoint holds (s : assignment) (c : constr) : bool :=
  match c with
  | Ge a k => (k <=? eval s a)%Z
  | Le a k => (eval s a <=? k)%Z
  | Lt a b => (eval s a <? eval s b)%Z
  | DiffGe a b k => (k <=? eval s a - eval s b)%Z
  | ModuloEq0 a m => (0 <? m)%Z && (eval s a mod m =? 0)%Z
  | OnlyEnforceIf lit c' => negb (s lit =? 1)%Z || holds s c'
  end.

Fixpoint in_domains (s : assignment) (i : nat) (ds : list (Z * Z)) : bool :=
  match ds with
  | [] => true
  | (lo, hi) :: ds' =>
      (lo <=? s i)%Z && (s i <=? hi)%Z && in_domains s (S i) ds'
  end.

Definition feasible (m : model) (s : assignment) : bool :=
  in_domains s 0 (domains m) && forallb (holds s) (constraints m).

(** [CpSolver.Solve]: [Some s] stands for the statuses OPTIMAL and
    FEASIBLE with the values [solver.Value] reads, [None] for every other
    status (infeasible, invalid model, no solution within the time limit). *)
Record solver := {
  solve : model -> option assignment;
  solve_sound : forall m s, solve m = Some s -> feasible m s = true
}.

(** A solver that proposes one candidate and checks it. *)
Definition candidate_solver (s : assignment) : solver :=
{| solve m := if feasible m s then Some s else None;
   solve_sound := ltac:(intros m s' H; cbv beta in H;
                        destruct (feasible m s) eqn:E;
                        [inversion H; subst; exact E | discriminate H]) |}.

(** A solver that never finds a solution within its budget. *)
Definition failing_solver : solver :=
{| solve _ := None; solve_sound := ltac:(intros m s H; discriminate H) |}.

End CpSat.

(** ** [algorithms/aisle_optimizer.py] *)

Module AisleWidthOptimizer.

(** The [constraints] dict, one optional field per recognised key. *)
Record constraints := {
  min_aisle_width : option Q;
  max_aisle_width : option Q;
  aisle_width_increment : option Q;
  optimize_for_density : option bool;
  optimize_for_accessibility : option bool
}.

(** One element [{"id": ..., "width": ...}] of the returned list. *)
Record entry := { id : string; width : Q }.

(** [aisle.properties.get("type", "standard") if aisle.properties else "standard"] *)
Definition aisle_type (aisle : Aisle.t) : string :=
  default "standard" (Aisle.properties aisle !! "type").

(** [_check_intersection]: ignores both arguments and draws a number. *)
Definition _check_intersection (rack : Rack.t) (g : Rng) : bool * Rng :=
  let '(u, g') := Py.random g in (Py.lt u 0.3, g').

Fixpoint adjacent_loop (racks : list Rack.t) (g : Rng) : list Rack.t * Rng :=
  match racks with
  | [] => ([], g)
  | rack :: rest =>
      let '(hit, g1) := _check_intersection rack g in
      let '(adj, g2) := adjacent_loop rest g1 in
      (if hit then rack :: adj else adj, g2)
  end.

Definition _get_adjacent_racks (layout : Layout.t) (aisle : Aisle.t) (g : Rng)
  : list Rack.t * Rng :=
  adjacent_loop (Layout.racks layout) g.

(** [_calculate_aisle_length]: [aisle.path] is a dict, which has no
    attribute [coordinates], so the default length is returned. *)
Definition _calculate_aisle_length (aisle : Aisle.t) : Q := 50.

(** *** The exact path *)

(** [aisle_width_vars]: aisle id -> variable, filled in list order (a later
    aisle with the same id replaces the earlier entry). *)
Definition aisle_width_vars (aisles : list Aisle.t) : gmap string nat :=
  fold_left (fun m ia => <[Aisle.id ia.2 := ia.1]> m)
            (combine (seq 0 (length aisles)) aisles) ∅.

Definition type_constraints (vars : gmap string nat) (min_width_inches : Z)
  (aisle : Aisle.t) : list CpSat.constr :=
  let v := CpSat.Var (vars !!! Aisle.id aisle) in
  let ty := aisle_type aisle in
  if String.eqb ty "main" then [CpSat.Ge v (min_width_inches + 12)]
  else if String.eqb ty "cross" then [CpSat.Ge v min_width_inches]
  else if String.eqb ty "staging" then [CpSat.Ge v (min_width_inches + 24)]
  else [].

Definition rack_constraint (v : CpSat.term) (min_width_inches : Z) (rack : Rack.t)
  : list CpSat.constr :=
  let rack_type := Rack.rack_type_id rack in
  if String.eqb rack_type "drive-in" || String.eqb rack_type "push-back"
  then [CpSat.Ge v (min_width_inches + 12)]
  else if String.eqb rack_type "pallet-flow"
  then [CpSat.Ge v (min_width_inches + 6)]
  else [].

Fixpoint adjacency_constraints (layout : Layout.t) (vars : gmap string nat)
  (min_width_inches : Z) (aisles : list Aisle.t) (g : Rng)
  : list CpSat.constr * Rng :=
  match aisles with
  | [] => ([], g)
  | aisle :: rest =>
      let '(adjacent_racks, g1) := _get_adjacent_racks layout aisle g in
      let v := CpSat.Var (vars !!! Aisle.id aisle) in
      let cs := flat_map (rack_constraint v min_width_inches) adjacent_racks in
      let '(cs', g2) := adjacency_constraints layout vars min_width_inches rest g1 in
      (cs ++ cs', g2)
  end.

(** [next((a for a in layout.aisles if a.id == aisle_id), None)] *)
Definition find_aisle (layout : Layout.t) (aisle_id : string) : option Aisle.t :=
  find (fun a => String.eqb (Aisle.id a) aisle_id) (Layout.aisles layout).

Definition density_terms (layout : Layout.t) (vars : gmap string nat)
  : list (Z * CpSat.term) :=
  flat_map (fun '(aisle_id, width_var) =>
              match find_aisle layout aisle_id with
              | Some aisle =>
                  let weight := Py.int (_calculate_aisle_length aisle * 10) in
                  [(weight, CpSat.Var width_var)]
              | None => []
              end) (map_to_list vars).

Definition accessibility_terms (layout : Layout.t) (vars : gmap string nat)
  (max_width_inches : Z) : list (Z * CpSat.term) :=
  flat_map (fun '(aisle_id, width_var) =>
              match find_aisle layout aisle_id with
              | Some aisle =>
                  let ty := aisle_type aisle in
                  let weight := if String.eqb ty "main" then (-50)%Z
                                else if String.eqb ty "staging" then (-30)%Z
                                else (-10)%Z in
                  (* weight * (max_width_inches - width_var) *)
                  [(weight, CpSat.Const max_width_inches);
                   ((- weight)%Z, CpSat.Var width_var)]
              | None => []
              end) (map_to_list vars).

Definition build_model (layout : Layout.t) (equipment : Equipment.t)
  (c : constraints) (g : Rng) : CpSat.model * gmap string nat * Rng :=
  let min_w := default (Equipment.min_aisle_width equipment) (min_aisle_width c) in
  let max_w := default (Equipment.max_aisle_width equipment) (max_aisle_width c) in
  let increment := default 0.5 (aisle_width_increment c) in
  let density := default true (optimize_for_density c) in
  let accessibility := default true (optimize_for_accessibility c) in
  let min_width_inches := Py.int (min_w * 12) in
  let max_width_inches := Py.int (max_w * 12) in
  let increment_inches := Py.int (increment * 12) in
  let aisles := Layout.aisles layout in
  let n := length aisles in
  let vars := aisle_width_vars aisles in
  let doms := map (fun _ => (min_width_inches, max_width_inches)) aisles in
  let mods := map (fun i => CpSat.ModuloEq0 (CpSat.Var i) increment_inches) (seq 0 n) in
  let tys := flat_map (type_constraints vars min_width_inches) aisles in
  let '(adjs, g') := adjacency_constraints layout vars min_width_inches aisles g in
  let terms := (if density then density_terms layout vars else [])
               ++ (if accessibility
                   then accessibility_terms layout vars max_width_inches else []) in
  ({| CpSat.domains := doms;
      CpSat.constraints := mods ++ tys ++ adjs;
      CpSat.objective := match terms with
                         | [] => None
                         | _ => Some (CpSat.Minimize, terms)
                         end |}, vars, g').

Definition _solve_with_cp (slv : CpSat.solver) (layout : Layout.t)
  (equipment : Equipment.t) (c : constraints) (g : Rng)
  : result (list entry) * Rng :=
  let '(model, vars, g') := build_model layout equipment c g in
  match CpSat.solve slv model with
  | Some s =>
      (Ok (map (fun aisle =>
                  let width_inches := s (vars !!! Aisle.id aisle) in
                  {| id := Aisle.id aisle; width := inject_Z width_inches / 12 |})
               (Layout.aisles layout)), g')
  | None =>
      (Raise (RuntimeError "Constraint programming solver failed to find a solution"), g')
  end.

(** *** The heuristic fallback *)

Definition rack_adjustment (base_width : Q) (rack : Rack.t) : Q :=
  let rack_type := Rack.rack_type_id rack in
  if String.eqb rack_type "drive-in" || String.eqb rack_type "push-back"
  then base_width + 1
  else if String.eqb rack_type "pallet-flow" then base_width + 0.5
  else base_width.

(** The body of the loop over [layout.aisles], after the adjacent racks
    have been collected. *)
Definition heuristic_width (min_w max_w increment : Q) (density : bool)
  (aisle : Aisle.t) (adjacent_racks : list Rack.t) : result Q :=
  let ty := aisle_type aisle in
  let base_width :=
    if String.eqb ty "main" then min_w + 2
    else if String.eqb ty "cross" then min_w + 1
    else if String.eqb ty "staging" then min_w + 3
    else min_w + 1 in
  let base_width := fold_left rack_adjustment adjacent_racks base_width in
  let base_width :=
    if density then Py.max min_w (base_width - 0.5)
    else Py.min max_w (base_width + 1) in
  q ← Py.div base_width increment;
  let width := inject_Z (Py.round q) * increment in
  Ok (Py.max min_w (Py.min max_w width)).

Fixpoint heuristic_loop (layout : Layout.t) (min_w max_w increment : Q)
  (density : bool) (aisles : list Aisle.t) (g : Rng)
  : result (list entry) * Rng :=
  match aisles with
  | [] => (Ok [], g)
  | aisle :: rest =>
      let '(adjacent_racks, g1) := _get_adjacent_racks layout aisle g in
      match heuristic_width min_w max_w increment density aisle adjacent_racks with
      | Raise e => (Raise e, g1)
      | Ok w =>
          match heuristic_loop layout min_w max_w increment density rest g1 with
          | (Ok result, g2) => (Ok ({| id := Aisle.id aisle; width := w |} :: result), g2)
          | (Raise e, g2) => (Raise e, g2)
          end
      end
  end.

Definition _solve_with_heuristic (layout : Layout.t) (equipment : Equipment.t)
  (c : constraints) (g : Rng) : result (list entry) * Rng :=
  let min_w := default (Equipment.min_aisle_width equipment) (min_aisle_width c) in
  let max_w := default (Equipment.max_aisle_width equipment) (max_aisle_width c) in
  let increment := default 0.5 (aisle_width_increment c) in
  let density := default true (optimize_for_density c) in
  heuristic_loop layout min_w max_w increment density (Layout.aisles layout) g.

Definition default_constraints (equipment : Equipment.t) : constraints :=
  {| min_aisle_width := Some (Equipment.min_aisle_width equipment);
     max_aisle_width := Some (Equipment.max_aisle_width equipment);
     optimize_for_density := Some true;
     optimize_for_accessibility := Some true;
     aisle_width_increment := Some 0.5 |}.

(** [optimize]: the exact path, and on any exception the heuristic. *)
Definition optimize (slv : CpSat.solver) (layout : Layout.t)
  (equipment : Equipment.t) (c : option constraints) (g : Rng)
  : result (list entry) * Rng :=
  let c := match c with
           | None => default_constraints equipment
           | Some c => c
           end in
  match _solve_with_cp slv layout equipment c g with
  | (Ok result, g') => (Ok result, g')
  | (Raise _, g') => _solve_with_heuristic layout equipment c g'
  end.

End AisleWidthOptimizer.

(** ** [algorithms/elevation_optimizer.py] *)

Module ElevationProfileOptimizer.

Record constraints := {
  min_clearance : option Q;
  min_beam_spacing : option Q;
  max_levels : option Z
}.

Definition default_constraints : constraints :=
  {| min_clearance := Some 6; min_beam_spacing := Some 12; max_levels := Some 4%Z |}.

(** [max(xs) if xs else 0] on integers *)
Definition max_or_zero (xs : list Z) : Z :=
  match xs with
  | [] => 0%Z
  | x :: xs' => fold_left (fun a b => if (a <? b)%Z then b else a) xs' x
  end.

(** [beam_elevations]: the constant 0 for the floor, then one variable per
    level; beam [i >= 1] is variable [i - 1]. *)
Definition beam_terms (n : nat) : list CpSat.term :=
  CpSat.Const 0 :: map CpSat.Var (seq 0 n).

Definition beam (n i : nat) : CpSat.term := nth i (beam_terms n) (CpSat.Const 0).

(** [is_usable_i] is variable [n + i]. *)
Definition build_model (product_heights : list Q) (max_height : Q) (c : constraints)
  : result CpSat.model :=
  let min_clearance := default 6 (min_clearance c) in
  let min_beam_spacing := default 12 (min_beam_spacing c) in
  let max_levels := default 4%Z (max_levels c) in
  let max_height_mm := Py.int (max_height * 304.8) in
  let min_clearance_mm := Py.int (min_clearance * 25.4) in
  let min_beam_spacing_mm := Py.int (min_beam_spacing * 25.4) in
  let product_heights_mm := map (fun h => Py.int (h * 25.4)) product_heights in
  let max_product_height_mm := max_or_zero product_heights_mm in
  let n := Z.to_nat max_levels in
  let gap := (max_product_height_mm + min_clearance_mm)%Z in
  let ascending := map (fun i => CpSat.Lt (beam n i) (beam n (S i))) (seq 1 (n - 1)) in
  let spacing := map (fun i => CpSat.DiffGe (beam n (S i)) (beam n i) gap) (seq 0 n) in
  top ← Py.index (beam_terms n) max_levels;
  let usable := map (fun i => CpSat.OnlyEnforceIf (n + i)
                                (CpSat.DiffGe (beam n (S i)) (beam n i) gap))
                    (seq 0 n) in
  Ok {| CpSat.domains := map (fun _ => (min_beam_spacing_mm, max_height_mm)) (seq 0 n)
                         ++ map (fun _ => (0%Z, 1%Z)) (seq 0 n);
        CpSat.constraints := ascending ++ spacing ++ [CpSat.Le top max_height_mm] ++ usable;
        CpSat.objective :=
          Some (CpSat.Maximize, map (fun i => (1%Z, CpSat.Var (n + i))) (seq 0 n)) |}.

Definition _solve_with_cp (slv : CpSat.solver) (product_heights : list Q)
  (max_height : Q) (c : constraints) : result (list Q) :=
  let n := Z.to_nat (default 4%Z (max_levels c)) in
  model ← build_model product_heights max_height c;
  match CpSat.solve slv model with
  | Some s =>
      Ok (0 :: map (fun i => inject_Z (CpSat.eval s (beam n i)) / 304.8) (seq 1 n))
  | None =>
      Raise (RuntimeError "Constraint programming solver failed to find a solution")
  end.

Definition _solve_with_heuristic (product_heights : list Q) (max_height : Q)
  (c : constraints) : result (list Q) :=
  let min_clearance := default 6 (min_clearance c) / 12 in
  let min_beam_spacing := default 12 (min_beam_spacing c) / 12 in
  let max_levels := default 4%Z (max_levels c) in
  let max_product_height :=
    match product_heights with
    | [] => 0
    | h :: hs => Py.max_list h hs
    end in
  let level_height := max_product_height + min_clearance in
  let level_height := Py.max level_height min_beam_spacing in
  q ← Py.div max_height level_height;
  let num_levels := Z.min max_levels (Py.int q) in
  Ok (map (fun i => inject_Z i * level_height) (Py.range (num_levels + 1))).

Definition optimize (slv : CpSat.solver) (rack : Rack.t) (products : list Product.t)
  (equipment : Equipment.t) (c : option constraints) : result (list Q) :=
  let c := default default_constraints c in
  let product_heights := map Product.height products in
  match product_heights with
  | [] => Ok []
  | _ =>
      let max_height := Equipment.reach_height equipment in
      match _solve_with_cp slv product_heights max_height c with
      | Ok result => Ok result
      | Raise _ => _solve_with_heuristic product_heights max_height c
      end
  end.

End ElevationProfileOptimizer.

(** ** The 0/1 program handed to the MIP solver ([pywraplp], SCIP)

    One boolean variable [x[p][l]] per product index and location index. *)

Module Mip.

Inductive constr :=
| SumEq (vars : list (nat * nat)) (k : Z)     (* sum of the variables == k *)
| SumLe (vars : list (nat * nat)) (k : Z)     (* sum of the variables <= k *)
| IsZero (v : nat * nat).                     (* x == 0 *)

Record model := {
  constraints : list constr;
  coefficients : list (nat * nat * Q)          (* maximised objective *)
}.

Definition assignment := nat -> nat -> bool.

Definition count (x : assignment) (vars : list (nat * nat)) : Z :=
  Z.of_nat (length (List.filter (fun v => x v.1 v.2) vars)).

Definition holds (x : assignment) (c : constr) : bool :=
  match c with
  | SumEq vars k => (count x vars =? k)%Z
  | SumLe vars k => (count x vars <=? k)%Z
  | IsZero v => negb (x v.1 v.2)
  end.

Definition feasible (m : model) (x : assignment) : bool :=
  forallb (holds x) (constraints m).

(** [created] is whether [Solver.CreateSolver('SCIP')] returned a solver;
    [solve] returns [Some x] for the statuses OPTIMAL and FEASIBLE. *)
Record solver := {
  created : bool;
  solve : model -> option assignment;
  solve_sound : forall m x, solve m = Some x -> feasible m x = true
}.

Definition candidate_solver (x : assignment) : solver :=
{| created := true;
   solve m := if feasible m x then Some x else None;
   solve_sound := ltac:(intros m x' H; cbv beta in H;
                        destruct (feasible m x) eqn:E;
                        [inversion H; subst; exact E | discriminate H]) |}.

End Mip.

(** ** [algorithms/slotting_optimizer.py] *)

Module SlottingOptimizer.

Record constraints := {
  velocity_weighting : option Q;
  accessibility_weighting : option Q;
  optimize_for_throughput : option bool;
  respect_product_dimensions : option bool;
  respect_weight_limits : option bool;
  group_similar_products : option bool
}.

Definition default_constraints : constraints :=
  {| velocity_weighting := Some 0.7;
     accessibility_weighting := Some 0.3;
     optimize_for_throughput := Some false;
     respect_product_dimensions := Some true;
     respect_weight_limits := Some true;
     group_similar_products := Some true |}.

(** One element [{"product_id": ..., "location_id": ..., "quantity": ...}]. *)
Record assignment := { product_id : string; location_id : string; quantity : Z }.

Definition _calculate_location_accessibility (rack : Rack.t) (bay level : Z) : Q :=
  let rack_type := Rack.rack_type_id rack in
  let base_accessibility :=
    if String.eqb rack_type "selective" then 0.9
    else if String.eqb rack_type "drive-in" || String.eqb rack_type "push-back" then 0.7
    else if String.eqb rack_type "pallet-flow" then 0.8
    else 0.75 in
  let max_level := 5 in
  let level_factor := 1 - (inject_Z level / max_level) * 0.8 in
  let total_bays := Rack.bays rack in
  let bay_position := inject_Z bay / inject_Z (Z.max 1 (total_bays - 1)) in
  let bay_factor := 1 - 0.2 * (1 - 2 * Qabs (bay_position - 0.5)) in
  base_accessibility * level_factor * bay_factor.

Definition make_location (rack : Rack.t) (bay level : Z) : Location.t :=
  let cfg := Rack.configuration rack in
  let elevation :=
    match Configuration.beam_elevations cfg with
    | Some es =>
        if (level <? Z.of_nat (length es))%Z
        then nth (Z.to_nat level) es 0
        else inject_Z level * 6
    | None => inject_Z level * 6
    end in
  {| Location.id := ("loc-" ++ Rack.id rack ++ "-" ++ Py.str bay ++ "-" ++ Py.str level)%string;
     Location.rack_id := Rack.id rack;
     Location.bay_id := ("bay-" ++ Rack.id rack ++ "-" ++ Py.str bay)%string;
     Location.level := level;
     Location.position := bay;
     Location.elevation := elevation;
     Location.dim_length := Some 48;
     Location.dim_width := Some 40;
     Location.dim_height := Some 6;
     Location.prop_rack_type := Some (Rack.rack_type_id rack);
     Location.prop_accessibility := Some (_calculate_location_accessibility rack bay level);
     Location.prop_weight_limit := None |}.

Definition rack_locations (rack : Rack.t) : list Location.t :=
  let levels := default 3%Z (Configuration.beam_levels (Rack.configuration rack)) in
  flat_map (fun bay => map (make_location rack bay) (Py.range levels))
           (Py.range (Rack.bays rack)).

Definition _get_all_locations (layout : Layout.t) : list Location.t :=
  flat_map rack_locations (Layout.racks layout).

Definition _product_fits_location (product : Product.t) (location : Location.t) : bool :=
  let product_length := Product.length product in
  let product_width := Product.width product in
  let product_height := Product.height product in
  let location_length := default 0 (Location.dim_length location) in
  let location_width := default 0 (Location.dim_width location) in
  let location_height := default 0 (Location.dim_height location) in
  let fits_normal :=
    Qle_bool product_length location_length &&
    Qle_bool product_width location_width &&
    Qle_bool product_height location_height in
  let fits_rotated :=
    Qle_bool product_width location_length &&
    Qle_bool product_length location_width &&
    Qle_bool product_height location_height in
  fits_normal || fits_rotated.

Definition _check_weight_limit (product : Product.t) (location : Location.t) : bool :=
  match Location.prop_weight_limit location with
  | None => true
  | Some weight_limit => Qle_bool (Product.weight product) weight_limit
  end.

Definition _calculate_velocity_score (product : Product.t) (location : Location.t) : Q :=
  let velocity_class := Product.velocity_class product in
  let accessibility := default 0.5 (Location.prop_accessibility location) in
  if String.eqb velocity_class "A" then 0.8 + 0.2 * accessibility
  else if String.eqb velocity_class "B" then 0.5 + 0.3 * accessibility
  else 0.2 + 0.2 * accessibility.

Definition _calculate_accessibility_score (location : Location.t) : Q :=
  match Location.prop_accessibility location with
  | Some a => a
  | None =>
      let max_level := 5 in
      Py.max 0.1 (1 - (inject_Z (Location.level location) / max_level) * 0.9)
  end.

Definition _calculate_throughput_score (product : Product.t) (location : Location.t) : Q :=
  let throughput := inject_Z (Product.monthly_throughput product) in
  let accessibility := default 0.5 (Location.prop_accessibility location) in
  let normalized_throughput := Py.min 1 (throughput / 1000) in
  normalized_throughput * accessibility.

(** [enumerate(l)] *)
Definition enumerate {A} (l : list A) : list (nat * A) := combine (seq 0 (length l)) l.

(** *** The exact path *)

Definition score (c : constraints) (product : Product.t) (location : Location.t) : Q :=
  let velocity_weighting := default 0.7 (velocity_weighting c) in
  let accessibility_weighting := default 0.3 (accessibility_weighting c) in
  let velocity_score := _calculate_velocity_score product location in
  let accessibility_score := _calculate_accessibility_score location in
  if default false (optimize_for_throughput c)
  then velocity_weighting * velocity_score + accessibility_weighting * accessibility_score
       + 0.2 * _calculate_throughput_score product location
  else velocity_weighting * velocity_score + accessibility_weighting * accessibility_score.

(** The pairs [(p, l)] on which [test product location] fails. *)
Definition pruned (test : Product.t -> Location.t -> bool)
  (products : list Product.t) (locations : list Location.t) : list Mip.constr :=
  flat_map (fun '(p, product) =>
              flat_map (fun '(l, location) =>
                          if test product location then [] else [Mip.IsZero (p, l)])
                       (enumerate locations))
           (enumerate products).

Definition build_model (c : constraints) (products : list Product.t)
  (locations : list Location.t) : Mip.model :=
  let np := length products in
  let nl := length locations in
  let respect_dimensions := default true (respect_product_dimensions c) in
  let respect_weight_limits := default true (respect_weight_limits c) in
  {| Mip.constraints :=
       map (fun p => Mip.SumEq (map (fun l => (p, l)) (seq 0 nl)) 1) (seq 0 np)
       ++ map (fun l => Mip.SumLe (map (fun p => (p, l)) (seq 0 np)) 1) (seq 0 nl)
       ++ (if respect_dimensions
           then pruned _product_fits_location products locations else [])
       ++ (if respect_weight_limits
           then pruned _check_weight_limit products locations else []);
     Mip.coefficients :=
       flat_map (fun '(p, product) =>
                   map (fun '(l, location) => (p, l, score c product location))
                       (enumerate locations))
                (enumerate products) |}.

(** The product/location pairs the solution selects, in the order of the
    two nested loops that read [solution_value]. *)
Definition selected (x : Mip.assignment) (products : list Product.t)
  (locations : list Location.t) : list (Product.t * Location.t) :=
  flat_map (fun '(p, product) =>
              flat_map (fun '(l, location) =>
                          if x p l then [(product, location)] else [])
                       (enumerate locations))
           (enumerate products).

Definition to_assignment (pl : Product.t * Location.t) : assignment :=
  {| product_id := Product.id pl.1; location_id := Location.id pl.2; quantity := 1 |}.

Definition is_empty {A} (l : list A) : bool :=
  match l with [] => true | _ => false end.

Definition _solve_with_mip (slv : Mip.solver) (layout : Layout.t)
  (products : list Product.t) (c : constraints) : result (list assignment) :=
  let locations := _get_all_locations layout in
  if is_empty locations || is_empty products then Ok []
  else if negb (Mip.created slv) then Raise (RuntimeError "Could not create solver")
  else
    match Mip.solve slv (build_model c products locations) with
    | Some x => Ok (map to_assignment (selected x products locations))
    | None =>
        Raise (RuntimeError "Mixed integer programming solver failed to find a solution")
    end.

(** *** The heuristic fallback *)

(** The inner loop: the first location, in the given order, that is not
    yet taken and (when dimensions are respected) fits the product. *)
Fixpoint first_free (respect_dimensions : bool) (product : Product.t)
  (sorted_locations : list Location.t) (assigned_locations : gset string)
  : option Location.t :=
  match sorted_locations with
  | [] => None
  | location :: rest =>
      if bool_decide (Location.id location ∈ assigned_locations)
      then first_free respect_dimensions product rest assigned_locations
      else if respect_dimensions && negb (_product_fits_location product location)
      then first_free respect_dimensions product rest assigned_locations
      else Some location
  end.

(** The outer loop over [sorted_products]; a product for which the inner
    loop finds nothing is skipped. *)
Fixpoint assign_loop (respect_dimensions : bool) (sorted_products : list Product.t)
  (sorted_locations : list Location.t) (assigned_locations : gset string)
  : list (Product.t * Location.t) :=
  match sorted_products with
  | [] => []
  | product :: rest =>
      match first_free respect_dimensions product sorted_locations assigned_locations with
      | Some location =>
          (product, location)
          :: assign_loop respect_dimensions rest sorted_locations
               (assigned_locations ∪ {[Location.id location]})
      | None =>
          assign_loop respect_dimensions rest sorted_locations assigned_locations
      end
  end.

Definition sorted_products (products : list Product.t) : list Product.t :=
  Py.sorted_reverse Product.velocity_class String.leb products.

Definition sorted_locations (locations : list Location.t) : list Location.t :=
  Py.sorted_reverse _calculate_accessibility_score Qle_bool locations.

Definition heuristic_pairs (layout : Layout.t) (products : list Product.t)
  (c : constraints) : list (Product.t * Location.t) :=
  let respect_dimensions := default true (respect_product_dimensions c) in
  let locations := _get_all_locations layout in
  if is_empty locations || is_empty products then []
  else assign_loop respect_dimensions (sorted_products products)
                   (sorted_locations locations) ∅.

Definition _solve_with_heuristic (layout : Layout.t) (products : list Product.t)
  (c : constraints) : result (list assignment) :=
  Ok (map to_assignment (heuristic_pairs layout products c)).

Definition optimize (slv : Mip.solver) (layout : Layout.t) (products : list Product.t)
  (c : option constraints) : result (list assignment) :=
  let c := default default_constraints c in
  match _solve_with_mip slv layout products c with
  | Ok result => Ok result
  | Raise _ => _solve_with_heuristic layout products c
  end.

End SlottingOptimizer.

(** ** [core/engine.py]

    The engine mutates the layout it is given; every entry point returns
    what the call returns (or raises) together with the layout as the call
    leaves it. *)

Module OptimizationEngine.

(** The engine-level [parameters] dict. *)
Record parameters := {
  optimize_rack_placement : option bool;
  optimize_aisle_widths : option bool;
  optimize_elevations : option bool;
  optimize_slotting : option bool;
  storage_density_weight : option Q;
  accessibility_weight : option Q;
  throughput_weight : option Q;
  min_clearance : option Q;
  min_beam_spacing : option Q;
  max_levels : option Z
}.

Definition metrics := gmap string Q.

(** The capacity of one rack, by rack type. *)
Definition rack_pallet_positions (rack : Rack.t) : Q :=
  let rack_type := Rack.rack_type_id rack in
  let bays := inject_Z (Rack.bays rack) in
  let levels := inject_Z (default 3%Z (Configuration.beam_levels (Rack.configuration rack))) in
  if String.eqb rack_type "selective" then bays * levels
  else if String.eqb rack_type "drive-in" then bays * levels * 4
  else if String.eqb rack_type "push-back" then bays * levels * 3
  else if String.eqb rack_type "pallet-flow" then bays * levels * 6
  else if String.eqb rack_type "mobile" then bays * levels * 1.5
  else bays * levels.

Definition _calculate_layout_metrics (layout : Layout.t) : metrics :=
  let pallet_positions :=
    fold_left (fun acc rack => acc + rack_pallet_positions rack) (Layout.racks layout) 0 in
  let n_racks := inject_Z (Z.of_nat (length (Layout.racks layout))) in
  let n_aisles := inject_Z (Z.of_nat (length (Layout.aisles layout))) in
  let storage_density := Py.min 0.95 (0.5 + n_racks * 0.05) in
  let space_utilization := Py.min 0.9 (0.4 + n_racks * 0.04) in
  let travel_distance := Py.max 20 (100 - n_aisles * 5) in
  let accessibility_score := Py.min 0.95 (0.6 + n_aisles * 0.03) in
  let throughput_capacity := Py.min 200 (50 + pallet_positions / 10) in
  <["pallet_positions" := pallet_positions]>
  (<["storage_density" := storage_density]>
  (<["space_utilization" := space_utilization]>
  (<["travel_distance" := travel_distance]>
  (<["accessibility_score" := accessibility_score]>
  (<["throughput_capacity" := throughput_capacity]> ∅))))).

Definition _calculate_rack_metrics (rack : Rack.t) (products : list Product.t)
  : result metrics :=
  let pallet_positions := rack_pallet_positions rack in
  let storage_efficiency := 0.85 in
  let beam_elevations :=
    default [] (Configuration.beam_elevations (Rack.configuration rack)) in
  vertical_utilization ←
    (if (1 <? Z.of_nat (length beam_elevations))%Z
     then
       let max_height := Rack.height rack in
       top_beam ← Py.index beam_elevations (-1);
       q ← Py.div top_beam max_height;
       Ok (Py.min 0.95 q)
     else Ok 0.8);
  Ok (<["pallet_positions" := pallet_positions]>
      (<["storage_efficiency" := storage_efficiency]>
      (<["vertical_utilization" := vertical_utilization]> ∅))).

Definition _calculate_slotting_metrics (layout : Layout.t)
  (assignments : list SlottingOptimizer.assignment) (products : list Product.t)
  : result metrics :=
  q ← Py.div (inject_Z (Z.of_nat (length assignments)))
             (inject_Z (Z.of_nat (length products) * 2));
  let slotting_efficiency := Py.min 0.95 (0.7 + q) in
  let travel_efficiency := Py.min 0.9 (0.6 + slotting_efficiency * 0.3) in
  let pick_rate := 60 + travel_efficiency * 40 in
  Ok (<["slotting_efficiency" := slotting_efficiency]>
      (<["travel_efficiency" := travel_efficiency]>
      (<["pick_rate" := pick_rate]> ∅))).

(** [next((r for r in layout.racks if r.id == rack_id), None)] *)
Definition find_rack (layout : Layout.t) (rack_id : string) : option Rack.t :=
  find (fun r => String.eqb (Rack.id r) rack_id) (Layout.racks layout).

(** The effect on [layout.racks] of mutating the rack that [find_rack]
    returned: the first rack with that id is the one that changes. *)
Fixpoint update_found (rack_id : string) (f : Rack.t -> Rack.t) (racks : list Rack.t)
  : list Rack.t :=
  match racks with
  | [] => []
  | r :: rest =>
      if String.eqb (Rack.id r) rack_id then f r :: rest
      else r :: update_found rack_id f rest
  end.

(** What [optimize_rack_elevations] returns. *)
Record rack_elevations_result := {
  res_rack_id : string;
  res_beam_elevations : list Q;
  res_metrics : metrics
}.

Definition optimize_rack_elevations (slv : CpSat.solver) (layout : Layout.t)
  (rack_id : string) (products : list Product.t) (equipment : Equipment.t)
  (params : option ElevationProfileOptimizer.constraints)
  : result rack_elevations_result * Layout.t :=
  let params := default ElevationProfileOptimizer.default_constraints params in
  match find_rack layout rack_id with
  | None => (Raise (ValueError ("Rack not found with id: " ++ rack_id)%string), layout)
  | Some rack =>
      match ElevationProfileOptimizer.optimize slv rack products equipment (Some params) with
      | Raise e => (Raise e, layout)
      | Ok beam_elevations =>
          let set := fun r =>
            Rack.with_configuration
              (Configuration.set_beam_elevations beam_elevations (Rack.configuration r)) r in
          let layout' :=
            Layout.with_racks (update_found rack_id set (Layout.racks layout)) layout in
          (m ← _calculate_rack_metrics (set rack) products;
           Ok {| res_rack_id := rack_id;
                 res_beam_elevations := beam_elevations;
                 res_metrics := m |},
           layout')
      end
  end.

(** The loop of [_optimize_rack_elevations] over [layout.racks]: the racks
    already visited keep their new configuration when a later one raises. *)
Fixpoint elevation_loop (slv : CpSat.solver) (products : list Product.t)
  (equipment : Equipment.t) (elevation_params : ElevationProfileOptimizer.constraints)
  (racks : list Rack.t) : result unit * list Rack.t :=
  match racks with
  | [] => (Ok tt, [])
  | rack :: rest =>
      match ElevationProfileOptimizer.optimize slv rack products equipment
              (Some elevation_params) with
      | Raise e => (Raise e, rack :: rest)
      | Ok beam_elevations =>
          let cfg := Configuration.set_beam_elevations beam_elevations
                       (Rack.configuration rack) in
          let cfg := Configuration.set_beam_levels
                       (Z.of_nat (length beam_elevations) - 1) cfg in
          let '(r, rest') := elevation_loop slv products equipment elevation_params rest in
          (r, Rack.with_configuration cfg rack :: rest')
      end
  end.

Definition _optimize_rack_elevations (slv : CpSat.solver) (layout : Layout.t)
  (products : list Product.t) (equipment : Equipment.t) (params : parameters)
  : result unit * Layout.t :=
  let elevation_params :=
    {| ElevationProfileOptimizer.min_clearance := Some (default 6 (min_clearance params));
       ElevationProfileOptimizer.min_beam_spacing := Some (default 12 (min_beam_spacing params));
       ElevationProfileOptimizer.max_levels := Some (default 4%Z (max_levels params)) |} in
  let '(r, racks') :=
    elevation_loop slv products equipment elevation_params (Layout.racks layout) in
  (r, Layout.with_racks racks' layout).

(** [evaluate_layout]; [products] is [None] when the argument is omitted. *)
Definition evaluate_layout (layout : Layout.t) (products : option (list Product.t))
  : result metrics * Layout.t :=
  let m := _calculate_layout_metrics layout in
  match products with
  | Some (p :: ps) =>
      let assignments := [] in
      (slotting_metrics ← _calculate_slotting_metrics layout assignments (p :: ps);
       (* metrics.update(slotting_metrics) *)
       Ok (slotting_metrics ∪ m), layout)
  | _ => (Ok m, layout)
  end.

End OptimizationEngine.

(** ** Properties the specification speaks about *)

(** [w] is an integer multiple of [inc]. *)
Definition multiple_of (inc w : Q) : Prop := exists k : Z, w == inject_Z k * inc.

(** The pairs of neighbours of a sequence. *)
Fixpoint consecutive {A} (l : list A) : list (A * A) :=
  match l with
  | a :: (b :: _) as t => (a, b) :: consecutive t
  | _ => []
  end.

Definition strictly_increasing (l : list Q) : Prop :=
  Forall (fun ab => ab.1 < ab.2) (consecutive l).

(** Every gap between neighbours is at least [d]. *)
Definition gaps_at_least (d : Q) (l : list Q) : Prop :=
  Forall (fun ab => d <= ab.2 - ab.1) (consecutive l).

(** ** Concrete inputs used by the scenarios *)

Module Scenario.

Definition equipment (reach min_w max_w : Q) : Equipment.t :=
  {| Equipment.id := "eq-1"; Equipment.reach_height := reach;
     Equipment.min_aisle_width := min_w; Equipment.max_aisle_width := max_w;
     Equipment.turning_radius := 6; Equipment.lift_capacity := 3000 |}.

Definition aisle (i ty : string) : Aisle.t :=
  {| Aisle.id := i; Aisle.layout_id := "layout-1";
     Aisle.path := [(0, 0); (0, 100)]; Aisle.width := 10;
     Aisle.properties := {[ "type" := ty ]} |}.

Definition rack (i ty : string) (bays : Z) (cfg : Configuration.t) : Rack.t :=
  {| Rack.id := i; Rack.layout_id := "layout-1"; Rack.rack_type_id := ty;
     Rack.height := 20; Rack.length := 96; Rack.depth := 48; Rack.bays := bays;
     Rack.configuration := cfg |}.

Definition levels (n : Z) : Configuration.t :=
  {| Configuration.beam_levels := Some n; Configuration.beam_elevations := None;
     Configuration.beam_height := Some 6; Configuration.first_beam_height := Some 6 |}.

Definition layout (racks : list Rack.t) (aisles : list Aisle.t) : Layout.t :=
  {| Layout.id := "layout-1"; Layout.facility_id := "facility-1";
     Layout.status := "draft"; Layout.racks := racks; Layout.aisles := aisles |}.

Definition product (i vc : string) (h : Q) : Product.t :=
  {| Product.id := i; Product.length := 40; Product.width := 48; Product.height := h;
     Product.weight := 1000; Product.velocity_class := vc;
     Product.monthly_throughput := 100 |}.

(** A generator whose every draw is [u]. *)
Definition constant_rng (u : Q) : Rng := fun _ => u.

End Scenario.

(** ** Predicates and inputs used in the statements below *)

Section ScenarioAInputs.
Import AisleWidthOptimizer.

Definition scenario_A_layout : Layout.t :=
  Scenario.layout [] [Scenario.aisle "aisle-1" "main"].

Definition scenario_A_equipment : Equipment.t := Scenario.equipment 30 12 14.

End ScenarioAInputs.

Section ScenarioBInputs.
Import ElevationProfileOptimizer.

Definition scenario_B_heights : list Q := [48; 36; 24].

Definition scenario_B_constraints : constraints :=
  {| min_clearance := Some 6; min_beam_spacing := Some 12; max_levels := Some 4%Z |}.

End ScenarioBInputs.

Section ScenarioCInputs.
Import SlottingOptimizer.

Definition scenario_C_layout : Layout.t :=
  Scenario.layout [Scenario.rack "rack-1" "selective" 1 (Scenario.levels 2)] [].

Definition scenario_C_products : list Product.t :=
  [Scenario.product "sku-A" "A" 5; Scenario.product "sku-B" "B" 5;
   Scenario.product "sku-C" "C" 5].

End ScenarioCInputs.

Section HiddenRandomnessInputs.
Import AisleWidthOptimizer.

Definition random_layout : Layout.t :=
  Scenario.layout [Scenario.rack "rack-1" "drive-in" 3 (Scenario.levels 3)]
                  [Scenario.aisle "aisle-1" "standard"].

Definition random_equipment : Equipment.t := Scenario.equipment 30 10 14.

End HiddenRandomnessInputs.

Section BeamLevelsInputs.
Import OptimizationEngine.

Definition single_rack_layout : Layout.t :=
  Scenario.layout [Scenario.rack "rack-1" "selective" 3 (Scenario.levels 3)] [].

Definition single_rack_products : list Product.t :=
  [Scenario.product "sku-1" "A" 48; Scenario.product "sku-2" "B" 36;
   Scenario.product "sku-3" "C" 24].

Definition single_rack_equipment : Equipment.t := Scenario.equipment 288 12 14.

End BeamLevelsInputs.

Section SlottingInputs.
Import SlottingOptimizer.

(** What the specification asks of one assigned pair. *)
Definition assignment_ok (c : constraints) (products : list Product.t)
  (locations : list Location.t) (pl : Product.t * Location.t) : Prop :=
  In pl.1 products /\ In pl.2 locations
  /\ (default true (respect_product_dimensions c) = true ->
      _product_fits_location pl.1 pl.2 = true)
  /\ (default true (respect_weight_limits c) = true ->
      _check_weight_limit pl.1 pl.2 = true).

(** No dash occurs in the string. *)
Fixpoint no_dash (s : string) : bool :=
  match s with
  | EmptyString => true
  | String ch s' => negb (Ascii.eqb ch "-") && no_dash s'
  end.

(** The exact solution that gives product [p] the location of index [p]. *)
Definition diagonal : Mip.assignment := Nat.eqb.

Definition two_products : list Product.t :=
  [Scenario.product "sku-A" "A" 5; Scenario.product "sku-B" "B" 5].

(** Two racks that share an id generate the same location ids. *)
Definition twin_racks_layout : Layout.t :=
  Scenario.layout [Scenario.rack "rack-1" "selective" 1 (Scenario.levels 1);
                   Scenario.rack "rack-1" "selective" 1 (Scenario.levels 1)] [].

End SlottingInputs.

Section AisleWidthsInputs.
Import AisleWidthOptimizer.

(** What the specification asks of one returned entry. *)
Definition width_ok (min_w max_w increment : Q) (e : entry) : Prop :=
  min_w <= width e /\ width e <= max_w /\ multiple_of increment (width e).

(** A solver that proposes 156 inches for every aisle. *)
Definition solver_156 : CpSat.solver := CpSat.candidate_solver (fun _ => 156%Z).

Definition narrow_equipment : Equipment.t := Scenario.equipment 30 12 12.25.

Definition inverted_equipment : Equipment.t := Scenario.equipment 30 14 12.

Definition tenths_layout : Layout.t :=
  Scenario.layout [] [Scenario.aisle "aisle-1" "standard"].

Definition tenths_equipment : Equipment.t := Scenario.equipment 30 12.3 15.

Definition tenths_constraints : constraints :=
  {| min_aisle_width := None; max_aisle_width := None;
     aisle_width_increment := Some 0.3;
     optimize_for_density := None; optimize_for_accessibility := None |}.

(** The least width of the exact model for [tenths_equipment]: 147 inches. *)
Definition solver_147 : CpSat.solver := CpSat.candidate_solver (fun _ => 147%Z).

End AisleWidthsInputs.

Section ElevationsInputs.
Import ElevationProfileOptimizer.

(** The tightest solution of the exact model of scenario B: beams every
    1371 mm, every level marked usable. *)
Definition tight_beams : CpSat.assignment :=
  fun v => match v with
           | 0%nat => 1371
           | 1%nat => 2742
           | 2%nat => 4113
           | 3%nat => 5484
           | _ => 1
           end%Z.

Definition tight_solver : CpSat.solver := CpSat.candidate_solver tight_beams.

Definition scenario_B_rack : Rack.t :=
  Scenario.rack "rack-1" "selective" 3 (Scenario.levels 3).

Definition zero_solver : CpSat.solver := CpSat.candidate_solver (fun _ => 0%Z).

Definition no_levels : constraints :=
  {| min_clearance := Some 6; min_beam_spacing := Some 12; max_levels := Some (-1)%Z |}.

Definition one_level : constraints :=
  {| min_clearance := Some 6; min_beam_spacing := Some 12; max_levels := Some 1%Z |}.

Definition no_spacing : constraints :=
  {| min_clearance := Some 0; min_beam_spacing := Some 0; max_levels := Some 1%Z |}.

Definition below_floor_equipment : Equipment.t := Scenario.equipment (-100) 12 14.

End ElevationsInputs.

(** ** [models/facility.py] and the rest of [core/engine.py]

    [Facility.boundary] is declared a GeoJSON dict; the engine reads it
    through the attribute [coordinates], which a dict does not have and an
    object carrying the rings does.  Both kinds of value are kept apart. *)

Module Facility.
Inductive geometry :=
| Dict (entries : gmap string (list (list (Q * Q))))
| Shape (coordinates : list (list (Q * Q))).
Record t := {
  id : string;
  name : string;
  clear_height : Q;
  boundary : geometry
}.
End Facility.

Module Pipeline.

(** What can leave an engine call: an exception of the optimisers, or the
    [AttributeError] of reading [.coordinates] off a dict. *)
Inductive raised :=
| Builtin (e : Py.exn)
| AttributeError (msg : string).

Inductive outcome (A : Type) :=
| Returns (a : A)
| Raises (e : raised).
Arguments Returns {A} a.
Arguments Raises {A} e.

Definition lift {A} (r : result A) : outcome A :=
  match r with
  | Ok a => Returns a
  | Raise e => Raises (Builtin e)
  end.

(** [str(n)] of any integer *)
Definition str_int (n : Z) : string :=
  if (n <? 0)%Z then ("-" ++ Py.str (- n))%string else Py.str n.

(** [min(xs)] and [max(xs)] of a generator: [ValueError] when it is empty. *)
Definition min_of (xs : list Q) : result Q :=
  match xs with
  | [] => Raise (ValueError "min() arg is an empty sequence")
  | x :: xs' => Ok (fold_left Py.min xs' x)
  end.

Definition max_of (xs : list Q) : result Q :=
  match xs with
  | [] => Raise (ValueError "max() arg is an empty sequence")
  | x :: xs' => Ok (fold_left Py.max xs' x)
  end.

(** [_create_initial_layout]; [uuid] is the value of [str(uuid.uuid4())]. *)
Definition _create_initial_layout (uuid : string) (facility : Facility.t) : Layout.t :=
  {| Layout.id := uuid; Layout.facility_id := Facility.id facility;
     Layout.status := "draft"; Layout.racks := []; Layout.aisles := [] |}.

(** *** [_optimize_rack_placement]: the grid *)

Definition rack_length : Q := 96.
Definition rack_depth : Q := 48.
Definition rack_height : Q := 20.

(** A rack as the grid creates it: the fields of [Rack.t], its footprint
    and its orientation. *)
Record placed := {
  placed_rack : Rack.t;
  placed_location : list (Q * Q);
  placed_orientation : Q
}.

Definition grid_rack (layout_id : string) (aisle_idx side rack_idx : Z)
  (rack_x rack_y : Q) : placed :=
  {| placed_rack :=
       {| Rack.id := ("rack-" ++ layout_id ++ "-" ++ str_int aisle_idx ++ "-"
                      ++ str_int side ++ "-" ++ str_int rack_idx)%string;
          Rack.layout_id := layout_id;
          Rack.rack_type_id := "selective";
          Rack.height := rack_height;
          Rack.length := rack_length;
          Rack.depth := rack_depth;
          Rack.bays := 3;
          Rack.configuration :=
            {| Configuration.beam_levels := Some 3%Z;
               Configuration.beam_elevations := None;
               Configuration.beam_height := Some 6;
               Configuration.first_beam_height := Some 6 |} |};
     placed_location :=
       [(rack_x - rack_depth / 2, rack_y - rack_length / 2);
        (rack_x + rack_depth / 2, rack_y - rack_length / 2);
        (rack_x + rack_depth / 2, rack_y + rack_length / 2);
        (rack_x - rack_depth / 2, rack_y + rack_length / 2);
        (rack_x - rack_depth / 2, rack_y - rack_length / 2)];
     placed_orientation := if (side =? -1)%Z then 0 else 3.14159 |}.

(** The racks on both sides of one main aisle. *)
Definition aisle_racks (layout_id : string) (aisle_idx : Z) (aisle_x start_y aisle_width : Q)
  (racks_per_aisle : Z) : list placed :=
  flat_map (fun side =>
              let rack_x := aisle_x + inject_Z side * (aisle_width / 2 + rack_depth / 2) in
              map (fun rack_idx =>
                     let rack_y := start_y + inject_Z rack_idx * (rack_length + 10) in
                     grid_rack layout_id aisle_idx side rack_idx rack_x rack_y)
                  (Py.range racks_per_aisle))
           [(-1)%Z; 1%Z].

Definition main_aisle (layout_id : string) (aisle_idx : Z)
  (aisle_x start_y usable_depth aisle_width : Q) : Aisle.t :=
  {| Aisle.id := ("aisle-" ++ layout_id ++ "-" ++ str_int aisle_idx)%string;
     Aisle.layout_id := layout_id;
     Aisle.path := [(aisle_x, start_y); (aisle_x, start_y + usable_depth)];
     Aisle.width := aisle_width;
     Aisle.properties := {[ "type" := "main" ]} |}.

Definition cross_aisle (layout_id : string) (cross_idx : Z)
  (start_x cross_y usable_width aisle_width : Q) : Aisle.t :=
  {| Aisle.id := ("cross-" ++ layout_id ++ "-" ++ str_int cross_idx)%string;
     Aisle.layout_id := layout_id;
     Aisle.path := [(start_x, cross_y); (start_x + usable_width, cross_y)];
     Aisle.width := aisle_width;
     Aisle.properties := {[ "type" := "cross" ]} |}.

(** The counts and offsets the grid is built from. *)
Record grid := {
  aisle_width : Q;
  usable_width : Q;
  usable_depth : Q;
  num_aisles : Z;
  racks_per_aisle : Z;
  num_cross_aisles : Z;
  start_x : Q;
  start_y : Q
}.

(** The two divisors are at least 106, since the aisle width is at least 10. *)
Definition grid_of (boundary_coords : list (Q * Q)) (equipment : Equipment.t)
  : result grid :=
  min_x ← min_of (map fst boundary_coords);
  max_x ← max_of (map fst boundary_coords);
  min_y ← min_of (map snd boundary_coords);
  max_y ← max_of (map snd boundary_coords);
  let width := max_x - min_x in
  let depth := max_y - min_y in
  let aisle_width := Py.max (Equipment.min_aisle_width equipment) 10 in
  let usable_width := width * 0.8 in
  let usable_depth := depth * 0.8 in
  let num_aisles := Z.max 1 (Py.int (usable_width / (2 * rack_depth + aisle_width))) in
  let racks_per_aisle := Z.max 1 (Py.int (usable_depth / (rack_length + aisle_width))) in
  Ok {| aisle_width := aisle_width;
        usable_width := usable_width;
        usable_depth := usable_depth;
        num_aisles := num_aisles;
        racks_per_aisle := racks_per_aisle;
        num_cross_aisles := Z.max 1 (Py.int (inject_Z racks_per_aisle / 5));
        start_x := min_x + (width - usable_width) / 2;
        start_y := min_y + (depth - usable_depth) / 2 |}.

Definition aisle_x_of (gr : grid) (aisle_idx : Z) : Q :=
  start_x gr + inject_Z aisle_idx * (2 * rack_depth + aisle_width gr) + rack_depth.

Definition grid_racks (layout_id : string) (gr : grid) : list placed :=
  flat_map (fun aisle_idx =>
              aisle_racks layout_id aisle_idx (aisle_x_of gr aisle_idx) (start_y gr)
                          (aisle_width gr) (racks_per_aisle gr))
           (Py.range (num_aisles gr)).

Definition grid_aisles (layout_id : string) (gr : grid) : list Aisle.t :=
  map (fun aisle_idx =>
         main_aisle layout_id aisle_idx (aisle_x_of gr aisle_idx) (start_y gr)
                    (usable_depth gr) (aisle_width gr))
      (Py.range (num_aisles gr))
  ++ map (fun cross_idx =>
            let cross_y := start_y gr + inject_Z (cross_idx + 1) * usable_depth gr
                                        / inject_Z (num_cross_aisles gr + 1) in
            cross_aisle layout_id cross_idx (start_x gr) cross_y
                        (usable_width gr) (aisle_width gr))
         (Py.range (num_cross_aisles gr)).

Definition _optimize_rack_placement (layout : Layout.t) (facility : Facility.t)
  (equipment : Equipment.t) : outcome Layout.t :=
  match Facility.boundary facility with
  | Facility.Dict entries =>
      if bool_decide (entries = ∅) then Returns layout
      else Raises (AttributeError "'dict' object has no attribute 'coordinates'")
  | Facility.Shape [] => Returns layout
  | Facility.Shape (boundary_coords :: _) =>
      match grid_of boundary_coords equipment with
      | Raise e => Raises (Builtin e)
      | Ok gr =>
          Returns
            {| Layout.id := Layout.id layout;
               Layout.facility_id := Layout.facility_id layout;
               Layout.status := Layout.status layout;
               Layout.racks := map placed_rack (grid_racks (Layout.id layout) gr);
               Layout.aisles := grid_aisles (Layout.id layout) gr |}
      end
  end.

(** *** Aisle widths *)

(** [aisle = next((a for a in layout.aisles if a.id == aisle_id), None)]
    followed by [aisle.width = width]: the first aisle with that id. *)
Fixpoint set_width (aisle_id : string) (w : Q) (aisles : list Aisle.t) : list Aisle.t :=
  match aisles with
  | [] => []
  | a :: rest =>
      if String.eqb (Aisle.id a) aisle_id
      then {| Aisle.id := Aisle.id a; Aisle.layout_id := Aisle.layout_id a;
              Aisle.path := Aisle.path a; Aisle.width := w;
              Aisle.properties := Aisle.properties a |} :: rest
      else a :: set_width aisle_id w rest
  end.

(** The loop over [optimized_aisles]. *)
Definition apply_widths (optimized_aisles : list AisleWidthOptimizer.entry)
  (layout : Layout.t) : Layout.t :=
  {| Layout.id := Layout.id layout;
     Layout.facility_id := Layout.facility_id layout;
     Layout.status := Layout.status layout;
     Layout.racks := Layout.racks layout;
     Layout.aisles :=
       fold_left (fun aisles aisle_data =>
                    set_width (AisleWidthOptimizer.id aisle_data)
                              (AisleWidthOptimizer.width aisle_data) aisles)
                 optimized_aisles (Layout.aisles layout) |}.

(** What [optimize_aisle_widths] returns. *)
Record aisle_widths_result := {
  aw_layout_id : string;
  aw_optimized_aisles : list AisleWidthOptimizer.entry;
  aw_metrics : OptimizationEngine.metrics
}.

Definition optimize_aisle_widths (slv : CpSat.solver) (layout : Layout.t)
  (equipment : Equipment.t) (params : option AisleWidthOptimizer.constraints) (g : Rng)
  : result aisle_widths_result * Layout.t * Rng :=
  let params :=
    match params with
    | Some p => p
    | None =>
        {| AisleWidthOptimizer.min_aisle_width := Some (Equipment.min_aisle_width equipment);
           AisleWidthOptimizer.max_aisle_width := Some (Equipment.max_aisle_width equipment);
           AisleWidthOptimizer.aisle_width_increment := None;
           AisleWidthOptimizer.optimize_for_density := Some true;
           AisleWidthOptimizer.optimize_for_accessibility := Some true |}
    end in
  match AisleWidthOptimizer.optimize slv layout equipment (Some params) g with
  | (Raise e, g') => (Raise e, layout, g')
  | (Ok optimized_aisles, g') =>
      let layout' := apply_widths optimized_aisles layout in
      (Ok {| aw_layout_id := Layout.id layout;
             aw_optimized_aisles := optimized_aisles;
             aw_metrics := OptimizationEngine._calculate_layout_metrics layout' |},
       layout', g')
  end.

Definition _optimize_aisle_widths (slv : CpSat.solver) (layout : Layout.t)
  (equipment : Equipment.t) (params : OptimizationEngine.parameters) (g : Rng)
  : result unit * Layout.t * Rng :=
  let optimize_for_density :=
    Py.lt 0.5 (default 0.6 (OptimizationEngine.storage_density_weight params)) in
  let optimize_for_accessibility :=
    Py.lt 0.3 (default 0.4 (OptimizationEngine.accessibility_weight params)) in
  let aisle_params :=
    {| AisleWidthOptimizer.min_aisle_width := Some (Equipment.min_aisle_width equipment);
       AisleWidthOptimizer.max_aisle_width := Some (Equipment.max_aisle_width equipment);
       AisleWidthOptimizer.aisle_width_increment := None;
       AisleWidthOptimizer.optimize_for_density := Some optimize_for_density;
       AisleWidthOptimizer.optimize_for_accessibility := Some optimize_for_accessibility |} in
  match AisleWidthOptimizer.optimize slv layout equipment (Some aisle_params) g with
  | (Raise e, g') => (Raise e, layout, g')
  | (Ok optimized_aisles, g') => (Ok tt, apply_widths optimized_aisles layout, g')
  end.

(** *** Slotting *)

(** What [optimize_slotting] returns. *)
Record slotting_result := {
  sl_layout_id : string;
  sl_assignments : list SlottingOptimizer.assignment;
  sl_metrics : OptimizationEngine.metrics
}.

Definition optimize_slotting (slv : Mip.solver) (layout : Layout.t)
  (products : list Product.t) (params : option SlottingOptimizer.constraints)
  : result slotting_result :=
  let params :=
    match params with
    | Some p => p
    | None =>
        {| SlottingOptimizer.velocity_weighting := Some 0.7;
           SlottingOptimizer.accessibility_weighting := Some 0.3;
           SlottingOptimizer.optimize_for_throughput := Some false;
           SlottingOptimizer.respect_product_dimensions := None;
           SlottingOptimizer.respect_weight_limits := None;
           SlottingOptimizer.group_similar_products := None |}
    end in
  assignments ← SlottingOptimizer.optimize slv layout products (Some params);
  m ← OptimizationEngine._calculate_slotting_metrics layout assignments products;
  Ok {| sl_layout_id := Layout.id layout;
        sl_assignments := assignments;
        sl_metrics := m |}.

Definition _optimize_slotting (slv : Mip.solver) (layout : Layout.t)
  (products : list Product.t) (params : OptimizationEngine.parameters)
  : result Layout.t :=
  let slotting_params :=
    {| SlottingOptimizer.velocity_weighting :=
         Some (default 0.6 (OptimizationEngine.storage_density_weight params));
       SlottingOptimizer.accessibility_weighting :=
         Some (default 0.4 (OptimizationEngine.accessibility_weight params));
       SlottingOptimizer.optimize_for_throughput :=
         Some (Py.lt 0.2 (default 0 (OptimizationEngine.throughput_weight params)));
       SlottingOptimizer.respect_product_dimensions := None;
       SlottingOptimizer.respect_weight_limits := None;
       SlottingOptimizer.group_similar_products := None |} in
  assignments ← SlottingOptimizer.optimize slv layout products (Some slotting_params);
  Ok layout.

(** *** [optimize_layout] *)

Definition default_parameters : OptimizationEngine.parameters :=
  {| OptimizationEngine.optimize_rack_placement := Some true;
     OptimizationEngine.optimize_aisle_widths := Some true;
     OptimizationEngine.optimize_elevations := Some true;
     OptimizationEngine.optimize_slotting := Some true;
     OptimizationEngine.storage_density_weight := Some 0.6;
     OptimizationEngine.accessibility_weight := Some 0.4;
     OptimizationEngine.throughput_weight := Some 0;
     OptimizationEngine.min_clearance := None;
     OptimizationEngine.min_beam_spacing := None;
     OptimizationEngine.max_levels := None |}.

(** The stages of [optimize_layout] up to the final metrics: the layout the
    local variable [layout] holds when [_calculate_layout_metrics] is
    called. *)
Definition pipeline (cp : CpSat.solver) (mip : Mip.solver) (uuid : string)
  (facility : Facility.t) (products : list Product.t) (equipment : Equipment.t)
  (params : option OptimizationEngine.parameters) (g : Rng) : outcome Layout.t :=
  let params := default default_parameters params in
  let layout := _create_initial_layout uuid facility in
  match (if default true (OptimizationEngine.optimize_rack_placement params)
         then _optimize_rack_placement layout facility equipment
         else Returns layout) with
  | Raises e => Raises e
  | Returns layout =>
      match (if default true (OptimizationEngine.optimize_aisle_widths params)
             then (_optimize_aisle_widths cp layout equipment params g).1
             else (Ok tt, layout)) with
      | (Raise e, _) => Raises (Builtin e)
      | (Ok _, layout) =>
          match (if default true (OptimizationEngine.optimize_elevations params)
                 then OptimizationEngine._optimize_rack_elevations cp layout products
                        equipment params
                 else (Ok tt, layout)) with
          | (Raise e, _) => Raises (Builtin e)
          | (Ok _, layout) =>
              if default true (OptimizationEngine.optimize_slotting params)
              then lift (_optimize_slotting mip layout products params)
              else Returns layout
          end
      end
  end.

(** [optimize_layout]: the last statement rebinds [layout] to the result
    of [_calculate_layout_metrics], and that map is what is returned. *)
Definition optimize_layout (cp : CpSat.solver) (mip : Mip.solver) (uuid : string)
  (facility : Facility.t) (products : list Product.t) (equipment : Equipment.t)
  (params : option OptimizationEngine.parameters) (g : Rng)
  : outcome OptimizationEngine.metrics :=
  match pipeline cp mip uuid facility products equipment params g with
  | Raises e => Raises e
  | Returns layout => Returns (OptimizationEngine._calculate_layout_metrics layout)
  end.

End Pipeline.

(** ** Further inputs *)

Section AisleEdgesInputs.
Import AisleWidthOptimizer.

(** Constraints that ask for an increment of zero. *)
Definition zero_increment : constraints :=
  {| min_aisle_width := None; max_aisle_width := None;
     aisle_width_increment := Some 0;
     optimize_for_density := None; optimize_for_accessibility := None |}.

End AisleEdgesInputs.

Section SlottingBoundsInputs.
Import SlottingOptimizer.

(** A product 48 high, as the products [main.py] builds. *)
Definition tall_products : list Product.t :=
  [Scenario.product "sku-1" "A" 48; Scenario.product "sku-2" "B" 48].

(** Two selective racks of three bays and three levels. *)
Definition two_racks_layout : Layout.t :=
  Scenario.layout [Scenario.rack "rack-1" "selective" 3 (Scenario.levels 3);
                   Scenario.rack "rack-2" "selective" 3 (Scenario.levels 3)]
                  [Scenario.aisle "aisle-1" "main"; Scenario.aisle "aisle-2" "cross"].

End SlottingBoundsInputs.

Section PipelineInputs.

(** The outline [main.py] gives its facility: 800 by 500. *)
Definition main_ring : list (Q * Q) :=
  [(0, 0); (0, 500); (800, 500); (800, 0); (0, 0)].

(** The facility of [main.py]: its boundary is a GeoJSON dict. *)
Definition dict_facility : Facility.t :=
  {| Facility.id := "facility-1"; Facility.name := "Test Facility";
     Facility.clear_height := 32;
     Facility.boundary := Facility.Dict {[ "coordinates" := [main_ring] ]} |}.

(** The same outline carried by an object with the attribute
    [coordinates]. *)
Definition shape_facility : Facility.t :=
  {| Facility.id := "facility-1"; Facility.name := "Test Facility";
     Facility.clear_height := 32;
     Facility.boundary := Facility.Shape [main_ring] |}.

(** A facility whose boundary was never set: the default, an empty dict. *)
Definition bare_facility : Facility.t :=
  {| Facility.id := "facility-1"; Facility.name := "Test Facility";
     Facility.clear_height := 32;
     Facility.boundary := Facility.Dict ∅ |}.

(** A boundary object whose first ring has no point. *)
Definition hollow_facility : Facility.t :=
  {| Facility.id := "facility-1"; Facility.name := "Test Facility";
     Facility.clear_height := 32;
     Facility.boundary := Facility.Shape [[]] |}.

End PipelineInputs.

Section EngineInputs.
Import SlottingOptimizer.

(** The constraints [c] with the key [respect_weight_limits] set. *)
Definition with_weight_limits (b : bool) (c : constraints) : constraints :=
  {| velocity_weighting := velocity_weighting c;
     accessibility_weighting := accessibility_weighting c;
     optimize_for_throughput := optimize_for_throughput c;
     respect_product_dimensions := respect_product_dimensions c;
     respect_weight_limits := Some b;
     group_similar_products := group_similar_products c |}.

(** A rack whose height was left at 0. *)
Definition flat_rack_layout : Layout.t :=
  Scenario.layout
    [{| Rack.id := "rack-1"; Rack.layout_id := "layout-1";
        Rack.rack_type_id := "selective"; Rack.height := 0; Rack.length := 96;
        Rack.depth := 48; Rack.bays := 3; Rack.configuration := Scenario.levels 3 |}]
    [].

End EngineInputs.

(** * Verification *)

(** ** Facts about the Python primitives *)

Lemma py_max_cases a b : (Py.max a b = a /\ b <= a) \/ (Py.max a b = b /\ a < b).
Proof.
  unfold Py.max. destruct (Qle_bool b a) eqn:E.
  - left. split; [reflexivity | now apply Qle_bool_iff].
  - right. split; [reflexivity |].
    apply Qnot_le_lt. intros H. apply Qle_bool_iff in H. congruence.
Qed.

Lemma py_min_cases a b : (Py.min a b = a /\ a <= b) \/ (Py.min a b = b /\ b < a).
Proof.
  unfold Py.min. destruct (Qle_bool a b) eqn:E.
  - left. split; [reflexivity | now apply Qle_bool_iff].
  - right. split; [reflexivity |].
    apply Qnot_le_lt. intros H. apply Qle_bool_iff in H. congruence.
Qed.

Lemma py_max_lower a b : a <= Py.max a b.
Proof.
  destruct (py_max_cases a b) as [[-> _] | [-> H]];
    [apply Qle_refl | now apply Qlt_le_weak].
Qed.

Lemma py_max_upper a b : b <= Py.max a b.
Proof. destruct (py_max_cases a b) as [[-> H] | [-> _]]; [exact H | apply Qle_refl]. Qed.

Lemma py_div_ok a b : ~ b == 0 -> Py.div a b = Ok (a / b).
Proof.
  intros H. unfold Py.div. destruct (Qeq_bool b 0) eqn:E; [| reflexivity].
  apply Qeq_bool_iff in E. contradiction.
Qed.

(** The clamp [max(lo, min(hi, w))] lands in [[lo, hi]] whenever that
    interval is not empty, and is one of [lo], [hi], [w]. *)
Lemma clamp_bounds lo hi w :
  lo <= hi -> lo <= Py.max lo (Py.min hi w) /\ Py.max lo (Py.min hi w) <= hi.
Proof.
  intros H. split; [apply py_max_lower |].
  destruct (py_max_cases lo (Py.min hi w)) as [[-> _] | [-> _]]; [exact H |].
  destruct (py_min_cases hi w) as [[-> _] | [-> Hw]];
    [apply Qle_refl | now apply Qlt_le_weak].
Qed.

Lemma clamp_cases lo hi w :
  Py.max lo (Py.min hi w) = lo \/ Py.max lo (Py.min hi w) = hi \/
  Py.max lo (Py.min hi w) = w.
Proof.
  destruct (py_max_cases lo (Py.min hi w)) as [[-> _] | [-> _]]; [now left |].
  destruct (py_min_cases hi w) as [[-> _] | [-> _]]; auto.
Qed.

(** [int] of a whole number is that number. *)
Lemma py_int_whole q k : q == inject_Z k -> Py.int q = k.
Proof.
  unfold Py.int, Qeq. destruct q as [n d]; simpl. intros H.
  assert (n = (k * Z.pos d)%Z) as -> by lia.
  apply Z.quot_mul. lia.
Qed.

(** Closes a goal [feasible m s = false] for a model [m] given by its
    constraints: the conjunction of the checks is contradictory. *)
Ltac infeasible :=
  let F := fresh "F" in
  match goal with
  | |- CpSat.feasible ?m ?s = false =>
      destruct (CpSat.feasible m s) eqn:F; [exfalso | reflexivity];
      unfold CpSat.feasible in F; cbn in F;
      repeat rewrite andb_true_iff in F;
      repeat rewrite Z.leb_le in F; repeat rewrite Z.ltb_lt in F;
      repeat rewrite Z.eqb_eq in F; lia
  end.

(** ** Scenario A: one main aisle, bounds 12 and 14, increment 0.5 *)

Section ScenarioA.
Import AisleWidthOptimizer.

(** C7, as amended: with bounds 12 and 14, increment 0.5, density
    optimisation on, a single aisle of type [main] and no rack reported
    adjacent to it, the heuristic returns one entry for that aisle, of
    width 13.5 (12 + 2 - 0.5; rounding and clamping leave it unchanged). *)
Theorem heuristic_main_aisle_width
  (layout : Layout.t) (equipment : Equipment.t) (c : constraints) (g : Rng)
  (a : Aisle.t) :
  Layout.aisles layout = [a] ->
  aisle_type a = "main" ->
  default (Equipment.min_aisle_width equipment) (min_aisle_width c) = 12 ->
  default (Equipment.max_aisle_width equipment) (max_aisle_width c) = 14 ->
  default 0.5 (aisle_width_increment c) = 0.5 ->
  default true (optimize_for_density c) = true ->
  (_get_adjacent_racks layout a g).1 = [] ->
  exists w,
    (_solve_with_heuristic layout equipment c g).1
      = Ok [{| id := Aisle.id a; width := w |}]
    /\ w == 13.5.
Proof.
  intros Ha Hty Hmin Hmax Hinc Hden Hadj.
  unfold _solve_with_heuristic. rewrite Ha, Hmin, Hmax, Hinc, Hden.
  cbn [heuristic_loop].
  destruct (_get_adjacent_racks layout a g) as [adj g1]. simpl in Hadj. subst adj.
  unfold heuristic_width. rewrite Hty.
  eexists. split; [reflexivity |]. reflexivity.
Qed.

Lemma heuristic_main_aisle_width_witness :
  exists w,
    (_solve_with_heuristic scenario_A_layout scenario_A_equipment
       (default_constraints scenario_A_equipment) (Scenario.constant_rng 0)).1
      = Ok [{| id := "aisle-1"; width := w |}]
    /\ w == 13.5.
Proof.
  apply (heuristic_main_aisle_width scenario_A_layout scenario_A_equipment
           (default_constraints scenario_A_equipment) (Scenario.constant_rng 0)
           (Scenario.aisle "aisle-1" "main")); reflexivity.
Defined.

(** C7, as stated: the width returned in scenario A is not 13.0. *)
Lemma heuristic_main_aisle_width_not_13 :
  ~ (exists w,
       (_solve_with_heuristic scenario_A_layout scenario_A_equipment
          (default_constraints scenario_A_equipment) (Scenario.constant_rng 0)).1
         = Ok [{| id := "aisle-1"; width := w |}]
       /\ w == 13).
Proof.
  intros [w [H Hw]]. vm_compute in H. inversion H; subst w. discriminate Hw.
Qed.

End ScenarioA.

(** ** Scenario B: product heights 48, 36, 24; clearance 6; spacing 12;
       four levels; reach 288 *)

Section ScenarioB.
Import ElevationProfileOptimizer.

(** C6: on scenario B the heuristic divides the clearance by 12 and adds it
    to the product height as given, so the level height is 48 + 0.5 and the
    sequence is 0, 48.5, 97, 145.5, 194; it is not 0, 54, 108, 162, 216. *)
Theorem heuristic_scenario_B_elevations :
  exists l,
    _solve_with_heuristic scenario_B_heights 288 scenario_B_constraints = Ok l
    /\ Forall2 Qeq l [0; 48.5; 97; 145.5; 194]
    /\ ~ Forall2 Qeq l [0; 54; 108; 162; 216].
Proof.
  eexists. split; [vm_compute; reflexivity |]. split.
  - repeat constructor.
  - intros H. inversion H as [| ? ? ? ? _ H1]; subst.
    inversion H1 as [| ? ? ? ? H2 _]; subst. discriminate H2.
Qed.

End ScenarioB.

(** ** Scenario C: three products of classes A, B, C and two locations *)

Section ScenarioC.
Import SlottingOptimizer.

Lemma scenario_C_locations :
  map (fun l => (Location.id l, Location.dim_length l, Location.dim_width l,
                 Location.dim_height l))
      (_get_all_locations scenario_C_layout)
  = [("loc-rack-1-0-0", Some 48, Some 40, Some 6);
     ("loc-rack-1-0-1", Some 48, Some 40, Some 6)]
  /\ forallb (fun p => forallb (_product_fits_location p)
                         (_get_all_locations scenario_C_layout))
             scenario_C_products = true
  /\ map Location.id (sorted_locations (_get_all_locations scenario_C_layout))
     = ["loc-rack-1-0-0"; "loc-rack-1-0-1"].
Proof. repeat split; vm_compute; reflexivity. Qed.

(** With three products and two locations no assignment gives every
    product exactly one location and every location at most one product. *)
Lemma scenario_C_infeasible (c : constraints) (x : Mip.assignment) :
  Mip.feasible
    (build_model c scenario_C_products (_get_all_locations scenario_C_layout)) x
  = false.
Proof.
  unfold Mip.feasible, build_model. cbn [Mip.constraints].
  rewrite !forallb_app.
  match goal with
  | |- ?a && (?b && ?r) = false =>
      assert (H : a && b = false); [| destruct a, b; simpl in *; congruence]
  end.
  change (length (_get_all_locations scenario_C_layout)) with 2%nat.
  cbn [length scenario_C_products seq map forallb Mip.holds fst snd].
  unfold Mip.count. cbn [List.filter fst snd].
  destruct (x 0 0)%nat, (x 0 1)%nat, (x 1 0)%nat, (x 1 1)%nat,
           (x 2 0)%nat, (x 2 1)%nat; reflexivity.
Qed.

(** C5: on scenario C [sorted(..., reverse=True)] puts the class-C product
    first, so the class-C product takes the most accessible location, the
    class-B product the next one, and the class-A product is the one left
    out; [optimize] returns this whatever the MIP solver does, since the
    exact model is infeasible. *)
Theorem heuristic_scenario_C_assignments (slv : Mip.solver) :
  map Product.id (sorted_products scenario_C_products) = ["sku-C"; "sku-B"; "sku-A"]
  /\ _solve_with_heuristic scenario_C_layout scenario_C_products default_constraints
     = Ok [{| product_id := "sku-C"; location_id := "loc-rack-1-0-0"; quantity := 1 |};
           {| product_id := "sku-B"; location_id := "loc-rack-1-0-1"; quantity := 1 |}]
  /\ optimize slv scenario_C_layout scenario_C_products None
     = Ok [{| product_id := "sku-C"; location_id := "loc-rack-1-0-0"; quantity := 1 |};
           {| product_id := "sku-B"; location_id := "loc-rack-1-0-1"; quantity := 1 |}].
Proof.
  split; [vm_compute; reflexivity |].
  assert (Hh : _solve_with_heuristic scenario_C_layout scenario_C_products
                 default_constraints
               = Ok [{| product_id := "sku-C"; location_id := "loc-rack-1-0-0";
                        quantity := 1 |};
                     {| product_id := "sku-B"; location_id := "loc-rack-1-0-1";
                        quantity := 1 |}])
    by (vm_compute; reflexivity).
  split; [exact Hh |].
  unfold optimize, _solve_with_mip.
  change (default default_constraints None) with default_constraints.
  change (is_empty (_get_all_locations scenario_C_layout) || is_empty scenario_C_products)
    with false.
  cbv iota.
  destruct (negb (Mip.created slv)); [exact Hh |].
  destruct (Mip.solve slv _) as [x |] eqn:E; [| exact Hh].
  apply Mip.solve_sound in E. rewrite scenario_C_infeasible in E. discriminate E.
Qed.

End ScenarioC.

(** ** The aisle heuristic reads the random generator *)

Section HiddenRandomness.
Import AisleWidthOptimizer.

(** C4: the aisle heuristic is not a function of its arguments alone.  On
    one layout, equipment and constraints it returns width 11.5 when the
    generator's next draw is below 0.3 (the rack counts as adjacent) and
    10.5 when it is not. *)
Theorem aisle_heuristic_depends_on_draws :
  exists w1 w2,
    (_solve_with_heuristic random_layout random_equipment
       (default_constraints random_equipment) (Scenario.constant_rng 0)).1
      = Ok [{| id := "aisle-1"; width := w1 |}]
    /\ (_solve_with_heuristic random_layout random_equipment
          (default_constraints random_equipment) (Scenario.constant_rng 0.5)).1
      = Ok [{| id := "aisle-1"; width := w2 |}]
    /\ w1 == 11.5 /\ w2 == 10.5 /\ ~ w1 == w2.
Proof.
  do 2 eexists. split; [vm_compute; reflexivity |].
  split; [vm_compute; reflexivity |].
  split; [reflexivity |]. split; [reflexivity |]. discriminate.
Qed.

End HiddenRandomness.

(** ** Beam levels after elevation optimisation *)

Section BeamLevels.
Import OptimizationEngine.

(** The exact path returns the floor and one elevation per level. *)
Lemma cp_result_length slv heights max_height c r :
  ElevationProfileOptimizer._solve_with_cp slv heights max_height c = Ok r ->
  length r = S (Z.to_nat (default 4%Z (ElevationProfileOptimizer.max_levels c))).
Proof.
  unfold ElevationProfileOptimizer._solve_with_cp.
  destruct (ElevationProfileOptimizer.build_model heights max_height c) as [m | e];
    [| discriminate].
  cbn. destruct (CpSat.solve slv m); [| discriminate].
  intros H. inversion H. cbn. now rewrite length_map, length_seq.
Qed.

(** The per-rack stage of [optimize_layout]: every rack the loop has
    visited carries the new elevations and [beam_levels = len - 1]. *)
Lemma elevation_loop_sets_beam_levels slv products equipment params racks racks' :
  elevation_loop slv products equipment params racks = (Ok tt, racks') ->
  Forall (fun rk =>
            exists es,
              Configuration.beam_elevations (Rack.configuration rk) = Some es
              /\ Configuration.beam_levels (Rack.configuration rk)
                 = Some (Z.of_nat (length es) - 1)%Z) racks'.
Proof.
  revert racks'. induction racks as [| rack rest IH]; intros racks' H.
  - inversion H. constructor.
  - cbn [elevation_loop] in H.
    destruct (ElevationProfileOptimizer.optimize slv rack products equipment (Some params))
      as [es | e]; [| discriminate].
    destruct (elevation_loop slv products equipment params rest) as [r rest'] eqn:E.
    inversion H; subst. constructor; [| now apply IH].
    exists es. split; reflexivity.
Qed.

Lemma stage_sets_beam_levels slv layout products equipment params layout' :
  _optimize_rack_elevations slv layout products equipment params = (Ok tt, layout') ->
  Forall (fun rk =>
            exists es,
              Configuration.beam_elevations (Rack.configuration rk) = Some es
              /\ Configuration.beam_levels (Rack.configuration rk)
                 = Some (Z.of_nat (length es) - 1)%Z) (Layout.racks layout').
Proof.
  unfold _optimize_rack_elevations.
  destruct (elevation_loop _ _ _ _ _) as [r racks'] eqn:E.
  intros H. inversion H; subst. cbn. eapply elevation_loop_sets_beam_levels, E.
Qed.

Lemma single_rack_elevations slv rack :
  exists es,
    ElevationProfileOptimizer.optimize slv rack single_rack_products
      single_rack_equipment (Some ElevationProfileOptimizer.default_constraints)
    = Ok es /\ length es = 5%nat.
Proof.
  unfold ElevationProfileOptimizer.optimize.
  cbn [map single_rack_products default].
  destruct (ElevationProfileOptimizer._solve_with_cp slv _ _ _) as [es | e] eqn:E.
  - exists es. split; [reflexivity |]. apply cp_result_length in E. exact E.
  - eexists. split; [vm_compute; reflexivity | reflexivity].
Qed.

(** C9: the single-rack entry point stores the new elevations but leaves
    [beam_levels] as it was.  On a rack configured with three levels it
    returns normally with five elevations stored and [beam_levels] still 3,
    whichever path the optimiser took. *)
Theorem single_rack_entry_keeps_beam_levels (slv : CpSat.solver) :
  exists v r es,
    optimize_rack_elevations slv single_rack_layout "rack-1" single_rack_products
      single_rack_equipment None
    = (Ok v, Layout.with_racks [r] single_rack_layout)
    /\ Configuration.beam_elevations (Rack.configuration r) = Some es
    /\ length es = 5%nat
    /\ Configuration.beam_levels (Rack.configuration r) = Some 3%Z
    /\ Some 3%Z <> Some (Z.of_nat (length es) - 1)%Z.
Proof.
  unfold optimize_rack_elevations.
  change (find_rack single_rack_layout "rack-1")
    with (Some (Scenario.rack "rack-1" "selective" 3 (Scenario.levels 3))).
  cbv iota.
  change (default ElevationProfileOptimizer.default_constraints None)
    with ElevationProfileOptimizer.default_constraints.
  destruct (single_rack_elevations slv
              (Scenario.rack "rack-1" "selective" 3 (Scenario.levels 3)))
    as [es [-> Hlen]].
  destruct es as [| e0 [| e1 [| e2 [| e3 [| e4 [| e5 es]]]]]]; try discriminate Hlen.
  do 3 eexists. split; [reflexivity |].
  split; [reflexivity |]. split; [reflexivity |]. split; [reflexivity |].
  discriminate.
Qed.

End BeamLevels.

(** ** Unknown rack ids *)

Section RackLookup.
Import OptimizationEngine.

Lemma find_rack_none layout rack_id :
  (forall r, In r (Layout.racks layout) -> Rack.id r <> rack_id) ->
  find_rack layout rack_id = None.
Proof.
  intros H. unfold find_rack.
  destruct (find _ _) as [r |] eqn:E; [| reflexivity].
  apply find_some in E as [Hin Heq]. apply String.eqb_eq in Heq.
  now apply H in Hin.
Qed.

Lemma find_rack_some layout rack_id :
  (exists r, In r (Layout.racks layout) /\ Rack.id r = rack_id) ->
  exists r, find_rack layout rack_id = Some r.
Proof.
  intros [r [Hin Heq]]. unfold find_rack.
  destruct (find _ _) as [r' |] eqn:E; [now exists r' |].
  eapply find_none in E; [| exact Hin].
  cbv beta in E. apply String.eqb_neq in E. contradiction.
Qed.

(** The only exception that leaves the elevation optimiser is the division
    by a zero level height in the heuristic. *)
Lemma elevation_optimize_raises slv rack products equipment c e :
  ElevationProfileOptimizer.optimize slv rack products equipment c = Raise e ->
  e = ZeroDivisionError.
Proof.
  unfold ElevationProfileOptimizer.optimize.
  destruct (map Product.height products); [discriminate |].
  destruct (ElevationProfileOptimizer._solve_with_cp _ _ _ _); [discriminate |].
  unfold ElevationProfileOptimizer._solve_with_heuristic, Py.div.
  destruct (Qeq_bool _ _); cbn; intros H; inversion H; reflexivity.
Qed.

Lemma rack_metrics_raises rack products e :
  _calculate_rack_metrics rack products = Raise e ->
  e = ZeroDivisionError \/ e = IndexError.
Proof.
  unfold _calculate_rack_metrics. cbv zeta.
  set (es := default [] _).
  destruct (1 <? Z.of_nat (length es))%Z; cbn; [| discriminate].
  destruct (Py.index es (-1)) as [top | e'] eqn:Ei; cbn.
  - unfold Py.div. destruct (Qeq_bool _ _); cbn; intros H; inversion H. now left.
  - intros H. inversion H; subst. right.
    unfold Py.index in Ei. destruct (_ <? 0)%Z in Ei; [now inversion Ei |].
    destruct (nth_error _ _) in Ei; [discriminate | now inversion Ei].
Qed.

(** C8: when no rack of the layout has the given id the call raises the
    "Rack not found" [ValueError] and the layout is as it was; when some
    rack has it, whatever the call returns or raises is not a [ValueError]. *)
Theorem unknown_rack_id_is_fatal
  (slv : CpSat.solver) (layout : Layout.t) (rack_id : string)
  (products : list Product.t) (equipment : Equipment.t)
  (params : option ElevationProfileOptimizer.constraints) :
  ((forall r, In r (Layout.racks layout) -> Rack.id r <> rack_id) ->
   optimize_rack_elevations slv layout rack_id products equipment params
   = (Raise (ValueError ("Rack not found with id: " ++ rack_id)%string), layout))
  /\ ((exists r, In r (Layout.racks layout) /\ Rack.id r = rack_id) ->
      forall msg,
        (optimize_rack_elevations slv layout rack_id products equipment params).1
        <> Raise (ValueError msg)).
Proof.
  split.
  - intros H. unfold optimize_rack_elevations.
    now rewrite (find_rack_none _ _ H).
  - intros H msg. unfold optimize_rack_elevations.
    destruct (find_rack_some _ _ H) as [r ->].
    destruct (ElevationProfileOptimizer.optimize _ _ _ _ _) as [es | e] eqn:E.
    + cbn. destruct (_calculate_rack_metrics _ _) as [m | e] eqn:Em; cbn;
        [discriminate |].
      apply rack_metrics_raises in Em as [-> | ->]; discriminate.
    + cbn. apply elevation_optimize_raises in E. subst. discriminate.
Qed.

Lemma unknown_rack_id_is_fatal_witness :
  optimize_rack_elevations CpSat.failing_solver single_rack_layout "rack-9"
    single_rack_products single_rack_equipment None
  = (Raise (ValueError "Rack not found with id: rack-9"), single_rack_layout)
  /\ forall msg,
       (optimize_rack_elevations CpSat.failing_solver single_rack_layout "rack-1"
          single_rack_products single_rack_equipment None).1
       <> Raise (ValueError msg).
Proof.
  split.
  - apply (unknown_rack_id_is_fatal CpSat.failing_solver single_rack_layout "rack-9"
             single_rack_products single_rack_equipment None).
    intros r [<- | []]. discriminate.
  - apply (unknown_rack_id_is_fatal CpSat.failing_solver single_rack_layout "rack-1"
             single_rack_products single_rack_equipment None).
    eexists. split; [left; reflexivity | reflexivity].
Defined.

End RackLookup.

(** ** Evaluating a layout twice *)

Section Evaluate.
Import OptimizationEngine.

Lemma slotting_metrics_total layout assignments p ps :
  exists m, _calculate_slotting_metrics layout assignments (p :: ps) = Ok m.
Proof.
  unfold _calculate_slotting_metrics. rewrite py_div_ok; [cbn; eauto |].
  cbn [length]. unfold Qeq; cbn. lia.
Qed.

(** C10: [evaluate_layout] returns a metrics map, leaves the layout as it
    found it, and a second call on the layout it left returns the same map. *)
Theorem evaluate_layout_idempotent
  (layout : Layout.t) (products : option (list Product.t)) :
  exists m,
    evaluate_layout layout products = (Ok m, layout)
    /\ evaluate_layout (evaluate_layout layout products).2 products = (Ok m, layout).
Proof.
  assert (H : exists m, evaluate_layout layout products = (Ok m, layout)).
  { unfold evaluate_layout. destruct products as [[| p ps] |]; [eauto | | eauto].
    destruct (slotting_metrics_total layout [] p ps) as [m ->]. cbn. eauto. }
  destruct H as [m H]. exists m. split; [exact H |].
  rewrite H. cbn. exact H.
Qed.

End Evaluate.

(** ** Slotting: one product per location, and only where it fits *)

Section Slotting.
Import SlottingOptimizer.

(** *** Sorting keeps the elements *)

Lemma insert_desc_In {A K} (key : A -> K) (le : K -> K -> bool) x y l :
  In y (Py.insert_desc key le x l) <-> y = x \/ In y l.
Proof.
  induction l as [| z l IH]; cbn.
  - intuition.
  - destruct (le (key z) (key x)); cbn; [intuition |].
    rewrite IH. intuition.
Qed.

Lemma sorted_reverse_In {A K} (key : A -> K) (le : K -> K -> bool) y l :
  In y (Py.sorted_reverse key le l) <-> In y l.
Proof.
  induction l as [| x l IH]; cbn; [reflexivity |].
  rewrite insert_desc_In, IH. intuition.
Qed.

(** *** The locations of a layout carry no weight limit *)

Lemma all_locations_no_weight_limit layout l :
  In l (_get_all_locations layout) -> Location.prop_weight_limit l = None.
Proof.
  unfold _get_all_locations, rack_locations. intros H.
  apply in_flat_map in H as [rack [_ H]].
  apply in_flat_map in H as [bay [_ H]].
  apply in_map_iff in H as [level [<- _]]. reflexivity.
Qed.

Lemma all_locations_weight_ok layout p l :
  In l (_get_all_locations layout) -> _check_weight_limit p l = true.
Proof.
  intros H. unfold _check_weight_limit.
  now rewrite (all_locations_no_weight_limit layout l H).
Qed.

(** *** The heuristic *)

Lemma first_free_spec rd p locs assigned l :
  first_free rd p locs assigned = Some l ->
  In l locs /\ (Location.id l ∉ assigned)
  /\ (rd = true -> _product_fits_location p l = true).
Proof.
  induction locs as [| l0 locs IH]; cbn; [discriminate |].
  case_bool_decide as Hin.
  - intros H. apply IH in H. intuition.
  - destruct (rd && negb (_product_fits_location p l0)) eqn:E.
    + intros H. apply IH in H. intuition.
    + intros H. inversion H; subst l0. split; [now left |]. split; [exact Hin |].
      intros ->. cbn in E. now destruct (_product_fits_location p l).
Qed.

Lemma assign_loop_spec rd ps locs assigned :
  let r := assign_loop rd ps locs assigned in
  List.NoDup (map (fun pl => Location.id pl.2) r)
  /\ (forall pl, In pl r ->
        (Location.id pl.2 ∉ assigned) /\ In pl.1 ps /\ In pl.2 locs
        /\ (rd = true -> _product_fits_location pl.1 pl.2 = true)).
Proof.
  revert assigned. induction ps as [| p ps IH]; intros assigned; cbn.
  - split; [constructor | intros pl []].
  - destruct (first_free rd p locs assigned) as [l |] eqn:E.
    + apply first_free_spec in E as (Hl & Hfree & Hfit).
      destruct (IH (assigned ∪ {[Location.id l]})) as [Hnd Hall].
      split.
      * cbn. constructor; [| exact Hnd].
        intros Hin. apply in_map_iff in Hin as [pl [Heq Hpl]].
        apply Hall in Hpl as [Hnot _]. apply Hnot. rewrite Heq.
        apply elem_of_union. right. now apply elem_of_singleton.
      * intros pl [<- | Hpl]; cbn; [repeat split; auto |].
        apply Hall in Hpl as (Hnot & Hp & Hloc & Hf).
        split; [| repeat split; auto].
        intros Hc. apply Hnot. apply elem_of_union. now left.
    + destruct (IH assigned) as [Hnd Hall]. split; [exact Hnd |].
      intros pl Hpl. apply Hall in Hpl as (Hnot & Hp & Hloc & Hf).
      repeat split; auto.
Qed.

(** Whatever the layout, the heuristic never uses a location id twice, and
    every pair it forms satisfies the checks that are switched on. *)
Lemma heuristic_pairs_spec layout products c :
  let pairs := heuristic_pairs layout products c in
  List.NoDup (map location_id (map to_assignment pairs))
  /\ Forall (assignment_ok c products (_get_all_locations layout)) pairs.
Proof.
  unfold heuristic_pairs. cbv zeta.
  destruct (is_empty _ || is_empty _); [split; constructor |].
  destruct (assign_loop_spec (default true (respect_product_dimensions c))
              (sorted_products products)
              (sorted_locations (_get_all_locations layout)) ∅) as [Hnd Hall].
  split.
  - rewrite map_map. exact Hnd.
  - apply List.Forall_forall. intros pl Hpl.
    apply Hall in Hpl as (_ & Hp & Hl & Hf).
    apply sorted_reverse_In in Hp. apply sorted_reverse_In in Hl.
    repeat split; auto.
    intros _. now apply (all_locations_weight_ok layout).
Qed.

(** *** The exact path *)

Lemma In_enumerate_from {A} (l : list A) k i a :
  In (i, a) (combine (seq k (length l)) l)
  <-> (k <= i)%nat /\ nth_error l (i - k) = Some a.
Proof.
  revert k. induction l as [| b l IH]; intros k; cbn.
  - split; [intros [] | intros [_ H]]. now destruct (i - k)%nat.
  - rewrite IH. split.
    + intros [H | [Hk H]].
      * inversion H; subst. split; [lia |]. now rewrite Nat.sub_diag.
      * split; [lia |]. replace (i - k)%nat with (S (i - S k)) by lia. exact H.
    + intros [Hk H]. destruct (Nat.eq_dec i k) as [-> | Hne].
      * left. rewrite Nat.sub_diag in H. cbn in H. now inversion H.
      * right. split; [lia |].
        replace (i - k)%nat with (S (i - S k)) in H by lia. exact H.
Qed.

Lemma In_enumerate {A} (l : list A) i a :
  In (i, a) (enumerate l) <-> nth_error l i = Some a.
Proof.
  unfold enumerate. rewrite In_enumerate_from, Nat.sub_0_r.
  split; [now intros [_ H] | intros H; split; [lia | exact H]].
Qed.

Lemma map_fst_combine_seq {A} (l : list A) k :
  map fst (combine (seq k (length l)) l) = seq k (length l).
Proof.
  revert k. induction l as [| b l IH]; intros k; cbn; [reflexivity |].
  now rewrite IH.
Qed.

Lemma enumerate_NoDup {A} (l : list A) : List.NoDup (enumerate l).
Proof.
  apply (NoDup_map_inv fst). unfold enumerate.
  rewrite map_fst_combine_seq. apply seq_NoDup.
Qed.

Lemma NoDup_flat_map {A B} (f : A -> list B) (l : list A) :
  List.NoDup l ->
  (forall a, In a l -> List.NoDup (f a)) ->
  (forall a a' b, In a l -> In a' l -> In b (f a) -> In b (f a') -> a = a') ->
  List.NoDup (flat_map f l).
Proof.
  induction 1 as [| a l Hnotin Hnd IH]; intros Hf Hinj; cbn; [constructor |].
  apply List.NoDup_app.
  - apply Hf. now left.
  - apply IH; [intros; apply Hf; now right |].
    intros a1 a2 b H1 H2. apply Hinj; now right.
  - intros b Hb Hb'. apply in_flat_map in Hb' as [a' [Ha' Hb']].
    assert (a = a') by (apply (Hinj a a' b); auto; [now left | now right]).
    subst a'. contradiction.
Qed.

Lemma map_flat_map_comm {A B C} (g : B -> C) (f : A -> list B) (l : list A) :
  map g (flat_map f l) = flat_map (fun a => map g (f a)) l.
Proof.
  induction l as [| a l IH]; cbn; [reflexivity |]. now rewrite map_app, IH.
Qed.

Lemma count_column (x : Mip.assignment) l ps :
  Mip.count x (map (fun p => (p, l)) ps)
  = Z.of_nat (length (List.filter (fun p => x p l) ps)).
Proof.
  unfold Mip.count. f_equal.
  induction ps as [| p ps IH]; cbn; [reflexivity |].
  destruct (x p l); cbn; now rewrite IH.
Qed.

(** A location index that is allowed at most one product has at most one. *)
Lemma column_unique (x : Mip.assignment) np l p p' :
  Mip.holds x (Mip.SumLe (map (fun p => (p, l)) (seq 0 np)) 1) = true ->
  (p < np)%nat -> (p' < np)%nat -> x p l = true -> x p' l = true -> p = p'.
Proof.
  cbn. rewrite count_column. intros Hle Hp Hp' Hx Hx'.
  destruct (Nat.eq_dec p p') as [| Hne]; [assumption | exfalso].
  assert (Hlen : (length [p; p'] <= length (List.filter (fun p => x p l) (seq 0 np)))%nat).
  { apply NoDup_incl_length.
    - constructor; [intros [? | []]; congruence |]. constructor; [intros [] | constructor].
    - intros q [<- | [<- | []]]; apply filter_In; split; auto; apply in_seq; lia. }
  cbn [length] in Hlen. apply Z.leb_le in Hle. lia.
Qed.

Lemma pruned_In test products locations p l product location :
  nth_error products p = Some product ->
  nth_error locations l = Some location ->
  test product location = false ->
  In (Mip.IsZero (p, l)) (pruned test products locations).
Proof.
  intros Hp Hl Ht. unfold pruned.
  apply in_flat_map. exists (p, product). split; [now apply In_enumerate |].
  apply in_flat_map. exists (l, location). split; [now apply In_enumerate |].
  rewrite Ht. now left.
Qed.

Lemma selected_In x products locations pl :
  In pl (selected x products locations) ->
  exists p l, nth_error products p = Some pl.1
              /\ nth_error locations l = Some pl.2 /\ x p l = true.
Proof.
  unfold selected. intros H.
  apply in_flat_map in H as [[p product] [Hp H]].
  apply in_flat_map in H as [[l location] [Hl H]].
  apply In_enumerate in Hp. apply In_enumerate in Hl.
  destruct (x p l) eqn:E; [| destruct H].
  destruct H as [<- | []]. exists p, l. auto.
Qed.

Section Feasible.
Context (c : constraints) (products : list Product.t) (locations : list Location.t)
        (x : Mip.assignment).
Hypothesis Hfeasible : Mip.feasible (build_model c products locations) x = true.

Lemma feasible_holds k :
  In k (Mip.constraints (build_model c products locations)) -> Mip.holds x k = true.
Proof.
  intros Hk. unfold Mip.feasible in Hfeasible.
  rewrite forallb_forall in Hfeasible. now apply Hfeasible.
Qed.

Lemma feasible_column l p p' :
  (l < length locations)%nat -> (p < length products)%nat ->
  (p' < length products)%nat -> x p l = true -> x p' l = true -> p = p'.
Proof.
  intros Hl. apply column_unique. apply feasible_holds. cbn.
  apply in_or_app. right. apply in_or_app. left.
  apply in_map_iff. exists l. split; [reflexivity | apply in_seq; lia].
Qed.

Lemma feasible_fits p l product location :
  default true (respect_product_dimensions c) = true ->
  nth_error products p = Some product -> nth_error locations l = Some location ->
  x p l = true -> _product_fits_location product location = true.
Proof.
  intros Hrd Hp Hl Hx.
  destruct (_product_fits_location product location) eqn:E; [reflexivity |].
  assert (Hin : In (Mip.IsZero (p, l)) (Mip.constraints (build_model c products locations))).
  { cbn. rewrite Hrd. apply in_or_app. right. apply in_or_app. right.
    apply in_or_app. left. eapply pruned_In; eauto. }
  apply feasible_holds in Hin. cbn in Hin. rewrite Hx in Hin. discriminate.
Qed.

Lemma feasible_weight p l product location :
  default true (respect_weight_limits c) = true ->
  nth_error products p = Some product -> nth_error locations l = Some location ->
  x p l = true -> _check_weight_limit product location = true.
Proof.
  intros Hrw Hp Hl Hx.
  destruct (_check_weight_limit product location) eqn:E; [reflexivity |].
  assert (Hin : In (Mip.IsZero (p, l)) (Mip.constraints (build_model c products locations))).
  { cbn. rewrite Hrw. apply in_or_app. right. apply in_or_app. right.
    apply in_or_app. right. eapply pruned_In; eauto. }
  apply feasible_holds in Hin. cbn in Hin. rewrite Hx in Hin. discriminate.
Qed.

Lemma selected_ok :
  Forall (assignment_ok c products locations) (selected x products locations).
Proof.
  apply List.Forall_forall. intros pl Hpl.
  apply selected_In in Hpl as (p & l & Hp & Hl & Hx).
  repeat split.
  - eapply nth_error_In, Hp.
  - eapply nth_error_In, Hl.
  - intros H. eapply feasible_fits; eauto.
  - intros H. eapply feasible_weight; eauto.
Qed.

Lemma selected_NoDup :
  List.NoDup (map Location.id locations) ->
  List.NoDup (map location_id (map to_assignment (selected x products locations))).
Proof.
  intros Hids. rewrite map_map. cbn [to_assignment location_id].
  assert (Hloc : forall l l' a a', nth_error locations l = Some a ->
                   nth_error locations l' = Some a' ->
                   Location.id a = Location.id a' -> l = l' /\ a = a').
  { intros l l' a a' Hl Hl' Heq.
    assert (l = l').
    { rewrite NoDup_nth_error in Hids. apply Hids.
      - rewrite length_map. apply nth_error_Some. congruence.
      - rewrite !nth_error_map, Hl, Hl'. cbn. now rewrite Heq. }
    subst l'. split; [reflexivity | congruence]. }
  unfold selected. rewrite map_flat_map_comm.
  apply NoDup_flat_map.
  - apply enumerate_NoDup.
  - intros [p product] Hp. rewrite map_flat_map_comm.
    apply NoDup_flat_map.
    + apply enumerate_NoDup.
    + intros [l a] _. destruct (x p l); cbn; repeat constructor. intros [].
    + intros [l a] [l' a'] b Hl Hl' Hb Hb'.
      apply In_enumerate in Hl, Hl'.
      destruct (x p l); [| destruct Hb]. destruct (x p l'); [| destruct Hb'].
      destruct Hb as [<- | []]. destruct Hb' as [Hb' | []]. cbn in Hb'.
      destruct (Hloc l' l a' a Hl' Hl Hb'). congruence.
  - intros [p product] [p' product'] b Hp Hp' Hb Hb'.
    apply In_enumerate in Hp, Hp'.
    rewrite map_flat_map_comm in Hb, Hb'.
    apply in_flat_map in Hb as [[l a] [Hl Hb]].
    apply in_flat_map in Hb' as [[l' a'] [Hl' Hb']].
    apply In_enumerate in Hl, Hl'.
    destruct (x p l) eqn:Ex; [| destruct Hb].
    destruct (x p' l') eqn:Ex'; [| destruct Hb'].
    destruct Hb as [<- | []]. destruct Hb' as [Hb' | []]. cbn in Hb'.
    destruct (Hloc l' l a' a Hl' Hl Hb') as [-> ->].
    assert (p = p').
    { apply (feasible_column l); auto; apply nth_error_Some; congruence. }
    subst p'. congruence.
Qed.

End Feasible.

(** *** Location ids

    [f"loc-{rack.id}-{bay}-{level}"] determines the rack id, the bay and
    the level: the two numbers are printed without a dash, so they can be
    read back from the right. *)

Lemma append_cons ch (a b : string) :
  (String ch a ++ b)%string = String ch (a ++ b)%string.
Proof. reflexivity. Qed.

Lemma append_nil (b : string) : ("" ++ b)%string = b.
Proof. reflexivity. Qed.

Lemma append_regroup (a b d : string) ch :
  (a ++ String ch (b ++ d))%string = ((a ++ String ch b) ++ d)%string.
Proof.
  induction a as [| ch' a IH]; [reflexivity |].
  rewrite !append_cons. now rewrite IH.
Qed.

Lemma no_dash_append_dash (a b : string) :
  no_dash (a ++ String "-" b)%string = false.
Proof.
  induction a as [| ch a IH]; [reflexivity |].
  rewrite append_cons. cbn [no_dash]. rewrite IH. apply andb_false_r.
Qed.

(** The text after the last dash, and the text before it, are determined. *)
Lemma split_last_dash (a a' t t' : string) :
  no_dash t = true -> no_dash t' = true ->
  (a ++ String "-" t = a' ++ String "-" t')%string -> a = a' /\ t = t'.
Proof.
  intros Ht Ht'. revert a'. induction a as [| ch a IH]; intros [| ch' a'];
    rewrite ?append_cons, ?append_nil.
  - intros H. inversion H. auto.
  - intros H. inversion H; subst. now rewrite no_dash_append_dash in Ht.
  - intros H. inversion H; subst. now rewrite no_dash_append_dash in Ht'.
  - intros H. inversion H; subst. destruct (IH a') as [-> ->]; auto.
Qed.

Lemma digits_no_dash d : no_dash (NilEmpty.string_of_uint d) = true.
Proof. induction d; cbn; auto. Qed.

Lemma str_no_dash n : no_dash (Py.str n) = true.
Proof.
  unfold Py.str, NilZero.string_of_uint.
  destruct (N.to_uint (Z.to_N n)); try reflexivity; apply digits_no_dash.
Qed.

Lemma str_inj n m : (0 <= n)%Z -> (0 <= m)%Z -> Py.str n = Py.str m -> n = m.
Proof.
  intros Hn Hm H. unfold Py.str, NilZero.string_of_uint in H.
  assert (Hnil : forall k, N.to_uint k <> Decimal.Nil).
  { intros [| q]; [discriminate | apply DecimalPos.Unsigned.to_uint_nonnil]. }
  assert (Heq : NilEmpty.string_of_uint (N.to_uint (Z.to_N n))
                = NilEmpty.string_of_uint (N.to_uint (Z.to_N m))).
  { pose proof (Hnil (Z.to_N n)). pose proof (Hnil (Z.to_N m)).
    destruct (N.to_uint (Z.to_N n)), (N.to_uint (Z.to_N m)); congruence. }
  apply (f_equal NilEmpty.uint_of_string) in Heq. rewrite !NilEmpty.usu in Heq.
  inversion Heq as [Hu]. apply DecimalN.Unsigned.to_uint_inj in Hu. lia.
Qed.

Lemma location_id_inj rack rack' bay bay' level level' :
  (0 <= bay)%Z -> (0 <= bay')%Z -> (0 <= level)%Z -> (0 <= level')%Z ->
  Location.id (make_location rack bay level)
  = Location.id (make_location rack' bay' level') ->
  Rack.id rack = Rack.id rack' /\ bay = bay' /\ level = level'.
Proof.
  intros Hb Hb' Hl Hl' H. cbn [Location.id make_location] in H.
  apply (inj (String.append "loc-")) in H.
  rewrite !(append_cons "-" ""), !append_nil, !append_regroup in H.
  apply split_last_dash in H as [H H2]; try apply str_no_dash.
  apply split_last_dash in H as [H H3]; try apply str_no_dash.
  split; [exact H |]. split; apply str_inj; auto.
Qed.

Lemma range_spec n k : In k (Py.range n) -> (0 <= k)%Z.
Proof. unfold Py.range. intros H. apply in_map_iff in H as [i [<- _]]. lia. Qed.

Lemma range_NoDup n : List.NoDup (Py.range n).
Proof.
  unfold Py.range. apply Finite.Injective_map_NoDup; [| apply seq_NoDup].
  intros i j. lia.
Qed.

Lemma NoDup_map_In_inj {A B} (f : A -> B) (l : list A) a a' :
  List.NoDup (map f l) -> In a l -> In a' l -> f a = f a' -> a = a'.
Proof.
  induction l as [| b l IH]; cbn; [intros _ [] |].
  intros Hnd Ha Ha' Heq. inversion Hnd as [| ? ? Hnotin Hnd']; subst.
  destruct Ha as [-> | Ha], Ha' as [-> | Ha']; auto.
  - exfalso. apply Hnotin. rewrite Heq. now apply in_map.
  - exfalso. apply Hnotin. rewrite <- Heq. now apply in_map.
Qed.

(** Racks with pairwise distinct ids generate pairwise distinct location
    ids. *)
Lemma all_locations_ids_NoDup layout :
  List.NoDup (map Rack.id (Layout.racks layout)) ->
  List.NoDup (map Location.id (_get_all_locations layout)).
Proof.
  intros Hids. unfold _get_all_locations. rewrite map_flat_map_comm.
  assert (Hloc : forall rack b, In b (map Location.id (rack_locations rack)) ->
            exists bay level, (0 <= bay)%Z /\ (0 <= level)%Z
                              /\ b = Location.id (make_location rack bay level)).
  { intros rack b Hb. apply in_map_iff in Hb as [loc [<- Hloc]].
    unfold rack_locations in Hloc.
    apply in_flat_map in Hloc as [bay [Hbay Hloc]].
    apply in_map_iff in Hloc as [level [<- Hlevel]].
    exists bay, level. eauto using range_spec. }
  apply NoDup_flat_map.
  - eapply NoDup_map_inv, Hids.
  - intros rack _. unfold rack_locations. rewrite map_flat_map_comm.
    apply NoDup_flat_map.
    + apply range_NoDup.
    + intros bay Hbay. rewrite map_map.
      apply Finite.Injective_map_NoDup_in; [| apply range_NoDup].
      intros level level' Hl Hl' Heq.
      apply location_id_inj in Heq as (_ & _ & Heq); eauto using range_spec.
    + intros bay bay' b Hbay Hbay' Hb Hb'.
      rewrite map_map in Hb, Hb'.
      apply in_map_iff in Hb as [level [<- Hl]].
      apply in_map_iff in Hb' as [level' [Heq Hl']].
      apply location_id_inj in Heq as (_ & Heq & _); eauto using range_spec.
  - intros rack rack' b Hr Hr' Hb Hb'.
    apply Hloc in Hb as (bay & level & Hbay & Hlevel & ->).
    apply Hloc in Hb' as (bay' & level' & Hbay' & Hlevel' & Heq).
    apply location_id_inj in Heq as (Heq & _ & _); auto.
    eapply NoDup_map_In_inj; eauto.
Qed.

(** C3, as amended: when the racks of the layout have pairwise distinct
    ids, [optimize] (exact path or heuristic) returns the assignments of a
    list of product/location pairs in which no location id occurs twice,
    every pair fits in one of the two planar orientations when
    [respect_product_dimensions] is on, and every pair passes the weight
    check when [respect_weight_limits] is on. *)
Theorem slotting_optimize_sound
  (slv : Mip.solver) (layout : Layout.t) (products : list Product.t)
  (c : option constraints) :
  List.NoDup (map Rack.id (Layout.racks layout)) ->
  exists pairs,
    optimize slv layout products c = Ok (map to_assignment pairs)
    /\ List.NoDup (map location_id (map to_assignment pairs))
    /\ Forall (assignment_ok (default default_constraints c) products
                 (_get_all_locations layout)) pairs.
Proof.
  intros Hids%all_locations_ids_NoDup. unfold optimize.
  set (c' := default default_constraints c).
  assert (Hheur : exists pairs,
             _solve_with_heuristic layout products c' = Ok (map to_assignment pairs)
             /\ List.NoDup (map location_id (map to_assignment pairs))
             /\ Forall (assignment_ok c' products (_get_all_locations layout)) pairs).
  { exists (heuristic_pairs layout products c'). split; [reflexivity |].
    apply heuristic_pairs_spec. }
  unfold _solve_with_mip.
  destruct (is_empty _ || is_empty _).
  { exists []. repeat split; constructor. }
  destruct (negb (Mip.created slv)); [exact Hheur |].
  destruct (Mip.solve slv _) as [x |] eqn:E; [| exact Hheur].
  apply Mip.solve_sound in E.
  exists (selected x products (_get_all_locations layout)).
  split; [reflexivity |]. split.
  - now apply (selected_NoDup c').
  - now apply selected_ok.
Qed.

Lemma slotting_optimize_sound_witness :
  exists pairs,
    optimize (Mip.candidate_solver diagonal) scenario_C_layout two_products None
    = Ok (map to_assignment pairs)
    /\ List.NoDup (map location_id (map to_assignment pairs))
    /\ Forall (assignment_ok default_constraints two_products
                 (_get_all_locations scenario_C_layout)) pairs.
Proof.
  apply (slotting_optimize_sound (Mip.candidate_solver diagonal) scenario_C_layout
           two_products None).
  repeat constructor. intros [].
Defined.

(** C3, as stated: on a layout whose two racks share the id [rack-1] the
    exact path may assign both of two products, each to its own location
    index, and both assignments name the location id [loc-rack-1-0-0]. *)
Lemma slotting_exact_path_repeats_location :
  exists r,
    optimize (Mip.candidate_solver diagonal) twin_racks_layout two_products None = Ok r
    /\ map location_id r = ["loc-rack-1-0-0"; "loc-rack-1-0-0"]
    /\ ~ List.NoDup (map location_id r).
Proof.
  eexists. split; [vm_compute; reflexivity |]. split; [reflexivity |].
  intros H. inversion H as [| ? ? Hnotin _]. apply Hnotin. now left.
Qed.

End Slotting.

(** ** Aisle widths: bounds and increment *)

Section AisleWidths.
Import AisleWidthOptimizer.

(** *** The heuristic *)

Lemma heuristic_width_shape min_w max_w increment density aisle adjacent w :
  heuristic_width min_w max_w increment density aisle adjacent = Ok w ->
  exists k : Z, w = Py.max min_w (Py.min max_w (inject_Z k * increment)).
Proof.
  unfold heuristic_width, Py.div.
  destruct (Qeq_bool increment 0); cbn; [discriminate |].
  intros H. inversion H. eauto.
Qed.

Lemma heuristic_width_total min_w max_w increment density aisle adjacent :
  ~ increment == 0 ->
  exists w, heuristic_width min_w max_w increment density aisle adjacent = Ok w.
Proof.
  intros Hinc. unfold heuristic_width.
  rewrite py_div_ok by exact Hinc. cbn. eauto.
Qed.

Lemma clamp_multiple lo hi increment k :
  multiple_of increment lo -> multiple_of increment hi ->
  multiple_of increment (Py.max lo (Py.min hi (inject_Z k * increment))).
Proof.
  intros Hlo Hhi.
  destruct (clamp_cases lo hi (inject_Z k * increment)) as [-> | [-> | ->]];
    [exact Hlo | exact Hhi | now exists k].
Qed.

(** A list the heuristic returns has one entry per aisle, in order, and
    each width is a multiple of the increment clamped to the bounds. *)
Lemma heuristic_loop_spec layout min_w max_w increment density aisles g r :
  (heuristic_loop layout min_w max_w increment density aisles g).1 = Ok r ->
  map id r = map Aisle.id aisles
  /\ Forall (fun e => exists k : Z,
               width e = Py.max min_w (Py.min max_w (inject_Z k * increment))) r.
Proof.
  revert g r. induction aisles as [| aisle rest IH]; intros g r; cbn [heuristic_loop].
  - intros H. inversion H. split; constructor.
  - destruct (_get_adjacent_racks layout aisle g) as [adj g1].
    destruct (heuristic_width _ _ _ _ _ _) as [w | e] eqn:Ew; [| discriminate].
    apply heuristic_width_shape in Ew.
    specialize (IH g1).
    destruct (heuristic_loop layout min_w max_w increment density rest g1)
      as [[r' | e] g2]; [| discriminate].
    intros H. inversion H; subst.
    destruct (IH r' eq_refl) as [Hids Hall].
    split; [cbn; now rewrite Hids |]. constructor; [exact Ew | exact Hall].
Qed.

(** The heuristic raises only when the increment is zero. *)
Lemma heuristic_loop_total layout min_w max_w increment density aisles g :
  ~ increment == 0 ->
  exists r, (heuristic_loop layout min_w max_w increment density aisles g).1 = Ok r.
Proof.
  intros Hinc. revert g. induction aisles as [| aisle rest IH]; intros g.
  - now exists [].
  - cbn [heuristic_loop].
    destruct (_get_adjacent_racks layout aisle g) as [adj g1].
    destruct (heuristic_width_total min_w max_w increment density aisle adj Hinc)
      as [w ->].
    destruct (IH g1) as [r Hr].
    destruct (heuristic_loop layout min_w max_w increment density rest g1)
      as [[r' | e] g2]; cbn in Hr; [| discriminate].
    eexists. reflexivity.
Qed.

Lemma heuristic_widths_ok layout min_w max_w increment density aisles g r :
  min_w <= max_w ->
  multiple_of increment min_w -> multiple_of increment max_w ->
  (heuristic_loop layout min_w max_w increment density aisles g).1 = Ok r ->
  map id r = map Aisle.id aisles /\ Forall (width_ok min_w max_w increment) r.
Proof.
  intros Hle Hmin Hmax Hr.
  apply heuristic_loop_spec in Hr as [Hids Hall].
  split; [exact Hids |].
  eapply Forall_impl; [exact Hall |]. intros e [k Hk]. unfold width_ok. rewrite Hk.
  destruct (clamp_bounds min_w max_w (inject_Z k * increment) Hle).
  repeat split; auto. now apply clamp_multiple.
Qed.

(** *** The exact path *)

Lemma vars_fold_preserve (l : list Aisle.t) k (m : gmap string nat) key :
  (forall a, In a l -> Aisle.id a <> key) ->
  fold_left (fun m ia => <[Aisle.id ia.2 := ia.1]> m)
            (combine (seq k (length l)) l) m !! key = m !! key.
Proof.
  revert k m. induction l as [| b l IH]; intros k m Hne; cbn; [reflexivity |].
  rewrite IH by (intros a Ha; apply Hne; now right).
  apply lookup_insert_ne. apply Hne. now left.
Qed.

Lemma vars_fold_lookup (l : list Aisle.t) k (m : gmap string nat) a :
  In a l ->
  exists v,
    fold_left (fun m ia => <[Aisle.id ia.2 := ia.1]> m)
              (combine (seq k (length l)) l) m !! Aisle.id a = Some v
    /\ (k <= v < k + length l)%nat.
Proof.
  revert k m a. induction l as [| b l IH]; intros k m a Ha; [destruct Ha |]. cbn.
  destruct (in_dec string_dec (Aisle.id a) (map Aisle.id l)) as [Hin | Hnotin].
  - apply in_map_iff in Hin as [a' [Heq Ha']].
    destruct (IH (S k) (<[Aisle.id b := k]> m) a' Ha') as [v [Hv Hk]].
    exists v. rewrite <- Heq. split; [exact Hv | lia].
  - assert (a = b) as ->.
    { destruct Ha as [| Ha]; [congruence |]. exfalso. apply Hnotin.
      now apply in_map. }
    exists k. split; [| lia].
    rewrite vars_fold_preserve.
    + apply lookup_insert_eq.
    + intros a Ha' Heq. apply Hnotin. rewrite <- Heq. now apply in_map.
Qed.

(** Every aisle has a variable, and it is one of the declared ones. *)
Lemma aisle_var_declared (aisles : list Aisle.t) a :
  In a aisles -> (aisle_width_vars aisles !!! Aisle.id a < length aisles)%nat.
Proof.
  intros Ha. unfold aisle_width_vars.
  destruct (vars_fold_lookup aisles 0 ∅ a Ha) as [v [Hv Hk]].
  rewrite (lookup_total_correct _ _ _ Hv). lia.
Qed.

Lemma in_domains_uniform {A} s lo hi (l : list A) i v :
  CpSat.in_domains s i (map (fun _ => (lo, hi)) l) = true ->
  (i <= v < i + length l)%nat -> (lo <= s v <= hi)%Z.
Proof.
  revert i. induction l as [| a l IH]; intros i; cbn; [lia |].
  intros H Hv. apply andb_prop in H as [H Hrest]. apply andb_prop in H as [Hlo Hhi].
  destruct (Nat.eq_dec v i) as [-> | Hne]; [lia |].
  apply (IH (S i)); [exact Hrest | lia].
Qed.

Lemma build_model_shape layout equipment c g :
  let min_w := default (Equipment.min_aisle_width equipment) (min_aisle_width c) in
  let max_w := default (Equipment.max_aisle_width equipment) (max_aisle_width c) in
  let increment := default 0.5 (aisle_width_increment c) in
  let aisles := Layout.aisles layout in
  exists rest obj g',
    build_model layout equipment c g
    = ({| CpSat.domains :=
            map (fun _ => (Py.int (min_w * 12), Py.int (max_w * 12))) aisles;
          CpSat.constraints :=
            map (fun i => CpSat.ModuloEq0 (CpSat.Var i) (Py.int (increment * 12)))
                (seq 0 (length aisles)) ++ rest;
          CpSat.objective := obj |},
       aisle_width_vars aisles, g').
Proof.
  cbv zeta. unfold build_model.
  destruct (adjacency_constraints _ _ _ _ _) as [adjs g']. eauto.
Qed.

(** A list the exact path returns has one entry per aisle, in order; each
    width is a whole number of inches within the truncated bounds and a
    multiple of the truncated increment, divided by 12. *)
Lemma cp_widths_spec slv layout equipment c g r :
  let min_w := default (Equipment.min_aisle_width equipment) (min_aisle_width c) in
  let max_w := default (Equipment.max_aisle_width equipment) (max_aisle_width c) in
  let increment := default 0.5 (aisle_width_increment c) in
  (_solve_with_cp slv layout equipment c g).1 = Ok r ->
  map id r = map Aisle.id (Layout.aisles layout)
  /\ Forall (fun e => exists inches t : Z,
               width e = inject_Z inches / 12
               /\ (Py.int (min_w * 12) <= inches <= Py.int (max_w * 12))%Z
               /\ (0 < Py.int (increment * 12))%Z
               /\ inches = (t * Py.int (increment * 12))%Z) r.
Proof.
  cbv zeta. unfold _solve_with_cp.
  destruct (build_model_shape layout equipment c g) as (rest & obj & g' & ->).
  destruct (CpSat.solve slv _) as [s |] eqn:E; [| discriminate].
  apply CpSat.solve_sound in E. unfold CpSat.feasible in E. cbn in E.
  apply andb_prop in E as [Hdom Hcs]. rewrite forallb_app in Hcs.
  apply andb_prop in Hcs as [Hmods _]. rewrite forallb_forall in Hmods.
  intros H. inversion H; subst r. clear H. split.
  - rewrite map_map. reflexivity.
  - apply Forall_map. apply List.Forall_forall. intros a Ha. cbn.
    pose proof (aisle_var_declared _ a Ha) as Hv.
    set (v := aisle_width_vars (Layout.aisles layout) !!! Aisle.id a) in *.
    assert (Hmod : CpSat.holds s (CpSat.ModuloEq0 (CpSat.Var v)
                     (Py.int (default 0.5 (aisle_width_increment c) * 12))) = true).
    { apply Hmods. apply in_map_iff. exists v. split; [reflexivity |].
      apply in_seq. lia. }
    cbn in Hmod. apply andb_prop in Hmod as [Hpos Hzero].
    apply Z.ltb_lt in Hpos. apply Z.eqb_eq in Hzero.
    exists (s v), (s v / Py.int (default 0.5 (aisle_width_increment c) * 12)%Q)%Z.
    split; [reflexivity |]. split.
    + apply (in_domains_uniform s _ _ _ 0%nat v Hdom). lia.
    + split; [exact Hpos |].
      rewrite Z.mul_comm. apply Z.div_exact; [lia | exact Hzero].
Qed.

(** Bounds and increment that are whole numbers of inches survive the
    truncation. *)
Lemma whole_inches increment x (j k : Z) :
  increment * 12 == inject_Z j -> x == inject_Z k * increment ->
  inject_Z (Py.int (x * 12)) == x * 12.
Proof.
  intros Hj Hx.
  assert (H : x * 12 == inject_Z (k * j)).
  { rewrite inject_Z_mult, <- Hj, Hx. ring. }
  now rewrite (py_int_whole _ _ H).
Qed.

(** C1, as amended: when [min_aisle_width <= max_aisle_width], both bounds
    are integer multiples of the increment and the increment is a whole
    number of inches, every list [optimize] returns (exact path or
    heuristic) has exactly one entry per aisle, in order, each width within
    the bounds and an integer multiple of the increment; and unless the
    increment is zero, [optimize] does return a list. *)
Theorem aisle_optimize_on_grid
  (slv : CpSat.solver) (layout : Layout.t) (equipment : Equipment.t)
  (c : option constraints) (g : Rng) :
  let c' := match c with None => default_constraints equipment | Some c => c end in
  let min_w := default (Equipment.min_aisle_width equipment) (min_aisle_width c') in
  let max_w := default (Equipment.max_aisle_width equipment) (max_aisle_width c') in
  let increment := default 0.5 (aisle_width_increment c') in
  min_w <= max_w ->
  multiple_of increment min_w ->
  multiple_of increment max_w ->
  (exists j : Z, increment * 12 == inject_Z j) ->
  (forall r, (optimize slv layout equipment c g).1 = Ok r ->
     map id r = map Aisle.id (Layout.aisles layout)
     /\ Forall (width_ok min_w max_w increment) r)
  /\ (~ increment == 0 ->
      exists r, (optimize slv layout equipment c g).1 = Ok r).
Proof.
  intros c' min_w max_w increment Hle Hmin Hmax [j Hj].
  unfold optimize. fold c'.
  destruct (_solve_with_cp slv layout equipment c' g) as [[r0 | e] g'] eqn:E.
  - split; [| intros _; now exists r0].
    intros r Hr. cbn in Hr. inversion Hr; subst r0. clear Hr.
    assert (E' : (_solve_with_cp slv layout equipment c' g).1 = Ok r)
      by now rewrite E.
    apply cp_widths_spec in E' as [Hids Hall]. split; [exact Hids |].
    eapply Forall_impl; [exact Hall |].
    intros en (inches & t & Hw & [Hlo Hhi] & Hpos & Ht).
    fold min_w max_w increment in Hlo, Hhi, Hpos, Ht.
    destruct Hmin as [kmin Hkmin]. destruct Hmax as [kmax Hkmax].
    pose proof (whole_inches increment min_w j kmin Hj Hkmin) as Hmin_in.
    pose proof (whole_inches increment max_w j kmax Hj Hkmax) as Hmax_in.
    rewrite Zle_Qle in Hlo, Hhi. rewrite Hmin_in in Hlo. rewrite Hmax_in in Hhi.
    unfold width_ok. rewrite Hw. repeat split.
    + apply Qle_shift_div_l; [reflexivity | exact Hlo].
    + apply Qle_shift_div_r; [reflexivity | exact Hhi].
    + exists t. rewrite Ht, (py_int_whole _ _ Hj), inject_Z_mult, <- Hj. field.
  - unfold _solve_with_heuristic. fold min_w max_w increment. split.
    + intros r Hr. now apply heuristic_widths_ok in Hr.
    + intros Hinc. now apply heuristic_loop_total.
Qed.

Lemma aisle_optimize_on_grid_witness :
  (forall r,
     (optimize solver_156 scenario_A_layout scenario_A_equipment None
        (Scenario.constant_rng 0)).1 = Ok r ->
     map id r = map Aisle.id (Layout.aisles scenario_A_layout)
     /\ Forall (width_ok 12 14 0.5) r)
  /\ (~ 0.5 == 0 ->
      exists r,
        (optimize solver_156 scenario_A_layout scenario_A_equipment None
           (Scenario.constant_rng 0)).1 = Ok r).
Proof.
  apply (aisle_optimize_on_grid solver_156 scenario_A_layout scenario_A_equipment None
           (Scenario.constant_rng 0)).
  - discriminate.
  - exists 24%Z. reflexivity.
  - exists 28%Z. reflexivity.
  - exists 6%Z. reflexivity.
Defined.

(** No width is both at most 147 inches and at least 156 inches. *)
Lemma narrow_model_infeasible g s :
  CpSat.feasible
    (build_model scenario_A_layout narrow_equipment
       (default_constraints narrow_equipment) g).1.1 s = false.
Proof.
  change (build_model scenario_A_layout narrow_equipment
            (default_constraints narrow_equipment) g).1.1
    with {| CpSat.domains := [(144, 147)%Z];
            CpSat.constraints :=
              [CpSat.ModuloEq0 (CpSat.Var 0) 6; CpSat.Ge (CpSat.Var 0) 156];
            CpSat.objective :=
              Some (CpSat.Minimize,
                    [(500%Z, CpSat.Var 0); ((-50)%Z, CpSat.Const 147);
                     (50%Z, CpSat.Var 0)]) |}.
  infeasible.
Qed.

(** No width is both at least 168 inches and at most 144 inches. *)
Lemma inverted_model_infeasible g s :
  CpSat.feasible
    (build_model scenario_A_layout inverted_equipment
       (default_constraints inverted_equipment) g).1.1 s = false.
Proof.
  change (build_model scenario_A_layout inverted_equipment
            (default_constraints inverted_equipment) g).1.1
    with {| CpSat.domains := [(168, 144)%Z];
            CpSat.constraints :=
              [CpSat.ModuloEq0 (CpSat.Var 0) 6; CpSat.Ge (CpSat.Var 0) 180];
            CpSat.objective :=
              Some (CpSat.Minimize,
                    [(500%Z, CpSat.Var 0); ((-50)%Z, CpSat.Const 144);
                     (50%Z, CpSat.Var 0)]) |}.
  infeasible.
Qed.

(** When the exact model has no solution, [optimize] is the heuristic. *)
Lemma optimize_falls_back slv layout equipment c g :
  (forall s, CpSat.feasible (build_model layout equipment c g).1.1 s = false) ->
  (optimize slv layout equipment (Some c) g).1
  = (_solve_with_heuristic layout equipment c (build_model layout equipment c g).2).1.
Proof.
  intros Hinf. unfold optimize, _solve_with_cp.
  destruct (build_model layout equipment c g) as [[m vars] g'] eqn:Eb. cbn in *.
  destruct (CpSat.solve slv m) as [s |] eqn:E; [| reflexivity].
  apply CpSat.solve_sound in E. rewrite Hinf in E. discriminate.
Qed.

(** C1, as stated, fails in three ways.
    - Upper bound 12.25 with increment 0.5: the main aisle is clamped to
      12.25, which is not a multiple of 0.5 (whatever the solver does: the
      exact model has no solution).
    - Bounds 12.3 and 15 with increment 0.3: the exact path works in whole
      inches, [int(12.3 * 12) = 147] and [int(0.3 * 12) = 3], and may return
      147 inches, i.e. 12.25, below the lower bound and not a multiple of 0.3.
    - Bounds 14 and 12 (minimum above maximum): the heuristic returns 14,
      above the upper bound. *)
Lemma aisle_optimize_off_grid :
  (forall slv g, exists w,
      (optimize slv scenario_A_layout narrow_equipment None g).1
        = Ok [{| id := "aisle-1"; width := w |}]
      /\ w == 12.25 /\ ~ multiple_of 0.5 w)
  /\ (exists w,
        (optimize solver_147 tenths_layout tenths_equipment (Some tenths_constraints)
           (Scenario.constant_rng 0)).1
          = Ok [{| id := "aisle-1"; width := w |}]
        /\ w == 12.25 /\ w < 12.3 /\ ~ multiple_of 0.3 w)
  /\ (forall slv g, exists w,
        (optimize slv scenario_A_layout inverted_equipment None g).1
          = Ok [{| id := "aisle-1"; width := w |}]
        /\ w == 14 /\ 12 < w).
Proof.
  split; [| split].
  - intros slv g.
    change (optimize slv scenario_A_layout narrow_equipment None g)
      with (optimize slv scenario_A_layout narrow_equipment
              (Some (default_constraints narrow_equipment)) g).
    rewrite optimize_falls_back by (intros s; apply narrow_model_infeasible).
    eexists. split; [vm_compute; reflexivity |]. split; [reflexivity |].
    intros [k Hk]. unfold Qeq in Hk. cbn in Hk. lia.
  - eexists. split; [vm_compute; reflexivity |]. split; [reflexivity |].
    split; [reflexivity |].
    intros [k Hk]. unfold Qeq in Hk. cbn in Hk. lia.
  - intros slv g.
    change (optimize slv scenario_A_layout inverted_equipment None g)
      with (optimize slv scenario_A_layout inverted_equipment
              (Some (default_constraints inverted_equipment)) g).
    rewrite optimize_falls_back by (intros s; apply inverted_model_infeasible).
    eexists. split; [vm_compute; reflexivity |]. split; reflexivity.
Qed.

End AisleWidths.

(** ** Beam elevations: floor first, ascending, bounded count *)

Section Elevations.
Import ElevationProfileOptimizer.

Lemma consecutive_cons_map_seq {A} (P : A * A -> Prop) (f : nat -> A) x a n :
  (n <> 0%nat -> P (x, f a)) ->
  (forall k, (a <= k)%nat -> (S k < a + n)%nat -> P (f k, f (S k))) ->
  Forall P (consecutive (x :: map f (seq a n))).
Proof.
  revert x a. induction n as [| n IH]; intros x a Hx Hf; cbn; [constructor |].
  constructor; [now apply Hx |].
  apply IH.
  - intros Hn. apply Hf; lia.
  - intros k Hk Hk'. apply Hf; lia.
Qed.

Lemma py_int_nonneg q : 0 <= q -> (0 <= Py.int q)%Z.
Proof.
  unfold Py.int, Qle. destruct q as [n d]; cbn. intros H.
  apply Z.quot_pos; lia.
Qed.

Lemma py_int_pos q : (0 < Py.int q)%Z -> 0 < q.
Proof.
  intros H. apply Qnot_le_lt. intros Hq.
  unfold Py.int, Qle in *. destruct q as [n d]; cbn in *.
  assert (n <= 0)%Z by lia.
  pose proof (Z.quot_pos (- n) (Z.pos d)) as Hp.
  rewrite Z.quot_opp_l in Hp by lia. lia.
Qed.

(** *** The heuristic *)

(** With a positive minimum spacing, a non-negative reach and a
    non-negative level count, the heuristic returns a sequence that starts
    at 0, ascends strictly, and has at most [max_levels] levels above the
    floor. *)
Lemma heuristic_profile heights reach c :
  let spacing := default 12 (min_beam_spacing c) in
  let levels := default 4%Z (max_levels c) in
  (0 <= levels)%Z -> 0 <= reach -> 0 < spacing ->
  exists e0 tl,
    _solve_with_heuristic heights reach c = Ok (e0 :: tl)
    /\ e0 == 0
    /\ strictly_increasing (e0 :: tl)
    /\ (Z.of_nat (length (e0 :: tl)) - 1 <= levels)%Z.
Proof.
  intros spacing levels Hlevels Hreach Hspacing.
  unfold _solve_with_heuristic. fold spacing levels.
  set (mph := match heights with [] => 0 | h :: hs => Py.max_list h hs end).
  set (lh := Py.max (mph + default 6 (min_clearance c) / 12) (spacing / 12)).
  assert (Hlh : 0 < lh).
  { eapply Qlt_le_trans; [| apply py_max_upper].
    apply Qlt_shift_div_l; [reflexivity | now rewrite Qmult_0_l]. }
  rewrite py_div_ok by (intros H0; rewrite H0 in Hlh; discriminate Hlh).
  cbn [mbind result_bind Py.bind].
  set (num := Z.min levels (Py.int (reach / lh))).
  assert (Hnum : (0 <= num)%Z).
  { apply Z.min_glb; [exact Hlevels |]. apply py_int_nonneg.
    apply Qle_shift_div_l; [exact Hlh | now rewrite Qmult_0_l]. }
  unfold Py.range. rewrite map_map.
  replace (Z.to_nat (num + 1)) with (S (Z.to_nat num)) by lia.
  cbn [seq map]. rewrite <- seq_shift, map_map.
  do 2 eexists. split; [reflexivity |]. split; [cbn; ring |]. split.
  - rewrite <- (map_map S (fun k => inject_Z (Z.of_nat k) * lh)), seq_shift.
    apply consecutive_cons_map_seq; cbn [fst snd].
    + intros _. cbn. rewrite Qmult_0_l, Qmult_1_l. exact Hlh.
    + intros k _ _. apply Qmult_lt_compat_r; [exact Hlh |].
      rewrite <- Zlt_Qlt. lia.
  - cbn [length]. rewrite length_map, length_seq. lia.
Qed.

(** *** The exact path *)

Lemma beam_var n i : (1 <= i <= n)%nat -> beam n i = CpSat.Var (i - 1).
Proof.
  intros Hi. unfold beam, beam_terms. destruct i as [| i]; [lia |]. cbn [nth].
  rewrite (nth_indep _ (CpSat.Const 0) (CpSat.Var 0)) by (rewrite length_map, length_seq; lia).
  rewrite map_nth, seq_nth by lia. f_equal. lia.
Qed.

Lemma in_domains_app_l s i l1 l2 :
  CpSat.in_domains s i (l1 ++ l2) = true -> CpSat.in_domains s i l1 = true.
Proof.
  revert i. induction l1 as [| [lo hi] l1 IH]; intros i; cbn; [reflexivity |].
  intros H. apply andb_prop in H as [H Hrest]. rewrite H. now apply IH.
Qed.

(** What a sequence returned by the exact path looks like: the floor, then
    the solver's values divided by 304.8; the values lie in the variable
    domain, ascend, and keep the truncated minimum gap. *)
Lemma cp_elevations_spec slv heights reach c es :
  let clearance := default 6 (min_clearance c) in
  let spacing := default 12 (min_beam_spacing c) in
  let levels := default 4%Z (max_levels c) in
  let n := Z.to_nat levels in
  let gap := (max_or_zero (map (fun h => Py.int (h * 25.4)) heights)
              + Py.int (clearance * 25.4))%Z in
  (0 <= levels)%Z ->
  _solve_with_cp slv heights reach c = Ok es ->
  exists E : nat -> Z,
    E 0%nat = 0%Z
    /\ es = 0 :: map (fun i => inject_Z (E i) / 304.8) (seq 1 n)
    /\ (forall i, (1 <= i <= n)%nat ->
          (Py.int (spacing * 25.4) <= E i <= Py.int (reach * 304.8))%Z)
    /\ (forall i, (1 <= i)%nat -> (S i <= n)%nat -> (E i < E (S i))%Z)
    /\ (forall i, (i < n)%nat -> (gap <= E (S i) - E i)%Z).
Proof.
  intros clearance spacing levels n gap Hlevels.
  unfold _solve_with_cp, build_model. fold clearance spacing levels n gap.
  destruct (Py.index (beam_terms n) levels) as [top | e]; [| discriminate].
  cbn [mbind result_bind Py.bind].
  destruct (CpSat.solve slv _) as [s |] eqn:E; [| discriminate].
  apply CpSat.solve_sound in E. unfold CpSat.feasible in E. cbn in E.
  apply andb_prop in E as [Hdom Hcs].
  apply in_domains_app_l in Hdom.
  rewrite !forallb_app in Hcs.
  apply andb_prop in Hcs as [Hasc Hcs]. apply andb_prop in Hcs as [Hgap _].
  rewrite forallb_forall in Hasc, Hgap.
  intros H. inversion H; subst es. clear H.
  exists (fun i => CpSat.eval s (beam n i)).
  split; [reflexivity |]. split; [reflexivity |]. split; [| split].
  - intros i Hi. rewrite beam_var by exact Hi. cbn.
    apply (in_domains_uniform s _ _ _ 0%nat (i - 1)%nat Hdom).
    rewrite length_seq. lia.
  - intros i Hi Hn.
    assert (Hin : In (CpSat.Lt (beam n i) (beam n (S i)))
                     (map (fun i => CpSat.Lt (beam n i) (beam n (S i))) (seq 1 (n - 1)))).
    { apply in_map_iff. exists i. split; [reflexivity | apply in_seq; lia]. }
    apply Hasc in Hin. cbn in Hin. now apply Z.ltb_lt in Hin.
  - intros i Hi.
    assert (Hin : In (CpSat.DiffGe (beam n (S i)) (beam n i) gap)
                     (map (fun i => CpSat.DiffGe (beam n (S i)) (beam n i) gap) (seq 0 n))).
    { apply in_map_iff. exists i. split; [reflexivity | apply in_seq; lia]. }
    apply Hgap in Hin. cbn in Hin. now apply Z.leb_le in Hin.
Qed.

Lemma cp_profile slv heights reach c es :
  let clearance := default 6 (min_clearance c) in
  let spacing := default 12 (min_beam_spacing c) in
  let levels := default 4%Z (max_levels c) in
  let gap := (max_or_zero (map (fun h => Py.int (h * 25.4)) heights)
              + Py.int (clearance * 25.4))%Z in
  (0 <= levels)%Z -> (0 < Py.int (spacing * 25.4))%Z ->
  _solve_with_cp slv heights reach c = Ok es ->
  (exists tl, es = 0 :: tl)
  /\ strictly_increasing es
  /\ (Z.of_nat (length es) - 1 <= levels)%Z
  /\ gaps_at_least (inject_Z gap / 304.8) es.
Proof.
  intros clearance spacing levels gap Hlevels Hspacing Hes.
  apply cp_elevations_spec in Hes as (E & E0 & -> & Hdom & Hasc & Hgap);
    [| exact Hlevels].
  fold spacing levels in Hdom, Hasc. fold clearance gap in Hgap.
  assert (Hdiv : forall a b : Z, (a < b)%Z -> inject_Z a / 304.8 < inject_Z b / 304.8).
  { intros a b Hab. apply Qmult_lt_compat_r; [reflexivity | now rewrite <- Zlt_Qlt]. }
  split; [eauto |]. split; [| split].
  - apply consecutive_cons_map_seq; cbn [fst snd].
    + intros Hn. apply Qlt_shift_div_l; [reflexivity |]. rewrite Qmult_0_l.
      change 0 with (inject_Z 0). rewrite <- Zlt_Qlt.
      specialize (Hdom 1%nat). lia.
    + intros k Hk Hk'. apply Hdiv. apply Hasc; lia.
  - cbn [length]. rewrite length_map, length_seq. lia.
  - assert (Hsub : forall a b : Z, (gap <= b - a)%Z ->
                     inject_Z gap / 304.8 <= inject_Z b / 304.8 - inject_Z a / 304.8).
    { intros a b Hab. unfold Z.sub in Hab.
      rewrite Zle_Qle, inject_Z_plus, inject_Z_opp in Hab.
      assert (Hq : inject_Z b / 304.8 - inject_Z a / 304.8
                   == (inject_Z b + - inject_Z a) / 304.8) by field.
      rewrite Hq.
      apply Qmult_le_compat_r; [exact Hab | discriminate]. }
    apply consecutive_cons_map_seq; cbn [fst snd].
    + intros Hn. unfold Qminus. rewrite Qplus_0_r.
      apply Qmult_le_compat_r; [| discriminate]. rewrite <- Zle_Qle.
      specialize (Hgap 0%nat). lia.
    + intros k Hk Hk'. apply Hsub. apply Hgap. lia.
Qed.

(** The exact path returns the solver's beam values, whole millimetres,
    each divided by 304.8; consecutive values differ by at least the
    required gap. *)
Lemma cp_millimetres slv heights reach c es :
  let clearance := default 6 (min_clearance c) in
  let levels := default 4%Z (max_levels c) in
  let gap := (max_or_zero (map (fun h => Py.int (h * 25.4)) heights)
              + Py.int (clearance * 25.4))%Z in
  (0 <= levels)%Z ->
  _solve_with_cp slv heights reach c = Ok es ->
  exists mm : list Z,
    Forall2 (fun e v => e == inject_Z v / 304.8) es mm
    /\ Forall (fun ab : Z * Z => (gap <= ab.2 - ab.1)%Z) (consecutive mm).
Proof.
  intros clearance levels gap Hlevels Hes.
  apply cp_elevations_spec in Hes as (E & E0 & -> & _ & _ & Hgap);
    [| exact Hlevels].
  fold clearance gap in Hgap. fold levels.
  exists (0%Z :: map E (seq 1 (Z.to_nat levels))). split.
  - constructor; [reflexivity |].
    induction (seq 1 (Z.to_nat levels)) as [| i l IH]; cbn; constructor;
      [reflexivity | exact IH].
  - apply consecutive_cons_map_seq; cbn [fst snd].
    + intros Hn. specialize (Hgap 0%nat). rewrite E0 in Hgap. apply Hgap. lia.
    + intros k Hk Hk'. apply Hgap. lia.
Qed.

(** C2, as amended: for a non-empty product list, a non-negative
    [max_levels], a non-negative reach height and a minimum beam spacing of
    at least one millimetre, [optimize] (exact path or heuristic) returns a
    sequence whose first element is 0, that is strictly increasing, and
    whose length minus 1 is at most [max_levels]; and a sequence that comes
    from the exact path is, element by element, a list of whole
    millimetre values divided by 304.8, the first one 0, in which
    consecutive millimetre values differ by at least
    [int(25.4 * max product height) + int(25.4 * min_clearance)].  The gap
    is stated on the millimetre values, where it is exact; on the quotients
    themselves every gap is at least one millimetre less than that,
    converted to feet, which leaves room for the rounding of the
    division. *)
Theorem elevation_optimize_profile
  (slv : CpSat.solver) (rack : Rack.t) (products : list Product.t)
  (equipment : Equipment.t) (c : option constraints) :
  let c' := default default_constraints c in
  let clearance := default 6 (min_clearance c') in
  let spacing := default 12 (min_beam_spacing c') in
  let levels := default 4%Z (max_levels c') in
  let reach := Equipment.reach_height equipment in
  let heights := map Product.height products in
  let gap_mm := (max_or_zero (map (fun h => Py.int (h * 25.4)) heights)
                 + Py.int (clearance * 25.4))%Z in
  products <> [] ->
  (0 <= levels)%Z ->
  0 <= reach ->
  (0 < Py.int (spacing * 25.4))%Z ->
  (exists e0 tl,
      optimize slv rack products equipment c = Ok (e0 :: tl)
      /\ e0 == 0
      /\ strictly_increasing (e0 :: tl)
      /\ (Z.of_nat (length (e0 :: tl)) - 1 <= levels)%Z)
  /\ (forall es,
        _solve_with_cp slv heights reach c' = Ok es ->
        optimize slv rack products equipment c = Ok es
        /\ exists mm : list Z,
             Forall2 (fun e v => e == inject_Z v / 304.8) es mm
             /\ Forall (fun ab : Z * Z => (gap_mm <= ab.2 - ab.1)%Z) (consecutive mm)
             /\ gaps_at_least (inject_Z (gap_mm - 1) / 304.8) es).
Proof.
  intros c' clearance spacing levels reach heights gap_mm Hne Hlevels Hreach Hspacing.
  assert (Hopt : optimize slv rack products equipment c
                 = match _solve_with_cp slv heights reach c' with
                   | Ok result => Ok result
                   | Raise _ => _solve_with_heuristic heights reach c'
                   end).
  { unfold optimize. fold c' heights reach.
    subst heights. destruct products as [| p ps]; [contradiction | reflexivity]. }
  rewrite Hopt. split.
  - destruct (_solve_with_cp slv heights reach c') as [es | e] eqn:E.
    + apply cp_profile in E as ([tl ->] & Hinc & Hlen & _); auto.
      exists 0, tl. repeat split; auto.
    + apply heuristic_profile; auto.
      apply py_int_pos in Hspacing. fold spacing. lra.
  - intros es E. rewrite E. split; [reflexivity |].
    destruct (cp_millimetres slv heights reach c' es Hlevels E) as (mm & Hq & Hmm).
    exists mm. split; [exact Hq |]. split; [exact Hmm |].
    apply cp_profile in E as (_ & _ & _ & Hgap); auto.
    eapply Forall_impl; [exact Hgap |]. intros ab Hab. cbn beta in Hab |- *.
    eapply Qle_trans; [| exact Hab].
    apply Qmult_le_compat_r; [| discriminate]. rewrite <- Zle_Qle.
    unfold gap_mm, clearance. lia.
Qed.

Lemma elevation_optimize_profile_witness :
  (exists e0 tl,
      optimize tight_solver scenario_B_rack single_rack_products
        single_rack_equipment (Some scenario_B_constraints) = Ok (e0 :: tl)
      /\ e0 == 0
      /\ strictly_increasing (e0 :: tl)
      /\ (Z.of_nat (length (e0 :: tl)) - 1 <= 4)%Z)
  /\ (forall es,
        _solve_with_cp tight_solver scenario_B_heights 288 scenario_B_constraints
        = Ok es ->
        optimize tight_solver scenario_B_rack single_rack_products
          single_rack_equipment (Some scenario_B_constraints) = Ok es
        /\ exists mm : list Z,
             Forall2 (fun e v => e == inject_Z v / 304.8) es mm
             /\ Forall (fun ab : Z * Z => (1371 <= ab.2 - ab.1)%Z) (consecutive mm)
             /\ gaps_at_least (inject_Z (1371 - 1) / 304.8) es).
Proof.
  apply (elevation_optimize_profile tight_solver scenario_B_rack single_rack_products
           single_rack_equipment (Some scenario_B_constraints)).
  - discriminate.
  - vm_compute. discriminate.
  - discriminate.
  - reflexivity.
Defined.

(** When the exact model has no solution, [optimize] is the heuristic. *)
Lemma elevation_falls_back slv rack p ps equipment c m :
  build_model (map Product.height (p :: ps)) (Equipment.reach_height equipment) c = Ok m ->
  (forall s, CpSat.feasible m s = false) ->
  optimize slv rack (p :: ps) equipment (Some c)
  = _solve_with_heuristic (map Product.height (p :: ps))
      (Equipment.reach_height equipment) c.
Proof.
  intros Hm Hinf. unfold optimize, _solve_with_cp.
  change (default default_constraints (Some c)) with c.
  cbn [map]. cbn [map] in Hm. rewrite Hm. cbn [mbind result_bind Py.bind].
  destruct (CpSat.solve slv m) as [s |] eqn:E; [| reflexivity].
  apply CpSat.solve_sound in E. rewrite Hinf in E. discriminate.
Qed.

(** C2, as stated, fails in four ways.
    - Scenario B on the exact path: the solver works in whole millimetres,
      [int(48 * 25.4) + int(6 * 25.4) = 1371], and beams every 1371 mm are a
      solution; the returned gaps are 1371 / 304.8 feet, which is less than
      54 and, converted to inches (times 12), still less than 48 + 6.
    - [max_levels = -1]: the exact path returns the floor alone, so the
      length minus 1 is 0, above [max_levels].
    - Reach height -100 with one level: no exact solution exists and the
      heuristic returns the empty sequence, which has no first element.
    - Clearance 0, spacing 0 and a product of height 0: the exact path may
      return a beam at elevation 0, so the sequence does not ascend. *)
Lemma elevation_optimize_profile_fails :
  (exists es,
      optimize tight_solver scenario_B_rack single_rack_products
        single_rack_equipment (Some scenario_B_constraints) = Ok es
      /\ ~ gaps_at_least (48 + 6) es
      /\ ~ gaps_at_least ((48 + 6) / 12) es)
  /\ (exists es,
        optimize zero_solver scenario_B_rack single_rack_products
          single_rack_equipment (Some no_levels) = Ok es
        /\ ~ (Z.of_nat (length es) - 1 <= -1)%Z)
  /\ (forall slv,
        optimize slv scenario_B_rack single_rack_products
          below_floor_equipment (Some one_level) = Ok [])
  /\ (exists es,
        optimize zero_solver scenario_B_rack [Scenario.product "sku-0" "C" 0]
          single_rack_equipment (Some no_spacing) = Ok es
        /\ ~ strictly_increasing es).
Proof.
  split; [| split; [| split]].
  - eexists. split; [vm_compute; reflexivity |]. split.
    + intros H. inversion H as [| ? ? H1 _]. apply Qle_bool_iff in H1.
      vm_compute in H1. discriminate.
    + intros H. inversion H as [| ? ? H1 _]. apply Qle_bool_iff in H1.
      vm_compute in H1. discriminate.
  - eexists. split; [vm_compute; reflexivity |]. cbn. lia.
  - intros slv. unfold single_rack_products.
    erewrite elevation_falls_back.
    + vm_compute. reflexivity.
    + vm_compute. reflexivity.
    + intros s. infeasible.
  - eexists. split; [vm_compute; reflexivity |].
    intros H. inversion H as [| ? ? H1 _]. cbn in H1. discriminate H1.
Qed.

End Elevations.

(** ** Aisle widths: empty layouts, inverted bounds, a zero increment,
       the floors of the exact model and the draws consumed *)

Section AisleEdges.
Import AisleWidthOptimizer.

Lemma aisle_optimize_nil slv layout equipment c g :
  Layout.aisles layout = [] ->
  optimize slv layout equipment c g = (Ok [], g).
Proof.
  intros H. unfold optimize, _solve_with_cp, _solve_with_heuristic, build_model.
  rewrite H. cbn. destruct (CpSat.solve slv _); reflexivity.
Qed.

(** X1: on a layout without aisles [optimize] returns the empty list and
    leaves the random generator untouched, whatever the solver, the
    equipment and the constraints. *)
Theorem aisle_optimize_no_aisles
  (slv : CpSat.solver) (layout : Layout.t) (equipment : Equipment.t)
  (c : option constraints) (g : Rng) :
  Layout.aisles layout = [] ->
  optimize slv layout equipment c g = (Ok [], g).
Proof.
  apply aisle_optimize_nil.
Qed.

Lemma aisle_optimize_no_aisles_witness :
  optimize CpSat.failing_solver single_rack_layout single_rack_equipment None
    (Scenario.constant_rng 0)
  = (Ok [], Scenario.constant_rng 0).
Proof.
  apply (aisle_optimize_no_aisles CpSat.failing_solver single_rack_layout
           single_rack_equipment None (Scenario.constant_rng 0)).
  reflexivity.
Defined.

(** X2: with [min_aisle_width <= max_aisle_width] and a non-zero increment
    the heuristic returns one entry per aisle, in the order of
    [layout.aisles], and every width lies within the two bounds; no
    assumption on the increment dividing the bounds is needed. *)
Theorem aisle_heuristic_within_bounds
  (layout : Layout.t) (equipment : Equipment.t) (c : constraints) (g : Rng) :
  let min_w := default (Equipment.min_aisle_width equipment) (min_aisle_width c) in
  let max_w := default (Equipment.max_aisle_width equipment) (max_aisle_width c) in
  let increment := default 0.5 (aisle_width_increment c) in
  min_w <= max_w ->
  ~ increment == 0 ->
  exists r,
    (_solve_with_heuristic layout equipment c g).1 = Ok r
    /\ map id r = map Aisle.id (Layout.aisles layout)
    /\ Forall (fun e => min_w <= width e /\ width e <= max_w) r.
Proof.
  intros min_w max_w increment Hle Hinc. unfold _solve_with_heuristic.
  fold min_w max_w increment.
  destruct (heuristic_loop_total layout min_w max_w increment
              (default true (optimize_for_density c)) (Layout.aisles layout) g Hinc)
    as [r Hr].
  exists r. split; [exact Hr |].
  apply heuristic_loop_spec in Hr as [Hids Hall]. split; [exact Hids |].
  eapply Forall_impl; [exact Hall |]. intros e [k ->].
  apply clamp_bounds. exact Hle.
Qed.

Lemma aisle_heuristic_within_bounds_witness :
  exists r,
    (_solve_with_heuristic tenths_layout tenths_equipment tenths_constraints
       (Scenario.constant_rng 0)).1 = Ok r
    /\ map id r = map Aisle.id (Layout.aisles tenths_layout)
    /\ Forall (fun e => 12.3 <= width e /\ width e <= 15) r.
Proof.
  apply (aisle_heuristic_within_bounds tenths_layout tenths_equipment
           tenths_constraints (Scenario.constant_rng 0)).
  - discriminate.
  - discriminate.
Defined.

(** X3: when the minimum is above the maximum, the heuristic gives every
    aisle exactly the minimum width: the final clamp applies the upper
    bound first and the lower bound last. *)
Theorem aisle_heuristic_inverted_bounds
  (layout : Layout.t) (equipment : Equipment.t) (c : constraints) (g : Rng) :
  let min_w := default (Equipment.min_aisle_width equipment) (min_aisle_width c) in
  let max_w := default (Equipment.max_aisle_width equipment) (max_aisle_width c) in
  let increment := default 0.5 (aisle_width_increment c) in
  max_w < min_w ->
  ~ increment == 0 ->
  exists r,
    (_solve_with_heuristic layout equipment c g).1 = Ok r
    /\ map id r = map Aisle.id (Layout.aisles layout)
    /\ Forall (fun e => width e = min_w) r.
Proof.
  intros min_w max_w increment Hlt Hinc. unfold _solve_with_heuristic.
  fold min_w max_w increment.
  destruct (heuristic_loop_total layout min_w max_w increment
              (default true (optimize_for_density c)) (Layout.aisles layout) g Hinc)
    as [r Hr].
  exists r. split; [exact Hr |].
  apply heuristic_loop_spec in Hr as [Hids Hall]. split; [exact Hids |].
  eapply Forall_impl; [exact Hall |]. intros e [k ->].
  set (x := inject_Z k * increment).
  assert (Hx : Py.min max_w x <= min_w).
  { destruct (py_min_cases max_w x) as [[-> _] | [-> H]]; lra. }
  unfold Py.max. apply Qle_bool_iff in Hx. now rewrite Hx.
Qed.

Lemma aisle_heuristic_inverted_bounds_witness :
  exists r,
    (_solve_with_heuristic scenario_A_layout inverted_equipment
       (default_constraints inverted_equipment) (Scenario.constant_rng 0)).1 = Ok r
    /\ map id r = map Aisle.id (Layout.aisles scenario_A_layout)
    /\ Forall (fun e => width e = 14) r.
Proof.
  apply (aisle_heuristic_inverted_bounds scenario_A_layout inverted_equipment
           (default_constraints inverted_equipment) (Scenario.constant_rng 0)).
  - reflexivity.
  - discriminate.
Defined.

(** The exact model rejects every assignment when the increment truncates
    to zero inches and there is an aisle. *)
Lemma zero_increment_infeasible layout equipment c g s :
  Py.int (default 0.5 (aisle_width_increment c) * 12) = 0%Z ->
  Layout.aisles layout <> [] ->
  CpSat.feasible (build_model layout equipment c g).1.1 s = false.
Proof.
  intros Hz Hne.
  destruct (build_model_shape layout equipment c g) as (rest & obj & g' & ->).
  unfold CpSat.feasible. cbn [fst CpSat.domains CpSat.constraints].
  destruct (Layout.aisles layout) as [| a l]; [congruence |].
  rewrite Hz. cbn. now rewrite andb_false_r.
Qed.

(** X4: with an increment of zero and at least one aisle, [optimize]
    raises [ZeroDivisionError] whatever the solver does: the exact model
    has no solution and the heuristic divides by the increment. *)
Theorem aisle_optimize_zero_increment
  (slv : CpSat.solver) (layout : Layout.t) (equipment : Equipment.t)
  (c : constraints) (g : Rng) :
  default 0.5 (aisle_width_increment c) == 0 ->
  Layout.aisles layout <> [] ->
  (optimize slv layout equipment (Some c) g).1 = Raise ZeroDivisionError.
Proof.
  intros Hz Hne. rewrite optimize_falls_back.
  - unfold _solve_with_heuristic.
    destruct (Layout.aisles layout) as [| a l]; [congruence |].
    cbn [heuristic_loop].
    destruct (_get_adjacent_racks layout a _) as [adj g1].
    unfold heuristic_width, Py.div.
    apply Qeq_bool_iff in Hz. rewrite Hz. reflexivity.
  - intros s. apply zero_increment_infeasible; [| exact Hne].
    apply py_int_whole. rewrite Hz. reflexivity.
Qed.

Lemma aisle_optimize_zero_increment_witness :
  (optimize solver_156 scenario_A_layout scenario_A_equipment
     (Some zero_increment) (Scenario.constant_rng 0)).1
  = Raise ZeroDivisionError.
Proof.
  apply (aisle_optimize_zero_increment solver_156 scenario_A_layout
           scenario_A_equipment zero_increment (Scenario.constant_rng 0)).
  - reflexivity.
  - discriminate.
Defined.

Lemma build_model_types layout equipment c g :
  let min_w := default (Equipment.min_aisle_width equipment) (min_aisle_width c) in
  let max_w := default (Equipment.max_aisle_width equipment) (max_aisle_width c) in
  let increment := default 0.5 (aisle_width_increment c) in
  let aisles := Layout.aisles layout in
  exists adjs obj g',
    build_model layout equipment c g
    = ({| CpSat.domains :=
            map (fun _ => (Py.int (min_w * 12), Py.int (max_w * 12))) aisles;
          CpSat.constraints :=
            map (fun i => CpSat.ModuloEq0 (CpSat.Var i) (Py.int (increment * 12)))
                (seq 0 (length aisles))
            ++ flat_map (type_constraints (aisle_width_vars aisles)
                           (Py.int (min_w * 12))) aisles
            ++ adjs;
          CpSat.objective := obj |},
       aisle_width_vars aisles, g').
Proof.
  cbv zeta. unfold build_model.
  destruct (adjacency_constraints _ _ _ _ _) as [adjs g']. eauto.
Qed.

Lemma Forall2_map_diag {A B} (P : A -> B -> Prop) (f : A -> B) (l : list A) :
  (forall a, In a l -> P a (f a)) -> Forall2 P l (map f l).
Proof.
  induction l as [| a l IH]; intros H; cbn; constructor.
  - apply H. now left.
  - apply IH. intros a' Ha'. apply H. now right.
Qed.

(** X5: a list the exact path returns pairs every aisle with a whole
    number of inches that is at least the truncated minimum, at least one
    foot more for an aisle of type [main] and at least two feet more for
    an aisle of type [staging]. *)
Theorem cp_type_floors
  (slv : CpSat.solver) (layout : Layout.t) (equipment : Equipment.t)
  (c : constraints) (g : Rng) (r : list entry) :
  let min_w := default (Equipment.min_aisle_width equipment) (min_aisle_width c) in
  let min_inches := Py.int (min_w * 12) in
  (_solve_with_cp slv layout equipment c g).1 = Ok r ->
  Forall2 (fun a e =>
             id e = Aisle.id a
             /\ exists inches : Z,
                  width e = inject_Z inches / 12
                  /\ (min_inches <= inches)%Z
                  /\ (aisle_type a = "main" -> (min_inches + 12 <= inches)%Z)
                  /\ (aisle_type a = "staging" -> (min_inches + 24 <= inches)%Z))
          (Layout.aisles layout) r.
Proof.
  cbv zeta. unfold _solve_with_cp.
  destruct (build_model_types layout equipment c g) as (adjs & obj & g' & ->).
  destruct (CpSat.solve slv _) as [s |] eqn:E; [| discriminate].
  apply CpSat.solve_sound in E. unfold CpSat.feasible in E. cbn in E.
  apply andb_prop in E as [Hdom Hcs]. rewrite !forallb_app in Hcs.
  apply andb_prop in Hcs as [_ Hcs]. apply andb_prop in Hcs as [Htys _].
  rewrite forallb_forall in Htys.
  intros H. inversion H; subst r. clear H.
  apply Forall2_map_diag. intros a Ha. cbn. split; [reflexivity |].
  pose proof (aisle_var_declared _ a Ha) as Hv.
  set (v := aisle_width_vars (Layout.aisles layout) !!! Aisle.id a) in *.
  exists (s v). split; [reflexivity |].
  assert (Hty : forall k,
             In k (type_constraints (aisle_width_vars (Layout.aisles layout))
                     (Py.int (default (Equipment.min_aisle_width equipment)
                                (min_aisle_width c) * 12)) a) ->
             CpSat.holds s k = true).
  { intros k Hk. apply Htys. apply in_flat_map. exists a. now split. }
  split; [| split].
  - apply (in_domains_uniform s _ _ _ 0%nat v Hdom). lia.
  - intros Hmain. unfold type_constraints in Hty. rewrite Hmain in Hty. cbn in Hty.
    specialize (Hty _ (or_introl eq_refl)). cbn in Hty. fold v in Hty.
    now apply Z.leb_le in Hty.
  - intros Hst. unfold type_constraints in Hty. rewrite Hst in Hty. cbn in Hty.
    specialize (Hty _ (or_introl eq_refl)). cbn in Hty. fold v in Hty.
    now apply Z.leb_le in Hty.
Qed.

Lemma cp_type_floors_witness :
  Forall2 (fun a e =>
             id e = Aisle.id a
             /\ exists inches : Z,
                  width e = inject_Z inches / 12
                  /\ (144 <= inches)%Z
                  /\ (aisle_type a = "main" -> (144 + 12 <= inches)%Z)
                  /\ (aisle_type a = "staging" -> (144 + 24 <= inches)%Z))
          (Layout.aisles scenario_A_layout)
          [{| id := "aisle-1"; width := inject_Z 156 / 12 |}].
Proof.
  apply (cp_type_floors solver_156 scenario_A_layout scenario_A_equipment
           (default_constraints scenario_A_equipment) (Scenario.constant_rng 0)).
  vm_compute. reflexivity.
Defined.

(** The racks reported adjacent are chosen by the draws alone. *)
Lemma filter_shift {A} (P : nat -> bool) (l : list A) k :
  map snd (List.filter (fun ir : nat * A => P (S ir.1)) (combine (seq k (length l)) l))
  = map snd (List.filter (fun ir : nat * A => P ir.1) (combine (seq (S k) (length l)) l)).
Proof.
  revert k. induction l as [| a l IH]; intros k; [reflexivity |].
  cbn. destruct (P (S k)); cbn; now rewrite IH.
Qed.

Lemma adjacent_loop_spec racks g :
  (adjacent_loop racks g).1
  = map snd (List.filter (fun ir : nat * Rack.t => Py.lt (g ir.1) 0.3)
               (combine (seq 0 (length racks)) racks))
  /\ forall n, (adjacent_loop racks g).2 n = g (length racks + n)%nat.
Proof.
  revert g. induction racks as [| rack rest IH]; intros g.
  - split; reflexivity.
  - cbn [adjacent_loop]. unfold _check_intersection, Py.random.
    destruct (IH (fun n => g (S n))) as [IH1 IH2].
    destruct (adjacent_loop rest (fun n => g (S n))) as [adj g2]. cbn in IH1, IH2.
    split.
    + cbn [fst length seq combine List.filter]. cbn [fst].
      pose proof (filter_shift (fun i => Py.lt (g i) 0.3) rest 0) as Hs.
      cbn beta in Hs. rewrite <- IH1 in Hs.
      destruct (Py.lt (g 0%nat) 0.3); cbn [map snd]; now rewrite <- Hs.
    + intros n. cbn. apply IH2.
Qed.

(** X6: [_get_adjacent_racks] looks at neither the aisle nor the racks:
    it makes one draw per rack of the layout, in order, and reports
    exactly the racks whose draw is below 0.3; afterwards the generator
    has moved on by the number of racks. *)
Theorem adjacent_racks_by_draws (layout : Layout.t) (aisle : Aisle.t) (g : Rng) :
  (_get_adjacent_racks layout aisle g).1
  = map snd (List.filter (fun ir : nat * Rack.t => Py.lt (g ir.1) 0.3)
               (combine (seq 0 (length (Layout.racks layout))) (Layout.racks layout)))
  /\ forall n,
       (_get_adjacent_racks layout aisle g).2 n
       = g (length (Layout.racks layout) + n)%nat.
Proof.
  apply adjacent_loop_spec.
Qed.

Lemma heuristic_loop_draws layout min_w max_w increment density aisles g :
  ~ increment == 0 ->
  forall n,
    (heuristic_loop layout min_w max_w increment density aisles g).2 n
    = g (length aisles * length (Layout.racks layout) + n)%nat.
Proof.
  intros Hinc. revert g. induction aisles as [| aisle rest IH]; intros g n.
  - reflexivity.
  - cbn [heuristic_loop]. unfold _get_adjacent_racks.
    destruct (adjacent_loop_spec (Layout.racks layout) g) as [_ Hg].
    destruct (adjacent_loop (Layout.racks layout) g) as [adj g1]. cbn in Hg.
    destruct (heuristic_width_total min_w max_w increment density aisle adj Hinc)
      as [w ->].
    specialize (IH g1 n).
    destruct (heuristic_loop layout min_w max_w increment density rest g1)
      as [[r' | e] g2]; cbn in IH |- *; rewrite IH, Hg; f_equal; lia.
Qed.

Lemma adjacency_constraints_draws layout vars min_in aisles g :
  forall n,
    (adjacency_constraints layout vars min_in aisles g).2 n
    = g (length aisles * length (Layout.racks layout) + n)%nat.
Proof.
  revert g. induction aisles as [| aisle rest IH]; intros g n.
  - reflexivity.
  - cbn [adjacency_constraints]. unfold _get_adjacent_racks.
    destruct (adjacent_loop_spec (Layout.racks layout) g) as [_ Hg].
    destruct (adjacent_loop (Layout.racks layout) g) as [adj g1]. cbn in Hg.
    specialize (IH g1 n).
    destruct (adjacency_constraints layout vars min_in rest g1) as [cs' g2].
    cbn in IH |- *. rewrite IH, Hg. f_equal. lia.
Qed.

(** X7: [optimize] advances the random generator by one draw per pair of
    an aisle and a rack when the exact path succeeds, and by twice as many
    when it falls back on the heuristic (increment not zero): building the
    exact model has already consumed the first batch. *)
Theorem aisle_optimize_draws
  (slv : CpSat.solver) (layout : Layout.t) (equipment : Equipment.t)
  (c : constraints) (g : Rng) :
  let pairs := (length (Layout.aisles layout) * length (Layout.racks layout))%nat in
  ~ default 0.5 (aisle_width_increment c) == 0 ->
  forall n,
    (optimize slv layout equipment (Some c) g).2 n
    = match (_solve_with_cp slv layout equipment c g).1 with
      | Ok _ => g (pairs + n)%nat
      | Raise _ => g (2 * pairs + n)%nat
      end.
Proof.
  intros pairs Hinc n. unfold optimize, _solve_with_cp, build_model.
  pose proof (adjacency_constraints_draws layout
                (aisle_width_vars (Layout.aisles layout))
                (Py.int (default (Equipment.min_aisle_width equipment)
                           (min_aisle_width c) * 12))
                (Layout.aisles layout) g) as Hg.
  destruct (adjacency_constraints _ _ _ _ _) as [adjs g']. cbn in Hg.
  destruct (CpSat.solve slv _) as [s |]; cbn.
  - apply Hg.
  - unfold _solve_with_heuristic. rewrite heuristic_loop_draws by exact Hinc.
    rewrite Hg. unfold pairs. f_equal. lia.
Qed.

Lemma aisle_optimize_draws_witness :
  (optimize CpSat.failing_solver random_layout random_equipment
     (Some (default_constraints random_equipment))
     (fun k => inject_Z (Z.of_nat k))).2 3%nat
  = match (_solve_with_cp CpSat.failing_solver random_layout random_equipment
             (default_constraints random_equipment)
             (fun k => inject_Z (Z.of_nat k))).1 with
    | Ok _ => inject_Z (Z.of_nat (1 * 1 + 3))
    | Raise _ => inject_Z (Z.of_nat (2 * (1 * 1) + 3))
    end.
Proof.
  apply (aisle_optimize_draws CpSat.failing_solver random_layout random_equipment
           (default_constraints random_equipment) (fun k => inject_Z (Z.of_nat k))).
  discriminate.
Defined.

End AisleEdges.

(** ** Beam elevations: reach, spacing and the number of beams *)

Section ElevationBounds.
Import ElevationProfileOptimizer.

Lemma py_int_le q : 0 <= q -> inject_Z (Py.int q) <= q.
Proof.
  unfold Py.int, Qle. destruct q as [n d]; cbn. intros H.
  rewrite Z.quot_div_nonneg by lia. rewrite Z.mul_1_r.
  rewrite Z.mul_comm. apply Z.mul_div_le. lia.
Qed.

Lemma fold_max_ge_acc l a : a <= fold_left Py.max l a.
Proof.
  revert a. induction l as [| b l IH]; intros a; cbn; [lra |].
  eapply Qle_trans; [apply py_max_lower | apply IH].
Qed.

Lemma max_list_ge h hs x : In x (h :: hs) -> x <= Py.max_list h hs.
Proof.
  unfold Py.max_list. revert h. induction hs as [| a hs IH]; intros h Hin.
  - destruct Hin as [-> | []]. cbn. lra.
  - cbn [fold_left]. destruct Hin as [-> | [-> | Hin]].
    + eapply Qle_trans; [apply py_max_lower | apply fold_max_ge_acc].
    + eapply Qle_trans; [apply py_max_upper | apply fold_max_ge_acc].
    + apply IH. now right.
Qed.

(** X8: with a positive minimum spacing, a non-negative reach and a
    non-negative level count, the heuristic returns the products
    [0 * L, 1 * L, ..., n * L] of one level height [L] that is at least
    the minimum spacing divided by 12 and at least every product height
    plus the clearance divided by 12; the number [n] of levels above the
    floor is between 0 and [max_levels] and at most the quotient
    [reach / L].  Every bound compares values the code itself computes,
    so none depends on how a product or a quotient is rounded. *)
Theorem elevation_heuristic_spacing (heights : list Q) (reach : Q) (c : constraints) :
  let clearance := default 6 (min_clearance c) in
  let spacing := default 12 (min_beam_spacing c) in
  let levels := default 4%Z (max_levels c) in
  (0 <= levels)%Z -> 0 <= reach -> 0 < spacing ->
  exists (step : Q) (n : Z),
    _solve_with_heuristic heights reach c
    = Ok (map (fun i => inject_Z i * step) (Py.range (n + 1)))
    /\ spacing / 12 <= step
    /\ Forall (fun h => h + clearance / 12 <= step) heights
    /\ (0 <= n <= levels)%Z
    /\ inject_Z n <= reach / step.
Proof.
  intros clearance spacing levels Hlevels Hreach Hspacing.
  unfold _solve_with_heuristic. fold clearance spacing levels.
  set (mph := match heights with [] => 0 | h :: hs => Py.max_list h hs end).
  set (lh := Py.max (mph + clearance / 12) (spacing / 12)).
  assert (Hlh : 0 < lh).
  { eapply Qlt_le_trans; [| apply py_max_upper].
    apply Qlt_shift_div_l; [reflexivity | now rewrite Qmult_0_l]. }
  rewrite py_div_ok by (intros H0; rewrite H0 in Hlh; discriminate Hlh).
  cbn [mbind result_bind Py.bind].
  set (num := Z.min levels (Py.int (reach / lh))).
  assert (Hq : 0 <= reach / lh).
  { apply Qle_shift_div_l; [exact Hlh | now rewrite Qmult_0_l]. }
  exists lh, num. split; [reflexivity |]. split; [| split; [| split]].
  - apply py_max_upper.
  - apply List.Forall_forall. intros h Hh.
    apply Qle_trans with (mph + clearance / 12); [| apply py_max_lower].
    apply Qplus_le_l. unfold mph. destruct heights as [| h0 hs]; [destruct Hh |].
    now apply max_list_ge.
  - split; [| apply Z.le_min_l].
    apply Z.min_glb; [exact Hlevels |]. now apply py_int_nonneg.
  - apply Qle_trans with (inject_Z (Py.int (reach / lh))).
    + rewrite <- Zle_Qle. apply Z.le_min_r.
    + now apply py_int_le.
Qed.

Lemma elevation_heuristic_spacing_witness :
  exists (step : Q) (n : Z),
    _solve_with_heuristic scenario_B_heights 288 scenario_B_constraints
    = Ok (map (fun i => inject_Z i * step) (Py.range (n + 1)))
    /\ 12 / 12 <= step
    /\ Forall (fun h => h + 6 / 12 <= step) scenario_B_heights
    /\ (0 <= n <= 4)%Z
    /\ inject_Z n <= 288 / step.
Proof.
  apply (elevation_heuristic_spacing scenario_B_heights 288 scenario_B_constraints).
  - discriminate.
  - discriminate.
  - reflexivity.
Defined.

(** X9: a list the exact path returns has exactly [max_levels + 1]
    elements (the floor and one beam per level), no beam is above the
    reach height, and every beam after the floor is at least the minimum
    spacing, truncated to whole millimetres, above the floor. *)
Theorem elevation_cp_range
  (slv : CpSat.solver) (heights : list Q) (reach : Q) (c : constraints)
  (es : list Q) :
  let spacing := default 12 (min_beam_spacing c) in
  let levels := default 4%Z (max_levels c) in
  (0 <= levels)%Z -> 0 <= reach ->
  _solve_with_cp slv heights reach c = Ok es ->
  Z.of_nat (length es) = (levels + 1)%Z
  /\ Forall (fun e => e <= reach) es
  /\ exists tl,
       es = 0 :: tl
       /\ Forall (fun e => inject_Z (Py.int (spacing * 25.4)) / 304.8 <= e) tl.
Proof.
  intros spacing levels Hlevels Hreach Hes.
  apply cp_elevations_spec in Hes as (E & E0 & -> & Hdom & _ & _);
    [| exact Hlevels].
  fold spacing levels in Hdom.
  split; [| split].
  - cbn [length]. rewrite length_map, length_seq. lia.
  - constructor; [exact Hreach |].
    apply Forall_map. apply List.Forall_forall. intros i Hi. cbn.
    apply in_seq in Hi. destruct (Hdom i ltac:(lia)) as [_ Hhi].
    apply Qle_shift_div_r; [reflexivity |].
    apply Qle_trans with (inject_Z (Py.int (reach * 304.8))).
    + now rewrite <- Zle_Qle.
    + apply py_int_le. apply Qmult_le_0_compat; [exact Hreach | discriminate].
  - eexists. split; [reflexivity |].
    apply Forall_map. apply List.Forall_forall. intros i Hi. cbn.
    apply in_seq in Hi. destruct (Hdom i ltac:(lia)) as [Hlo _].
    apply Qmult_le_compat_r; [| discriminate]. now rewrite <- Zle_Qle.
Qed.

Lemma elevation_cp_range_witness :
  Z.of_nat (length [0; inject_Z 1371 / 304.8; inject_Z 2742 / 304.8;
                    inject_Z 4113 / 304.8; inject_Z 5484 / 304.8]) = (4 + 1)%Z
  /\ Forall (fun e => e <= 288)
            [0; inject_Z 1371 / 304.8; inject_Z 2742 / 304.8;
             inject_Z 4113 / 304.8; inject_Z 5484 / 304.8]
  /\ exists tl,
       [0; inject_Z 1371 / 304.8; inject_Z 2742 / 304.8;
        inject_Z 4113 / 304.8; inject_Z 5484 / 304.8] = 0 :: tl
       /\ Forall (fun e => inject_Z (Py.int (12 * 25.4)) / 304.8 <= e) tl.
Proof.
  apply (elevation_cp_range tight_solver scenario_B_heights 288 scenario_B_constraints).
  - discriminate.
  - discriminate.
  - vm_compute. reflexivity.
Defined.

End ElevationBounds.

(** ** Slotting: what the two paths assign, and what they leave out *)

Section SlottingBounds.
Import SlottingOptimizer.

(** *** The exact path gives every product one location *)

Lemma row_length (x : Mip.assignment) (p : nat) (product : Product.t)
  (locations : list Location.t) k :
  length (flat_map (fun '(l, location) =>
                      if x p l then [(product, location)] else [])
                   (combine (seq k (length locations)) locations))
  = length (List.filter (fun v : nat * nat => x v.1 v.2)
              (map (fun l => (p, l)) (seq k (length locations)))).
Proof.
  revert k. induction locations as [| a locations IH]; intros k; [reflexivity |].
  cbn. destruct (x p k); cbn; now rewrite IH.
Qed.

Lemma row_products (x : Mip.assignment) (p : nat) (product : Product.t)
  (l : list (nat * Location.t)) :
  Forall (fun pl : Product.t * Location.t => pl.1 = product)
         (flat_map (fun '(l, location) =>
                      if x p l then [(product, location)] else []) l).
Proof.
  induction l as [| [i a] l IH]; cbn; [constructor |].
  destruct (x p i); cbn; [constructor; [reflexivity | exact IH] | exact IH].
Qed.

Lemma flat_map_singletons {A B C} (f : A -> list B) (g : B -> C) (h : A -> C)
  (l : list A) :
  (forall a, In a l -> map g (f a) = [h a]) ->
  map g (flat_map f l) = map h l.
Proof.
  induction l as [| a l IH]; intros H; cbn; [reflexivity |].
  rewrite map_app, (H a) by now left.
  rewrite IH by (intros a' Ha'; apply H; now right). reflexivity.
Qed.

Lemma map_snd_combine_seq {A} (l : list A) k :
  map snd (combine (seq k (length l)) l) = l.
Proof.
  revert k. induction l as [| a l IH]; intros k; cbn; [reflexivity |].
  now rewrite IH.
Qed.

Lemma row_selects_one c products locations x p product :
  Mip.feasible (build_model c products locations) x = true ->
  nth_error products p = Some product ->
  exists location,
    flat_map (fun '(l, location) => if x p l then [(product, location)] else [])
             (enumerate locations)
    = [(product, location)].
Proof.
  intros Hf Hp.
  assert (Hrow : Mip.holds x (Mip.SumEq (map (fun l => (p, l))
                                           (seq 0 (length locations))) 1) = true).
  { apply (feasible_holds c products locations x Hf). cbn.
    apply in_or_app. left. apply in_map_iff. exists p. split; [reflexivity |].
    apply in_seq. split; [lia |]. apply nth_error_Some. congruence. }
  cbn in Hrow. apply Z.eqb_eq in Hrow. unfold Mip.count in Hrow.
  pose proof (row_length x p product locations 0) as Hlen.
  pose proof (row_products x p product (enumerate locations)) as Hall.
  unfold enumerate in *.
  destruct (flat_map _ (combine (seq 0 (length locations)) locations))
    as [| [q a] [| b rest]]; cbn in Hlen; [lia | | lia].
  apply Forall_inv in Hall. cbn in Hall. subst q. now exists a.
Qed.

(** X10: when the layout has at least one location, a list the exact path
    returns holds exactly one assignment per product, in the order of the
    product list, each with quantity 1. *)
Theorem mip_assigns_every_product
  (slv : Mip.solver) (layout : Layout.t) (products : list Product.t)
  (c : constraints) (r : list assignment) :
  _get_all_locations layout <> [] ->
  _solve_with_mip slv layout products c = Ok r ->
  map product_id r = map Product.id products
  /\ Forall (fun a => quantity a = 1%Z) r.
Proof.
  intros Hne. unfold _solve_with_mip.
  destruct (_get_all_locations layout) as [| l0 ls] eqn:El; [congruence |].
  destruct products as [| p0 ps].
  - cbn. intros H. inversion H. split; [reflexivity | constructor].
  - cbn [is_empty orb]. destruct (negb (Mip.created slv)); [discriminate |].
    destruct (Mip.solve slv _) as [x |] eqn:E; [| discriminate].
    apply Mip.solve_sound in E. intros H. inversion H; subst r. clear H.
    split.
    + rewrite map_map. unfold selected.
      rewrite (flat_map_singletons _ _ (fun ip : nat * Product.t => Product.id ip.2)).
      * unfold enumerate. rewrite <- (map_map snd Product.id).
        now rewrite map_snd_combine_seq.
      * intros [p product] Hin. apply In_enumerate in Hin.
        destruct (row_selects_one c (p0 :: ps) (l0 :: ls) x p product E Hin)
          as [location ->].
        reflexivity.
    + apply Forall_map. apply List.Forall_forall. intros pl _. reflexivity.
Qed.

Lemma mip_assigns_every_product_witness :
  map product_id
      [{| product_id := "sku-A"; location_id := "loc-rack-1-0-0"; quantity := 1 |};
       {| product_id := "sku-B"; location_id := "loc-rack-1-0-1"; quantity := 1 |}]
  = map Product.id two_products
  /\ Forall (fun a => quantity a = 1%Z)
       [{| product_id := "sku-A"; location_id := "loc-rack-1-0-0"; quantity := 1 |};
        {| product_id := "sku-B"; location_id := "loc-rack-1-0-1"; quantity := 1 |}].
Proof.
  apply (mip_assigns_every_product (Mip.candidate_solver diagonal) scenario_C_layout
           two_products default_constraints).
  - discriminate.
  - vm_compute. reflexivity.
Defined.

(** *** The heuristic: at most one location per product *)

Lemma assign_loop_sublist rd ps locs assigned :
  sublist (map fst (assign_loop rd ps locs assigned)) ps.
Proof.
  revert assigned. induction ps as [| p ps IH]; intros assigned; cbn.
  - constructor.
  - destruct (first_free rd p locs assigned) as [l |]; cbn.
    + apply sublist_skip. apply IH.
    + apply sublist_cons. apply IH.
Qed.

Lemma insert_desc_perm {A K} (key : A -> K) (le : K -> K -> bool) x l :
  Permutation (Py.insert_desc key le x l) (x :: l).
Proof.
  induction l as [| y l IH]; cbn; [reflexivity |].
  destruct (le (key y) (key x)); [reflexivity |].
  rewrite IH. apply perm_swap.
Qed.

Lemma sorted_reverse_perm {A K} (key : A -> K) (le : K -> K -> bool) l :
  Permutation (Py.sorted_reverse key le l) l.
Proof.
  induction l as [| x l IH]; cbn; [reflexivity |].
  rewrite insert_desc_perm. now constructor.
Qed.

(** X11: the heuristic pairs the products it assigns in the order of the
    sorted product list, each position of that list at most once, every
    location at most once; so it returns no more assignments than there
    are products, and no more than there are locations. *)
Theorem slotting_heuristic_bounds
  (layout : Layout.t) (products : list Product.t) (c : constraints) :
  exists pairs,
    _solve_with_heuristic layout products c = Ok (map to_assignment pairs)
    /\ sublist (map fst pairs) (sorted_products products)
    /\ (length pairs <= length products)%nat
    /\ (length pairs <= length (_get_all_locations layout))%nat.
Proof.
  exists (heuristic_pairs layout products c). split; [reflexivity |].
  assert (Hsub : sublist (map fst (heuristic_pairs layout products c))
                         (sorted_products products)).
  { unfold heuristic_pairs. cbv zeta.
    destruct (is_empty _ || is_empty _); [apply sublist_nil_l |].
    apply assign_loop_sublist. }
  split; [exact Hsub |]. split.
  - apply sublist_length in Hsub. rewrite length_map in Hsub.
    unfold sorted_products in Hsub.
    rewrite (Permutation_length (sorted_reverse_perm _ _ products)) in Hsub.
    exact Hsub.
  - destruct (heuristic_pairs_spec layout products c) as [Hnd Hall].
    cbv zeta in Hnd, Hall. rewrite map_map in Hnd. cbn [to_assignment location_id] in Hnd.
    apply NoDup_incl_length
      with (l' := map Location.id (_get_all_locations layout)) in Hnd.
    + now rewrite !length_map in Hnd.
    + intros i Hi. apply in_map_iff in Hi as (pl & <- & Hpl).
      rewrite List.Forall_forall in Hall. apply Hall in Hpl as (_ & Hl & _).
      now apply in_map.
Qed.

(** *** The heuristic leaves a product out only when nothing is left *)

Lemma first_free_none rd p locs assigned l :
  first_free rd p locs assigned = None -> In l locs ->
  Location.id l ∈ assigned \/ (rd = true /\ _product_fits_location p l = false).
Proof.
  induction locs as [| a locs IH]; cbn; [intros _ [] |].
  destruct (bool_decide (Location.id a ∈ assigned)) eqn:Ein.
  - intros H [<- | Hl]; [| now apply IH].
    left. now apply bool_decide_eq_true in Ein.
  - destruct rd; cbn.
    + destruct (_product_fits_location p a) eqn:Efit; cbn; [discriminate |].
      intros H [<- | Hl]; [| now apply IH]. right. now split.
    + discriminate.
Qed.

Lemma assign_loop_maximal rd ps locs assigned p l :
  In p ps -> ~ In p (map fst (assign_loop rd ps locs assigned)) -> In l locs ->
  Location.id l ∈ assigned
  \/ In (Location.id l) (map (fun pl => Location.id pl.2) (assign_loop rd ps locs assigned))
  \/ (rd = true /\ _product_fits_location p l = false).
Proof.
  revert assigned. induction ps as [| q ps IH]; intros assigned Hp Hnot Hl;
    [destruct Hp |].
  cbn in Hnot |- *.
  destruct (first_free rd q locs assigned) as [loc |] eqn:E.
  - cbn in Hnot |- *.
    destruct Hp as [-> | Hp]; [exfalso; apply Hnot; now left |].
    destruct (IH (assigned ∪ {[Location.id loc]}) Hp
                 (fun H => Hnot (or_intror H)) Hl) as [Hin | [Hin | Hfit]].
    + apply elem_of_union in Hin as [Hin | Hin]; [now left |].
      apply elem_of_singleton in Hin. right. left. left. now symmetry.
    + right. left. now right.
    + now right; right.
  - destruct Hp as [-> | Hp].
    + destruct (first_free_none rd p locs assigned l E Hl) as [H | H];
        [now left | now right; right].
    + now apply IH.
Qed.

(** X12: when the heuristic leaves a product without a location, every
    location of the layout has been given to some product, or (with
    dimensions respected) is one the product does not fit. *)
Theorem slotting_heuristic_maximal
  (layout : Layout.t) (products : list Product.t) (c : constraints)
  (p : Product.t) (l : Location.t) :
  let pairs := heuristic_pairs layout products c in
  In p products ->
  ~ In p (map fst pairs) ->
  In l (_get_all_locations layout) ->
  In (Location.id l) (map (fun pl => Location.id pl.2) pairs)
  \/ (default true (respect_product_dimensions c) = true
      /\ _product_fits_location p l = false).
Proof.
  cbv zeta. unfold heuristic_pairs.
  intros Hp Hnot Hl.
  destruct (is_empty (_get_all_locations layout) || is_empty products) eqn:Ee.
  - exfalso. apply orb_true_iff in Ee as [Ee | Ee].
    + destruct (_get_all_locations layout); [destruct Hl | discriminate].
    + destruct products; [destruct Hp | discriminate].
  - apply (sorted_reverse_In Product.velocity_class String.leb) in Hp.
    apply (sorted_reverse_In _calculate_accessibility_score Qle_bool) in Hl.
    destruct (assign_loop_maximal _ _ _ ∅ p l Hp Hnot Hl) as [Hin | H];
      [| exact H].
    now apply elem_of_empty in Hin.
Qed.

Lemma slotting_heuristic_maximal_witness :
  In (Location.id (make_location (Scenario.rack "rack-1" "selective" 1
                                    (Scenario.levels 2)) 0 1))
     (map (fun pl => Location.id pl.2)
          (heuristic_pairs scenario_C_layout scenario_C_products default_constraints))
  \/ (default true (respect_product_dimensions default_constraints) = true
      /\ _product_fits_location (Scenario.product "sku-A" "A" 5)
           (make_location (Scenario.rack "rack-1" "selective" 1
                             (Scenario.levels 2)) 0 1) = false).
Proof.
  apply (slotting_heuristic_maximal scenario_C_layout scenario_C_products
           default_constraints (Scenario.product "sku-A" "A" 5)
           (make_location (Scenario.rack "rack-1" "selective" 1
                             (Scenario.levels 2)) 0 1)).
  - left. reflexivity.
  - intros H. vm_compute in H. destruct H as [H | [H | []]]; discriminate H.
  - right. left. reflexivity.
Defined.

(** *** The two sorts *)

Lemma insert_desc_sorted {A K} (key : A -> K) (le : K -> K -> bool) x l :
  (forall a b, le a b = true \/ le b a = true) ->
  Sorted (fun a b => le (key b) (key a) = true) l ->
  Sorted (fun a b => le (key b) (key a) = true) (Py.insert_desc key le x l).
Proof.
  intros Htot Hs. induction Hs as [| y l Hs IH Hhd]; cbn.
  - repeat constructor.
  - destruct (le (key y) (key x)) eqn:E.
    + constructor; [now constructor | now constructor].
    + constructor; [exact IH |].
      destruct (Htot (key y) (key x)) as [H | H]; [congruence |].
      destruct Hhd as [| z l' Hz]; cbn.
      * now constructor.
      * destruct (le (key z) (key x)); now constructor.
Qed.

Lemma sorted_reverse_sorted {A K} (key : A -> K) (le : K -> K -> bool) l :
  (forall a b, le a b = true \/ le b a = true) ->
  Sorted (fun a b => le (key b) (key a) = true) (Py.sorted_reverse key le l).
Proof.
  intros Htot. induction l as [| x l IH]; cbn; [constructor |].
  now apply insert_desc_sorted.
Qed.

Lemma Sorted_weaken {A} (R R' : A -> A -> Prop) l :
  (forall a b, R a b -> R' a b) -> Sorted R l -> Sorted R' l.
Proof.
  intros H Hs. induction Hs as [| a l Hs IH Hhd]; constructor; [exact IH |].
  destruct Hhd; constructor. now apply H.
Qed.

(** X13: the two sorts of the heuristic rearrange their input without
    adding or dropping an element.  After the sort every location has an
    accessibility score at least as large as all the locations behind it,
    and every product a velocity class that is, as a string, not below the
    class of the product behind it, so that class C comes before B and B
    before A. *)
Theorem heuristic_sorts_descending
  (products : list Product.t) (locations : list Location.t) :
  Permutation (sorted_locations locations) locations
  /\ StronglySorted (fun a b => _calculate_accessibility_score b
                                <= _calculate_accessibility_score a)
                    (sorted_locations locations)
  /\ Permutation (sorted_products products) products
  /\ Sorted (fun a b => String.leb (Product.velocity_class b)
                                   (Product.velocity_class a) = true)
            (sorted_products products).
Proof.
  split; [apply sorted_reverse_perm |]. split; [| split].
  - apply Sorted_StronglySorted.
    + intros a b d Hab Hbd. eapply Qle_trans; eauto.
    + unfold sorted_locations.
      eapply Sorted_weaken;
        [| apply (sorted_reverse_sorted _calculate_accessibility_score Qle_bool)].
      * intros a b H. now apply Qle_bool_iff.
      * intros a b. rewrite !Qle_bool_iff.
        destruct (Qlt_le_dec b a); [right; lra | now left].
  - apply sorted_reverse_perm.
  - apply sorted_reverse_sorted. apply String.leb_total.
Qed.

(** *** Products that fit no location *)

Lemma tall_product_fits_nowhere layout p l :
  6 < Product.height p -> In l (_get_all_locations layout) ->
  _product_fits_location p l = false.
Proof.
  intros Hh Hl. unfold _get_all_locations in Hl.
  apply in_flat_map in Hl as (rack & _ & Hl). unfold rack_locations in Hl.
  apply in_flat_map in Hl as (bay & _ & Hl).
  apply in_map_iff in Hl as (level & <- & _).
  unfold _product_fits_location. cbn.
  assert (E : Qle_bool (Product.height p) 6 = false).
  { destruct (Qle_bool (Product.height p) 6) eqn:E; [| reflexivity].
    apply Qle_bool_iff in E. lra. }
  rewrite E, !andb_false_r. reflexivity.
Qed.

Lemma first_free_no_fit p locs assigned :
  (forall l, In l locs -> _product_fits_location p l = false) ->
  first_free true p locs assigned = None.
Proof.
  induction locs as [| a locs IH]; intros H; cbn; [reflexivity |].
  rewrite (H a) by now left. cbn.
  destruct (bool_decide _); apply IH; intros l Hl; apply H; now right.
Qed.

Lemma assign_loop_no_fit ps locs assigned :
  (forall p l, In p ps -> In l locs -> _product_fits_location p l = false) ->
  assign_loop true ps locs assigned = [].
Proof.
  induction ps as [| p ps IH]; intros H; cbn; [reflexivity |].
  rewrite first_free_no_fit by (intros l Hl; apply H; [now left | exact Hl]).
  apply IH. intros q l Hq Hl. apply H; [now right | exact Hl].
Qed.

Lemma row_has_one (x : Mip.assignment) p n :
  Mip.count x (map (fun l => (p, l)) (seq 0 n)) = 1%Z ->
  exists l, (l < n)%nat /\ x p l = true.
Proof.
  unfold Mip.count. intros H.
  destruct (List.filter _ _) as [| [q l] rest] eqn:E; [cbn in H; lia |].
  assert (Hin : In (q, l) (List.filter (fun v : nat * nat => x v.1 v.2)
                             (map (fun l => (p, l)) (seq 0 n))))
    by (rewrite E; now left).
  apply filter_In in Hin as [Hin Hx]. apply in_map_iff in Hin as (l' & Heq & Hl').
  inversion Heq; subst. apply in_seq in Hl'. exists l. split; [lia | exact Hx].
Qed.

(** X14: with dimensions respected, when every product is higher than 6
    (the height every generated location is given), [optimize] returns the
    empty list: the exact model has no solution and the heuristic finds no
    location that fits. *)
Theorem slotting_nothing_fits
  (slv : Mip.solver) (layout : Layout.t) (products : list Product.t)
  (c : option constraints) :
  default true (respect_product_dimensions (default default_constraints c)) = true ->
  Forall (fun p => 6 < Product.height p) products ->
  optimize slv layout products c = Ok [].
Proof.
  intros Hrd Htall. unfold optimize.
  set (c' := default default_constraints c) in *.
  assert (Hnofit : forall p l, In p products -> In l (_get_all_locations layout) ->
                     _product_fits_location p l = false).
  { intros p l Hp Hl. rewrite List.Forall_forall in Htall.
    eapply tall_product_fits_nowhere; eauto. }
  assert (Hheur : _solve_with_heuristic layout products c' = Ok []).
  { unfold _solve_with_heuristic, heuristic_pairs. cbv zeta. rewrite Hrd.
    destruct (is_empty _ || is_empty _); [reflexivity |].
    rewrite assign_loop_no_fit; [reflexivity |].
    intros p l Hp Hl. apply sorted_reverse_In in Hp. apply sorted_reverse_In in Hl.
    now apply Hnofit. }
  unfold _solve_with_mip.
  destruct (_get_all_locations layout) as [| l0 ls] eqn:El; [reflexivity |].
  destruct products as [| p0 ps]; [reflexivity |].
  cbn [is_empty orb]. destruct (negb (Mip.created slv)); [exact Hheur |].
  destruct (Mip.solve slv _) as [x |] eqn:E; [| exact Hheur].
  exfalso. apply Mip.solve_sound in E.
  assert (Hrow : Mip.holds x (Mip.SumEq (map (fun l => (0%nat, l))
                                           (seq 0 (length (l0 :: ls)))) 1) = true).
  { apply (feasible_holds c' (p0 :: ps) (l0 :: ls) x E). cbn. left. reflexivity. }
  cbn [Mip.holds] in Hrow. apply Z.eqb_eq in Hrow.
  apply row_has_one in Hrow as (l & Hl & Hx).
  destruct (nth_error (l0 :: ls) l) as [loc |] eqn:Eloc;
    [| apply nth_error_None in Eloc; lia].
  pose proof (feasible_fits c' (p0 :: ps) (l0 :: ls) x E 0%nat l p0 loc Hrd
                eq_refl Eloc Hx) as Hfit.
  rewrite Hnofit in Hfit; [discriminate | now left |].
  eapply nth_error_In, Eloc.
Qed.

Lemma slotting_nothing_fits_witness :
  optimize (Mip.candidate_solver diagonal) two_racks_layout tall_products None = Ok [].
Proof.
  apply (slotting_nothing_fits (Mip.candidate_solver diagonal) two_racks_layout
           tall_products None).
  - reflexivity.
  - repeat constructor.
Defined.

End SlottingBounds.

(** ** The engine's entry points *)

Section EngineEntryPoints.
Import OptimizationEngine.

Lemma update_found_first rack_id (f : Rack.t -> Rack.t) racks r :
  find (fun r => String.eqb (Rack.id r) rack_id) racks = Some r ->
  exists pre post,
    racks = pre ++ r :: post
    /\ Forall (fun q => Rack.id q <> rack_id) pre
    /\ Rack.id r = rack_id
    /\ update_found rack_id f racks = pre ++ f r :: post.
Proof.
  induction racks as [| a racks IH]; cbn; [discriminate |].
  destruct (String.eqb (Rack.id a) rack_id) eqn:E.
  - intros H. inversion H; subst a. exists [], racks.
    apply String.eqb_eq in E. repeat split; auto.
  - intros H. destruct (IH H) as (pre & post & -> & Hpre & Hid & Hup).
    exists (a :: pre), post. apply String.eqb_neq in E.
    repeat split; auto. cbn. now rewrite Hup.
Qed.

(** X15: [optimize_rack_elevations] either leaves the layout as it was,
    or changes exactly one rack, the first one in [layout.racks] whose id
    is the requested one, and of that rack only the key [beam_elevations]
    of the configuration, which receives the list the elevation optimiser
    returned; the aisles and every other rack stay as they were. *)
Theorem rack_elevations_frame
  (slv : CpSat.solver) (layout : Layout.t) (rack_id : string)
  (products : list Product.t) (equipment : Equipment.t)
  (params : option ElevationProfileOptimizer.constraints) :
  let layout' :=
    (optimize_rack_elevations slv layout rack_id products equipment params).2 in
  layout' = layout
  \/ exists pre r post es,
       Layout.racks layout = pre ++ r :: post
       /\ Forall (fun q => Rack.id q <> rack_id) pre
       /\ Rack.id r = rack_id
       /\ ElevationProfileOptimizer.optimize slv r products equipment
            (Some (default ElevationProfileOptimizer.default_constraints params))
          = Ok es
       /\ layout'
          = Layout.with_racks
              (pre ++ Rack.with_configuration
                        (Configuration.set_beam_elevations es (Rack.configuration r)) r
                   :: post) layout.
Proof.
  cbv zeta. unfold optimize_rack_elevations, find_rack.
  destruct (find _ (Layout.racks layout)) as [r |] eqn:Ef; [| now left].
  destruct (ElevationProfileOptimizer.optimize slv r products equipment _)
    as [es | e] eqn:Eo; [| now left].
  right. cbn [snd].
  destruct (update_found_first rack_id
              (fun r => Rack.with_configuration
                          (Configuration.set_beam_elevations es (Rack.configuration r)) r)
              _ r Ef) as (pre & post & Hr & Hpre & Hid & Hup).
  exists pre, r, post, es. rewrite Hup. repeat split; auto.
Qed.

Lemma count_nonneg n : 0 <= inject_Z (Z.of_nat n).
Proof.
  change 0 with (inject_Z 0). rewrite <- Zle_Qle. lia.
Qed.

Lemma slotting_optimize_total slv layout products c :
  exists r, SlottingOptimizer.optimize slv layout products c = Ok r.
Proof.
  unfold SlottingOptimizer.optimize.
  destruct (SlottingOptimizer._solve_with_mip _ _ _ _); eauto.
Qed.

Lemma slotting_optimize_no_products slv layout c :
  SlottingOptimizer.optimize slv layout [] c = Ok [].
Proof.
  unfold SlottingOptimizer.optimize, SlottingOptimizer._solve_with_mip.
  cbn. now rewrite orb_true_r.
Qed.

Lemma slotting_optimize_no_locations slv layout products c :
  SlottingOptimizer._get_all_locations layout = [] ->
  SlottingOptimizer.optimize slv layout products c = Ok [].
Proof.
  intros H. unfold SlottingOptimizer.optimize, SlottingOptimizer._solve_with_mip.
  rewrite H. reflexivity.
Qed.

(** X16: the entry point [optimize_slotting] raises [ZeroDivisionError]
    on an empty product list, because the slotting metrics divide by
    twice the number of products; on any other product list it returns a
    result that carries the layout's id and a slotting efficiency between
    0.7 and 0.95. *)
Theorem optimize_slotting_needs_products
  (slv : Mip.solver) (layout : Layout.t) (products : list Product.t)
  (params : option SlottingOptimizer.constraints) :
  match products with
  | [] => Pipeline.optimize_slotting slv layout products params
          = Raise ZeroDivisionError
  | _ :: _ =>
      exists res,
        Pipeline.optimize_slotting slv layout products params = Ok res
        /\ Pipeline.sl_layout_id res = Layout.id layout
        /\ exists v,
             Pipeline.sl_metrics res !! "slotting_efficiency" = Some v
             /\ 0.7 <= v /\ v <= 0.95
  end.
Proof.
  unfold Pipeline.optimize_slotting. destruct products as [| p ps].
  - rewrite slotting_optimize_no_products. reflexivity.
  - match goal with
    | |- context [SlottingOptimizer.optimize slv layout (p :: ps) (Some ?c)] =>
        destruct (slotting_optimize_total slv layout (p :: ps) (Some c)) as [r Hr];
        rewrite Hr
    end.
    cbn [mbind result_bind Py.bind]. unfold _calculate_slotting_metrics.
    assert (Hpos : 0 < inject_Z (Z.of_nat (length (p :: ps)) * 2)).
    { change 0 with (inject_Z 0). rewrite <- Zlt_Qlt. cbn [length]. lia. }
    rewrite py_div_ok by (intros H; rewrite H in Hpos; discriminate Hpos).
    cbn [mbind result_bind Py.bind].
    eexists. split; [reflexivity |]. split; [reflexivity |].
    cbn [Pipeline.sl_metrics]. eexists. split; [simplify_map_eq; reflexivity |].
    match goal with
    | |- context [Py.min 0.95 (0.7 + ?q)] =>
        assert (Hq : 0 <= q)
          by (apply Qle_shift_div_l; [exact Hpos |]; rewrite Qmult_0_l;
              apply count_nonneg);
        destruct (py_min_cases 0.95 (0.7 + q)) as [[-> H] | [-> H]]; split; lra
    end.
Qed.

(** *** Aisle widths written back *)

Lemma aisle_optimize_ids slv layout equipment c g r :
  (AisleWidthOptimizer.optimize slv layout equipment c g).1 = Ok r ->
  map AisleWidthOptimizer.id r = map Aisle.id (Layout.aisles layout).
Proof.
  unfold AisleWidthOptimizer.optimize.
  set (c' := match c with
             | Some c0 => c0
             | None => AisleWidthOptimizer.default_constraints equipment
             end).
  destruct (AisleWidthOptimizer._solve_with_cp slv layout equipment c' g)
    as [[r0 | e] g'] eqn:E.
  - cbn. intros H. inversion H; subst r0.
    assert (E' : (AisleWidthOptimizer._solve_with_cp slv layout equipment c' g).1 = Ok r)
      by now rewrite E.
    now apply cp_widths_spec in E' as [Hids _].
  - unfold AisleWidthOptimizer._solve_with_heuristic. intros H.
    now apply heuristic_loop_spec in H as [Hids _].
Qed.

Lemma set_width_at pre a rest w :
  Forall (fun b => Aisle.id b <> Aisle.id a) pre ->
  Pipeline.set_width (Aisle.id a) w (pre ++ a :: rest)
  = pre ++ {| Aisle.id := Aisle.id a; Aisle.layout_id := Aisle.layout_id a;
              Aisle.path := Aisle.path a; Aisle.width := w;
              Aisle.properties := Aisle.properties a |} :: rest.
Proof.
  induction pre as [| b pre IH]; intros H; cbn.
  - now rewrite String.eqb_refl.
  - inversion H; subst. apply String.eqb_neq in H2. rewrite H2.
    now rewrite IH.
Qed.

Lemma apply_widths_spec entries : forall pre aisles,
  map AisleWidthOptimizer.id entries = map Aisle.id aisles ->
  List.NoDup (map Aisle.id (pre ++ aisles)) ->
  exists new,
    fold_left (fun aisles e =>
                 Pipeline.set_width (AisleWidthOptimizer.id e)
                                    (AisleWidthOptimizer.width e) aisles)
              entries (pre ++ aisles)
    = pre ++ new
    /\ Forall2 (fun a a' => Aisle.id a' = Aisle.id a
                            /\ Aisle.layout_id a' = Aisle.layout_id a
                            /\ Aisle.path a' = Aisle.path a
                            /\ Aisle.properties a' = Aisle.properties a) aisles new
    /\ Forall2 (fun a' e => Aisle.width a' = AisleWidthOptimizer.width e) new entries.
Proof.
  induction entries as [| e es IH]; intros pre aisles Hids Hnd.
  - destruct aisles; [| discriminate]. exists []. repeat split; constructor.
  - destruct aisles as [| a rest]; [discriminate |]. cbn in Hids.
    injection Hids as Hid Hids. cbn [fold_left]. rewrite Hid.
    assert (Hpre : Forall (fun b => Aisle.id b <> Aisle.id a) pre).
    { apply List.Forall_forall. intros b Hb Heq.
      rewrite map_app in Hnd. cbn in Hnd. apply NoDup_remove_2 in Hnd.
      apply Hnd. apply in_or_app. left. rewrite <- Heq. now apply in_map. }
    rewrite set_width_at by exact Hpre.
    set (a' := {| Aisle.id := Aisle.id a; Aisle.layout_id := Aisle.layout_id a;
                  Aisle.path := Aisle.path a;
                  Aisle.width := AisleWidthOptimizer.width e;
                  Aisle.properties := Aisle.properties a |}).
    destruct (IH (pre ++ [a']) rest Hids) as (new & Hfold & Hsame & Hw).
    { rewrite <- app_assoc. cbn. rewrite map_app in Hnd |- *. exact Hnd. }
    rewrite <- app_assoc in Hfold. cbn in Hfold.
    exists (a' :: new). split; [| split].
    + rewrite Hfold, <- app_assoc. reflexivity.
    + constructor; [now cbn | exact Hsame].
    + constructor; [reflexivity | exact Hw].
Qed.

(** X17: when the aisle ids of the layout are pairwise distinct, a
    successful [optimize_aisle_widths] leaves the racks alone, keeps every
    aisle's id, layout id, path and properties, and gives the aisle at
    each position the width of the entry at that position of
    [optimized_aisles]; when the optimiser raises, the layout is as it
    was. *)
Theorem optimize_aisle_widths_applies
  (slv : CpSat.solver) (layout : Layout.t) (equipment : Equipment.t)
  (params : option AisleWidthOptimizer.constraints) (g : Rng) :
  List.NoDup (map Aisle.id (Layout.aisles layout)) ->
  match Pipeline.optimize_aisle_widths slv layout equipment params g with
  | (Ok res, layout', _) =>
      Pipeline.aw_layout_id res = Layout.id layout
      /\ Layout.racks layout' = Layout.racks layout
      /\ Forall2 (fun a a' => Aisle.id a' = Aisle.id a
                              /\ Aisle.layout_id a' = Aisle.layout_id a
                              /\ Aisle.path a' = Aisle.path a
                              /\ Aisle.properties a' = Aisle.properties a)
                 (Layout.aisles layout) (Layout.aisles layout')
      /\ Forall2 (fun a' e => AisleWidthOptimizer.id e = Aisle.id a'
                              /\ Aisle.width a' = AisleWidthOptimizer.width e)
                 (Layout.aisles layout') (Pipeline.aw_optimized_aisles res)
  | (Raise _, layout', _) => layout' = layout
  end.
Proof.
  intros Hnd. unfold Pipeline.optimize_aisle_widths.
  match goal with
  | |- context [AisleWidthOptimizer.optimize slv layout equipment ?c g] =>
      destruct (AisleWidthOptimizer.optimize slv layout equipment c g)
        as [[r | e] g'] eqn:E
  end; [| reflexivity].
  assert (Hids : map AisleWidthOptimizer.id r = map Aisle.id (Layout.aisles layout)).
  { eapply aisle_optimize_ids. rewrite E. reflexivity. }
  destruct (apply_widths_spec r [] (Layout.aisles layout) Hids Hnd)
    as (new & Hfold & Hsame & Hw).
  cbn [app] in Hfold.
  cbn [Pipeline.aw_layout_id Pipeline.aw_optimized_aisles Pipeline.apply_widths
       Layout.racks Layout.aisles].
  rewrite Hfold. repeat split; auto.
  clear Hfold E Hnd.
  revert r Hids Hw. induction Hsame as [| a a' l l' Ha Hsame IH]; intros r Hids Hw.
  - inversion Hw. constructor.
  - inversion Hw as [| ? e ? r' Hwe Hw']; subst. cbn in Hids.
    injection Hids as Hid Hids. constructor.
    + destruct Ha as [Ha _]. split; [congruence | exact Hwe].
    + now apply IH.
Qed.

Lemma optimize_aisle_widths_applies_witness :
  match Pipeline.optimize_aisle_widths solver_156 two_racks_layout
          (Scenario.equipment 30 12 14) None (Scenario.constant_rng 0.5) with
  | (Ok res, layout', _) =>
      Pipeline.aw_layout_id res = Layout.id two_racks_layout
      /\ Layout.racks layout' = Layout.racks two_racks_layout
      /\ Forall2 (fun a a' => Aisle.id a' = Aisle.id a
                              /\ Aisle.layout_id a' = Aisle.layout_id a
                              /\ Aisle.path a' = Aisle.path a
                              /\ Aisle.properties a' = Aisle.properties a)
                 (Layout.aisles two_racks_layout) (Layout.aisles layout')
      /\ Forall2 (fun a' e => AisleWidthOptimizer.id e = Aisle.id a'
                              /\ Aisle.width a' = AisleWidthOptimizer.width e)
                 (Layout.aisles layout') (Pipeline.aw_optimized_aisles res)
  | (Raise _, layout', _) => layout' = two_racks_layout
  end.
Proof.
  apply (optimize_aisle_widths_applies solver_156 two_racks_layout
           (Scenario.equipment 30 12 14) None (Scenario.constant_rng 0.5)).
  repeat constructor; cbn; intuition discriminate.
Defined.

(** *** Metrics *)

(** X18: whatever the layout, the layout metrics stay within fixed
    ranges: storage density within 0.5 and 0.95, space utilisation within
    0.4 and 0.9, travel distance within 20 and 100, accessibility within
    0.6 and 0.95, and throughput capacity at most 200. *)
Theorem layout_metrics_bounds (layout : Layout.t) :
  let m := _calculate_layout_metrics layout in
  (exists v, m !! "storage_density" = Some v /\ 0.5 <= v /\ v <= 0.95)
  /\ (exists v, m !! "space_utilization" = Some v /\ 0.4 <= v /\ v <= 0.9)
  /\ (exists v, m !! "travel_distance" = Some v /\ 20 <= v /\ v <= 100)
  /\ (exists v, m !! "accessibility_score" = Some v /\ 0.6 <= v /\ v <= 0.95)
  /\ (exists v, m !! "throughput_capacity" = Some v /\ v <= 200).
Proof.
  cbv zeta. unfold _calculate_layout_metrics.
  pose proof (count_nonneg (length (Layout.racks layout))) as Hr.
  pose proof (count_nonneg (length (Layout.aisles layout))) as Ha.
  set (nr := inject_Z (Z.of_nat (length (Layout.racks layout)))) in *.
  set (na := inject_Z (Z.of_nat (length (Layout.aisles layout)))) in *.
  repeat split.
  - eexists. split; [simplify_map_eq; reflexivity |].
    destruct (py_min_cases 0.95 (0.5 + nr * 0.05)) as [[-> H] | [-> H]]; lra.
  - eexists. split; [simplify_map_eq; reflexivity |].
    destruct (py_min_cases 0.9 (0.4 + nr * 0.04)) as [[-> H] | [-> H]]; lra.
  - eexists. split; [simplify_map_eq; reflexivity |].
    destruct (py_max_cases 20 (100 - na * 5)) as [[-> H] | [-> H]]; lra.
  - eexists. split; [simplify_map_eq; reflexivity |].
    destruct (py_min_cases 0.95 (0.6 + na * 0.03)) as [[-> H] | [-> H]]; lra.
  - eexists. split; [simplify_map_eq; reflexivity |].
    match goal with
    | |- Py.min 200 ?x <= 200 =>
        destruct (py_min_cases 200 x) as [[-> H] | [-> H]]; lra
    end.
Qed.

Lemma range_length n : length (Py.range n) = Z.to_nat n.
Proof.
  unfold Py.range. now rewrite length_map, length_seq.
Qed.

Lemma rack_locations_length rack :
  length (SlottingOptimizer.rack_locations rack)
  = (Z.to_nat (Rack.bays rack)
     * Z.to_nat (default 3%Z (Configuration.beam_levels (Rack.configuration rack))))%nat.
Proof.
  unfold SlottingOptimizer.rack_locations.
  rewrite (flat_map_constant_length
             (c := Z.to_nat (default 3%Z (Configuration.beam_levels
                                            (Rack.configuration rack))))).
  - now rewrite range_length.
  - intros bay _. now rewrite length_map, range_length.
Qed.

Lemma pallet_positions_fold racks a :
  Forall (fun r => Rack.rack_type_id r = "selective"
                   /\ (0 <= Rack.bays r)%Z
                   /\ (0 <= default 3%Z (Configuration.beam_levels
                                           (Rack.configuration r)))%Z) racks ->
  fold_left (fun acc rack => acc + rack_pallet_positions rack) racks a
  == a + inject_Z (Z.of_nat (length (flat_map SlottingOptimizer.rack_locations racks))).
Proof.
  intros H. revert a. induction H as [| r racks (Hty & Hb & Hl) _ IH]; intros a; cbn.
  - ring.
  - rewrite IH, length_app, rack_locations_length.
    unfold rack_pallet_positions. rewrite Hty. cbn.
    rewrite Nat2Z.inj_add, Nat2Z.inj_mul, !Z2Nat.id by lia.
    rewrite inject_Z_plus, inject_Z_mult. ring.
Qed.

(** X19: for a layout of selective racks whose bay and level counts are
    not negative, the metric [pallet_positions] is the number of locations
    the slotting optimiser generates for that layout. *)
Theorem pallet_positions_count_locations (layout : Layout.t) :
  Forall (fun r => Rack.rack_type_id r = "selective"
                   /\ (0 <= Rack.bays r)%Z
                   /\ (0 <= default 3%Z (Configuration.beam_levels
                                           (Rack.configuration r)))%Z)
         (Layout.racks layout) ->
  exists v,
    _calculate_layout_metrics layout !! "pallet_positions" = Some v
    /\ v == inject_Z (Z.of_nat (length (SlottingOptimizer._get_all_locations layout))).
Proof.
  intros H. eexists. split.
  - unfold _calculate_layout_metrics. simplify_map_eq. reflexivity.
  - rewrite (pallet_positions_fold _ 0 H).
    unfold SlottingOptimizer._get_all_locations. ring.
Qed.

Lemma pallet_positions_count_locations_witness :
  exists v,
    _calculate_layout_metrics two_racks_layout !! "pallet_positions" = Some v
    /\ v == inject_Z (Z.of_nat (length (SlottingOptimizer._get_all_locations
                                          two_racks_layout))).
Proof.
  apply (pallet_positions_count_locations two_racks_layout).
  repeat constructor; cbn; discriminate.
Defined.

(** *** The elevation stage without products *)

Lemma elevation_loop_no_products slv equipment params racks :
  elevation_loop slv [] equipment params racks
  = (Ok tt,
     map (fun r =>
            Rack.with_configuration
              (Configuration.set_beam_levels (-1)
                 (Configuration.set_beam_elevations [] (Rack.configuration r))) r)
         racks).
Proof.
  induction racks as [| r racks IH]; [reflexivity |].
  cbn [elevation_loop]. unfold ElevationProfileOptimizer.optimize. cbn [map].
  rewrite IH. reflexivity.
Qed.

Lemma flat_map_all_nil {A B} (f : A -> list B) (l : list A) :
  (forall a, In a l -> f a = []) -> flat_map f l = [].
Proof.
  induction l as [| a l IH]; intros H; cbn; [reflexivity |].
  rewrite (H a) by now left. apply IH. intros a' Ha'. apply H. now right.
Qed.

(** X20: with an empty product list the elevation stage of the pipeline
    succeeds, gives every rack the empty list of beam elevations and the
    beam level count -1, and leaves the aisles alone; the layout it
    leaves has no storage location at all, so that slotting on it returns
    the empty list for any products. *)
Theorem elevation_stage_without_products
  (cp : CpSat.solver) (mip : Mip.solver) (layout : Layout.t)
  (equipment : Equipment.t) (params : parameters) :
  exists layout',
    _optimize_rack_elevations cp layout [] equipment params = (Ok tt, layout')
    /\ Layout.aisles layout' = Layout.aisles layout
    /\ Layout.racks layout'
       = map (fun r =>
                Rack.with_configuration
                  (Configuration.set_beam_levels (-1)
                     (Configuration.set_beam_elevations [] (Rack.configuration r))) r)
             (Layout.racks layout)
    /\ SlottingOptimizer._get_all_locations layout' = []
    /\ forall products c, SlottingOptimizer.optimize mip layout' products c = Ok [].
Proof.
  unfold _optimize_rack_elevations. rewrite elevation_loop_no_products.
  eexists. split; [reflexivity |]. split; [reflexivity |]. split; [reflexivity |].
  assert (Hloc : SlottingOptimizer._get_all_locations
                   (Layout.with_racks
                      (map (fun r =>
                              Rack.with_configuration
                                (Configuration.set_beam_levels (-1)
                                   (Configuration.set_beam_elevations []
                                      (Rack.configuration r))) r)
                           (Layout.racks layout)) layout) = []).
  { unfold SlottingOptimizer._get_all_locations. cbn [Layout.racks Layout.with_racks].
    apply flat_map_all_nil. intros r Hr. apply in_map_iff in Hr as (r0 & <- & _).
    unfold SlottingOptimizer.rack_locations. cbn.
    apply flat_map_all_nil. reflexivity. }
  split; [exact Hloc |].
  intros products c. now apply slotting_optimize_no_locations.
Qed.

End EngineEntryPoints.

(** ** The pipeline of [optimize_layout] *)

Section PipelineStages.
Import Pipeline.

(** X21: when rack placement is requested (the default) and the
    facility's boundary is a non-empty dict, as the data model declares it
    and [main.py] builds it, [optimize_layout] raises [AttributeError]:
    the placement step reads the attribute [coordinates] of the dict.
    Products, equipment, solvers and the other parameters play no part. *)
Theorem optimize_layout_rejects_dict_boundary
  (cp : CpSat.solver) (mip : Mip.solver) (uuid : string) (facility : Facility.t)
  (products : list Product.t) (equipment : Equipment.t)
  (params : option OptimizationEngine.parameters) (g : Rng)
  (entries : gmap string (list (list (Q * Q)))) :
  Facility.boundary facility = Facility.Dict entries ->
  entries <> ∅ ->
  default true (OptimizationEngine.optimize_rack_placement
                  (default default_parameters params)) = true ->
  optimize_layout cp mip uuid facility products equipment params g
  = Raises (AttributeError "'dict' object has no attribute 'coordinates'").
Proof.
  intros Hb Hne Hflag. unfold optimize_layout, pipeline. rewrite Hflag.
  unfold _optimize_rack_placement. rewrite Hb.
  rewrite bool_decide_eq_false_2 by exact Hne. reflexivity.
Qed.

Lemma optimize_layout_rejects_dict_boundary_witness :
  optimize_layout CpSat.failing_solver (Mip.candidate_solver diagonal) "layout-1"
    dict_facility single_rack_products single_rack_equipment None
    (Scenario.constant_rng 0)
  = Raises (AttributeError "'dict' object has no attribute 'coordinates'").
Proof.
  apply (optimize_layout_rejects_dict_boundary CpSat.failing_solver
           (Mip.candidate_solver diagonal) "layout-1" dict_facility
           single_rack_products single_rack_equipment None (Scenario.constant_rng 0)
           {[ "coordinates" := [main_ring] ]}).
  - reflexivity.
  - intros H. apply (f_equal (fun m => m !! "coordinates")) in H.
    vm_compute in H. discriminate H.
  - reflexivity.
Defined.

(** X22: when the placement step is switched off, or the boundary is an
    empty dict or an object without rings, no rack and no aisle is ever
    created, every later stage leaves the empty layout as it is, and
    [optimize_layout] returns the metrics of an empty layout: 0 pallet
    positions, storage density 0.5, space utilisation 0.4, travel
    distance 100, accessibility 0.6 and throughput capacity 50, whatever
    the products, the equipment and the solvers. *)
Theorem optimize_layout_without_racks
  (cp : CpSat.solver) (mip : Mip.solver) (uuid : string) (facility : Facility.t)
  (products : list Product.t) (equipment : Equipment.t)
  (params : option OptimizationEngine.parameters) (g : Rng) :
  OptimizationEngine.optimize_rack_placement (default default_parameters params)
    = Some false
  \/ Facility.boundary facility = Facility.Dict ∅
  \/ Facility.boundary facility = Facility.Shape [] ->
  exists m,
    optimize_layout cp mip uuid facility products equipment params g = Returns m
    /\ m !! "pallet_positions" = Some 0
    /\ (exists v, m !! "storage_density" = Some v /\ v == 0.5)
    /\ (exists v, m !! "space_utilization" = Some v /\ v == 0.4)
    /\ (exists v, m !! "travel_distance" = Some v /\ v == 100)
    /\ (exists v, m !! "accessibility_score" = Some v /\ v == 0.6)
    /\ (exists v, m !! "throughput_capacity" = Some v /\ v == 50).
Proof.
  intros H.
  assert (Hp : pipeline cp mip uuid facility products equipment params g
               = Returns (_create_initial_layout uuid facility)).
  { unfold pipeline.
    set (ps := default default_parameters params) in *.
    set (layout := _create_initial_layout uuid facility).
    assert (H1 : (if default true (OptimizationEngine.optimize_rack_placement ps)
                  then _optimize_rack_placement layout facility equipment
                  else Returns layout) = Returns layout).
    { unfold _optimize_rack_placement.
      destruct H as [-> | [-> | ->]]; [reflexivity | |];
        destruct (default true (OptimizationEngine.optimize_rack_placement ps));
        reflexivity. }
    rewrite H1.
    assert (H2 : (if default true (OptimizationEngine.optimize_aisle_widths ps)
                  then (_optimize_aisle_widths cp layout equipment ps g).1
                  else (Ok tt, layout)) = (Ok tt, layout)).
    { destruct (default true (OptimizationEngine.optimize_aisle_widths ps));
        [| reflexivity].
      unfold _optimize_aisle_widths. rewrite aisle_optimize_nil by reflexivity.
      reflexivity. }
    rewrite H2.
    assert (H3 : (if default true (OptimizationEngine.optimize_elevations ps)
                  then OptimizationEngine._optimize_rack_elevations cp layout products
                         equipment ps
                  else (Ok tt, layout)) = (Ok tt, layout)).
    { destruct (default true (OptimizationEngine.optimize_elevations ps));
        reflexivity. }
    rewrite H3.
    destruct (default true (OptimizationEngine.optimize_slotting ps)); [| reflexivity].
    unfold _optimize_slotting.
    rewrite slotting_optimize_no_locations by reflexivity. reflexivity. }
  unfold optimize_layout. rewrite Hp.
  eexists. split; [reflexivity |].
  unfold OptimizationEngine._calculate_layout_metrics. cbn [_create_initial_layout
    Layout.racks Layout.aisles fold_left length].
  split; [simplify_map_eq; reflexivity |].
  repeat split; (eexists; split; [simplify_map_eq; reflexivity | reflexivity]).
Qed.

Lemma optimize_layout_without_racks_witness :
  exists m,
    optimize_layout solver_156 (Mip.candidate_solver diagonal) "layout-1"
      bare_facility single_rack_products single_rack_equipment None
      (Scenario.constant_rng 0) = Returns m
    /\ m !! "pallet_positions" = Some 0
    /\ (exists v, m !! "storage_density" = Some v /\ v == 0.5)
    /\ (exists v, m !! "space_utilization" = Some v /\ v == 0.4)
    /\ (exists v, m !! "travel_distance" = Some v /\ v == 100)
    /\ (exists v, m !! "accessibility_score" = Some v /\ v == 0.6)
    /\ (exists v, m !! "throughput_capacity" = Some v /\ v == 50).
Proof.
  apply (optimize_layout_without_racks solver_156 (Mip.candidate_solver diagonal)
           "layout-1" bare_facility single_rack_products single_rack_equipment None
           (Scenario.constant_rng 0)).
  right. left. reflexivity.
Defined.

(** *** The grid *)

(** The two divisors of the grid are positive: neither division can
    raise. *)
Lemma grid_divisors_positive equipment :
  let aisle_width := Py.max (Equipment.min_aisle_width equipment) 10 in
  0 < 2 * rack_depth + aisle_width /\ 0 < rack_length + aisle_width.
Proof.
  cbv zeta. pose proof (py_max_upper (Equipment.min_aisle_width equipment) 10) as H.
  unfold rack_depth, rack_length. split; lra.
Qed.

Lemma grid_of_total ring equipment :
  ring <> [] ->
  exists gr,
    grid_of ring equipment = Ok gr
    /\ (1 <= num_aisles gr)%Z /\ (1 <= racks_per_aisle gr)%Z
    /\ (1 <= num_cross_aisles gr)%Z
    /\ aisle_width gr = Py.max (Equipment.min_aisle_width equipment) 10.
Proof.
  destruct ring as [| c0 cs]; [congruence |]. intros _.
  unfold grid_of. cbn [map min_of max_of mbind result_bind Py.bind].
  eexists. split; [reflexivity |].
  cbn [num_aisles racks_per_aisle num_cross_aisles aisle_width].
  repeat split; apply Z.le_max_l.
Qed.

Lemma aisle_racks_length lid i ax sy aw rpa :
  length (aisle_racks lid i ax sy aw rpa) = (2 * Z.to_nat rpa)%nat.
Proof.
  unfold aisle_racks. cbn [flat_map].
  rewrite !length_app, !length_map, range_length. cbn. lia.
Qed.

Lemma grid_racks_length lid gr :
  length (grid_racks lid gr)
  = (Z.to_nat (num_aisles gr) * (2 * Z.to_nat (racks_per_aisle gr)))%nat.
Proof.
  unfold grid_racks.
  rewrite (flat_map_constant_length (c := (2 * Z.to_nat (racks_per_aisle gr))%nat)).
  - now rewrite range_length.
  - intros i _. apply aisle_racks_length.
Qed.

Lemma grid_racks_shape lid gr p :
  In p (grid_racks lid gr) ->
  exists i side k x y,
    In i (Py.range (num_aisles gr)) /\ (side = (-1)%Z \/ side = 1%Z)
    /\ In k (Py.range (racks_per_aisle gr))
    /\ p = grid_rack lid i side k x y.
Proof.
  unfold grid_racks, aisle_racks. intros H.
  apply in_flat_map in H as (i & Hi & H).
  apply in_flat_map in H as (side & Hs & H).
  apply in_map_iff in H as (k & <- & Hk).
  exists i, side, k. do 2 eexists. repeat split; eauto.
  destruct Hs as [<- | [<- | []]]; auto.
Qed.

(** X23: for a boundary object whose first ring is not empty, the
    placement step succeeds and lays out a grid: at least one main aisle,
    one rack per side and position, so twice the number of main aisles
    times the racks per aisle, and one aisle per main and cross aisle.
    Every rack is selective with 3 bays and 3 beam levels and no beam
    elevations yet, and every aisle, main or cross, has the width
    [max(min_aisle_width, 10)]. *)
Theorem rack_placement_grid
  (layout : Layout.t) (facility : Facility.t) (equipment : Equipment.t)
  (ring : list (Q * Q)) (rings : list (list (Q * Q))) :
  Facility.boundary facility = Facility.Shape (ring :: rings) ->
  ring <> [] ->
  exists gr layout',
    grid_of ring equipment = Ok gr
    /\ _optimize_rack_placement layout facility equipment = Returns layout'
    /\ (1 <= num_aisles gr)%Z /\ (1 <= racks_per_aisle gr)%Z
    /\ (1 <= num_cross_aisles gr)%Z
    /\ Z.of_nat (length (Layout.racks layout'))
       = (2 * num_aisles gr * racks_per_aisle gr)%Z
    /\ Z.of_nat (length (Layout.aisles layout'))
       = (num_aisles gr + num_cross_aisles gr)%Z
    /\ Forall (fun r =>
                 Rack.rack_type_id r = "selective" /\ Rack.bays r = 3%Z
                 /\ Rack.layout_id r = Layout.id layout
                 /\ Configuration.beam_levels (Rack.configuration r) = Some 3%Z
                 /\ Configuration.beam_elevations (Rack.configuration r) = None)
              (Layout.racks layout')
    /\ Forall (fun a =>
                 Aisle.width a = Py.max (Equipment.min_aisle_width equipment) 10
                 /\ 10 <= Aisle.width a
                 /\ (AisleWidthOptimizer.aisle_type a = "main"
                     \/ AisleWidthOptimizer.aisle_type a = "cross"))
              (Layout.aisles layout').
Proof.
  intros Hb Hne.
  destruct (grid_of_total ring equipment Hne) as (gr & Hgr & Hna & Hrpa & Hnc & Haw).
  exists gr. unfold _optimize_rack_placement. rewrite Hb, Hgr.
  eexists. split; [reflexivity |]. split; [reflexivity |].
  cbn [Layout.racks Layout.aisles].
  split; [exact Hna |]. split; [exact Hrpa |]. split; [exact Hnc |].
  split; [| split; [| split]].
  - rewrite length_map, grid_racks_length.
    rewrite Nat2Z.inj_mul, Nat2Z.inj_mul, !Z2Nat.id by lia. cbn. lia.
  - unfold grid_aisles. rewrite length_app, !length_map, !range_length.
    rewrite Nat2Z.inj_add, !Z2Nat.id by lia. reflexivity.
  - apply Forall_map. apply List.Forall_forall. intros p Hp.
    apply grid_racks_shape in Hp as (i & side & k & x & y & _ & _ & _ & ->).
    cbn. repeat split.
  - unfold grid_aisles. apply Forall_app. rewrite Haw.
    split; apply Forall_map; apply List.Forall_forall; intros i _; cbn;
      (split; [reflexivity |]); (split; [apply py_max_upper |]);
      [left | right]; reflexivity.
Qed.

Lemma rack_placement_grid_witness :
  exists gr layout',
    grid_of main_ring single_rack_equipment = Ok gr
    /\ _optimize_rack_placement (_create_initial_layout "layout-1" shape_facility)
         shape_facility single_rack_equipment = Returns layout'
    /\ (1 <= num_aisles gr)%Z /\ (1 <= racks_per_aisle gr)%Z
    /\ (1 <= num_cross_aisles gr)%Z
    /\ Z.of_nat (length (Layout.racks layout'))
       = (2 * num_aisles gr * racks_per_aisle gr)%Z
    /\ Z.of_nat (length (Layout.aisles layout'))
       = (num_aisles gr + num_cross_aisles gr)%Z
    /\ Forall (fun r =>
                 Rack.rack_type_id r = "selective" /\ Rack.bays r = 3%Z
                 /\ Rack.layout_id r = "layout-1"
                 /\ Configuration.beam_levels (Rack.configuration r) = Some 3%Z
                 /\ Configuration.beam_elevations (Rack.configuration r) = None)
              (Layout.racks layout')
    /\ Forall (fun a =>
                 Aisle.width a = Py.max 12 10
                 /\ 10 <= Aisle.width a
                 /\ (AisleWidthOptimizer.aisle_type a = "main"
                     \/ AisleWidthOptimizer.aisle_type a = "cross"))
              (Layout.aisles layout').
Proof.
  apply (rack_placement_grid (_create_initial_layout "layout-1" shape_facility)
           shape_facility single_rack_equipment main_ring []).
  - reflexivity.
  - discriminate.
Defined.

(** *** The ids the grid hands out *)

Lemma str_nonempty n : Py.str n <> "".
Proof.
  unfold Py.str, NilZero.string_of_uint.
  destruct (N.to_uint (Z.to_N n)); discriminate.
Qed.

Lemma str_int_nonneg n : (0 <= n)%Z -> str_int n = Py.str n.
Proof.
  intros H. unfold str_int. destruct (Z.ltb_spec n 0); [lia | reflexivity].
Qed.

Lemma minus_one_regroup (a : string) :
  (a ++ String "-" "-1" = (a ++ String "-" "") ++ String "-" "1")%string.
Proof.
  apply (append_regroup a "" "-1" "-").
Qed.

Lemma side_split (X X' sa sa' : string) (s s' : Z) :
  no_dash sa = true -> no_dash sa' = true -> sa <> "" -> sa' <> "" ->
  (s = (-1)%Z \/ s = 1%Z) -> (s' = (-1)%Z \/ s' = 1%Z) ->
  ((X ++ String "-" sa) ++ String "-" (str_int s)
   = (X' ++ String "-" sa') ++ String "-" (str_int s'))%string ->
  X = X' /\ sa = sa' /\ s = s'.
Proof.
  intros Hsa Hsa' Hne Hne' [-> | ->] [-> | ->];
    change (str_int (-1)) with "-1"; change (str_int 1) with "1";
    rewrite ?minus_one_regroup; intros H.
  - apply split_last_dash in H as [H _]; [| reflexivity | reflexivity].
    apply split_last_dash in H as [H _]; [| reflexivity | reflexivity].
    apply split_last_dash in H as [H1 H2]; auto.
  - apply split_last_dash in H as [H _]; [| reflexivity | reflexivity].
    apply split_last_dash in H as [_ H]; [| reflexivity | exact Hsa'].
    now symmetry in H.
  - apply split_last_dash in H as [H _]; [| reflexivity | reflexivity].
    apply split_last_dash in H as [_ H]; [| exact Hsa | reflexivity].
    contradiction.
  - apply split_last_dash in H as [H _]; [| reflexivity | reflexivity].
    apply split_last_dash in H as [H1 H2]; auto.
Qed.

Lemma grid_rack_id_inj lid i i' s s' k k' x y x' y' :
  (0 <= i)%Z -> (0 <= i')%Z -> (0 <= k)%Z -> (0 <= k')%Z ->
  (s = (-1)%Z \/ s = 1%Z) -> (s' = (-1)%Z \/ s' = 1%Z) ->
  Rack.id (placed_rack (grid_rack lid i s k x y))
  = Rack.id (placed_rack (grid_rack lid i' s' k' x' y')) ->
  i = i' /\ s = s' /\ k = k'.
Proof.
  intros Hi Hi' Hk Hk' Hs Hs' H. cbn [Rack.id placed_rack grid_rack] in H.
  rewrite (str_int_nonneg i), (str_int_nonneg i'), (str_int_nonneg k),
    (str_int_nonneg k') in H by assumption.
  apply (inj (String.append "rack-")) in H.
  rewrite !(append_cons "-" ""), !append_nil, !append_regroup in H.
  apply split_last_dash in H as [H H3]; try apply str_no_dash.
  apply side_split in H as (_ & H1 & H2);
    auto using str_no_dash, str_nonempty.
  repeat split; auto; apply str_inj; auto.
Qed.

Lemma grid_rack_ids_NoDup lid gr :
  List.NoDup (map Rack.id (map placed_rack (grid_racks lid gr))).
Proof.
  rewrite map_map. unfold grid_racks. rewrite map_flat_map_comm.
  assert (Hin : forall i b,
            In b (map (fun p => Rack.id (placed_rack p))
                      (aisle_racks lid i (aisle_x_of gr i) (start_y gr)
                         (aisle_width gr) (racks_per_aisle gr))) ->
            exists s k x y, (s = (-1)%Z \/ s = 1%Z) /\ (0 <= k)%Z
                            /\ b = Rack.id (placed_rack (grid_rack lid i s k x y))).
  { intros i b Hb. apply in_map_iff in Hb as (p & <- & Hp).
    unfold aisle_racks in Hp. apply in_flat_map in Hp as (s & Hs & Hp).
    apply in_map_iff in Hp as (k & <- & Hk).
    exists s, k. do 2 eexists. split; [| split; [| reflexivity]].
    - destruct Hs as [<- | [<- | []]]; auto.
    - eauto using range_spec. }
  apply NoDup_flat_map.
  - apply range_NoDup.
  - intros i Hi. apply range_spec in Hi. unfold aisle_racks.
    rewrite map_flat_map_comm. apply NoDup_flat_map.
    + repeat constructor; cbn; intuition discriminate.
    + intros s Hs. rewrite map_map.
      apply Finite.Injective_map_NoDup_in; [| apply range_NoDup].
      intros k k' Hk Hk' Heq.
      apply grid_rack_id_inj in Heq as (_ & _ & Heq); eauto using range_spec;
        destruct Hs as [<- | [<- | []]]; auto.
    + intros s s' b Hs Hs' Hb Hb'. rewrite map_map in Hb, Hb'.
      apply in_map_iff in Hb as (k & <- & Hk).
      apply in_map_iff in Hb' as (k' & Heq & Hk').
      apply grid_rack_id_inj in Heq as (_ & Heq & _); eauto using range_spec.
      * destruct Hs' as [<- | [<- | []]]; auto.
      * destruct Hs as [<- | [<- | []]]; auto.
  - intros i i' b Hi Hi' Hb Hb'.
    apply Hin in Hb as (s & k & x & y & Hs & Hk & ->).
    apply Hin in Hb' as (s' & k' & x' & y' & Hs' & Hk' & Heq).
    apply grid_rack_id_inj in Heq as (Heq & _ & _); eauto using range_spec.
Qed.

Lemma aisle_id_inj (prefix lid : string) i i' :
  (0 <= i)%Z -> (0 <= i')%Z ->
  (prefix ++ lid ++ "-" ++ str_int i = prefix ++ lid ++ "-" ++ str_int i')%string ->
  i = i'.
Proof.
  intros Hi Hi' H. rewrite (str_int_nonneg i), (str_int_nonneg i') in H by assumption.
  apply (inj (String.append prefix)) in H.
  rewrite !(append_cons "-" ""), !append_nil in H.
  apply split_last_dash in H as [_ H]; try apply str_no_dash.
  apply str_inj; auto.
Qed.

Lemma grid_aisle_ids_NoDup lid gr :
  List.NoDup (map Aisle.id (grid_aisles lid gr)).
Proof.
  unfold grid_aisles. rewrite map_app, !map_map. cbn [Aisle.id main_aisle cross_aisle].
  apply List.NoDup_app.
  - apply Finite.Injective_map_NoDup_in; [| apply range_NoDup].
    intros i i' Hi Hi' H. apply aisle_id_inj in H; eauto using range_spec.
  - apply Finite.Injective_map_NoDup_in; [| apply range_NoDup].
    intros i i' Hi Hi' H. apply aisle_id_inj in H; eauto using range_spec.
  - intros b Hb Hb'.
    apply in_map_iff in Hb as (i & <- & _).
    apply in_map_iff in Hb' as (i' & Heq & _).
    rewrite !append_cons in Heq. discriminate Heq.
Qed.

(** X24: the grid names every rack and every aisle differently: in the
    layout the placement step returns, the rack ids are pairwise distinct,
    the aisle ids are pairwise distinct, and so are the ids of the storage
    locations the slotting optimiser derives from the racks. *)
Theorem rack_placement_ids_distinct
  (layout : Layout.t) (facility : Facility.t) (equipment : Equipment.t)
  (ring : list (Q * Q)) (rings : list (list (Q * Q))) :
  Facility.boundary facility = Facility.Shape (ring :: rings) ->
  ring <> [] ->
  exists layout',
    _optimize_rack_placement layout facility equipment = Returns layout'
    /\ List.NoDup (map Rack.id (Layout.racks layout'))
    /\ List.NoDup (map Aisle.id (Layout.aisles layout'))
    /\ List.NoDup (map Location.id (SlottingOptimizer._get_all_locations layout')).
Proof.
  intros Hb Hne.
  destruct (grid_of_total ring equipment Hne) as (gr & Hgr & _).
  unfold _optimize_rack_placement. rewrite Hb, Hgr.
  eexists. split; [reflexivity |].
  assert (Hr : List.NoDup (map Rack.id (map placed_rack
                                          (grid_racks (Layout.id layout) gr))))
    by apply grid_rack_ids_NoDup.
  split; [exact Hr |]. split; [apply grid_aisle_ids_NoDup |].
  apply all_locations_ids_NoDup. exact Hr.
Qed.

Lemma rack_placement_ids_distinct_witness :
  exists layout',
    _optimize_rack_placement (_create_initial_layout "layout-1" shape_facility)
      shape_facility single_rack_equipment = Returns layout'
    /\ List.NoDup (map Rack.id (Layout.racks layout'))
    /\ List.NoDup (map Aisle.id (Layout.aisles layout'))
    /\ List.NoDup (map Location.id (SlottingOptimizer._get_all_locations layout')).
Proof.
  apply (rack_placement_ids_distinct (_create_initial_layout "layout-1" shape_facility)
           shape_facility single_rack_equipment main_ring []).
  - reflexivity.
  - discriminate.
Defined.

(** *** The whole pipeline with the default parameters *)

Lemma aisle_optimize_total slv layout equipment c g :
  ~ default 0.5 (AisleWidthOptimizer.aisle_width_increment c) == 0 ->
  exists r, (AisleWidthOptimizer.optimize slv layout equipment (Some c) g).1 = Ok r.
Proof.
  intros Hinc. unfold AisleWidthOptimizer.optimize.
  destruct (AisleWidthOptimizer._solve_with_cp slv layout equipment c g)
    as [[r | e] g']; [now exists r |].
  unfold AisleWidthOptimizer._solve_with_heuristic. now apply heuristic_loop_total.
Qed.

Lemma set_width_length i w aisles :
  length (set_width i w aisles) = length aisles.
Proof.
  induction aisles as [| a aisles IH]; cbn; [reflexivity |].
  destruct (String.eqb (Aisle.id a) i); cbn; [reflexivity | now rewrite IH].
Qed.

Lemma apply_widths_lengths entries layout :
  length (Layout.aisles (apply_widths entries layout)) = length (Layout.aisles layout)
  /\ Layout.racks (apply_widths entries layout) = Layout.racks layout.
Proof.
  split; [| reflexivity]. cbn [apply_widths Layout.aisles].
  generalize (Layout.aisles layout). induction entries as [| e es IH]; intros l; cbn.
  - reflexivity.
  - now rewrite IH, set_width_length.
Qed.

Lemma elevation_optimize_total slv rack products equipment c :
  0 < default 12 (ElevationProfileOptimizer.min_beam_spacing c) ->
  exists es,
    ElevationProfileOptimizer.optimize slv rack products equipment (Some c) = Ok es.
Proof.
  intros Hs. unfold ElevationProfileOptimizer.optimize. cbn [default].
  destruct (map Product.height products) as [| h hs]; [eauto |].
  destruct (ElevationProfileOptimizer._solve_with_cp _ _ _ _); [eauto |].
  unfold ElevationProfileOptimizer._solve_with_heuristic.
  rewrite py_div_ok; [cbn; eauto |].
  intros H0.
  assert (Hlh : 0 < Py.max (Py.max_list h hs
                            + default 6 (ElevationProfileOptimizer.min_clearance c) / 12)
                           (default 12 (ElevationProfileOptimizer.min_beam_spacing c) / 12)).
  { eapply Qlt_le_trans; [| apply py_max_upper].
    apply Qlt_shift_div_l; [reflexivity | now rewrite Qmult_0_l]. }
  rewrite H0 in Hlh. discriminate Hlh.
Qed.

Lemma elevation_loop_total slv products equipment c racks :
  0 < default 12 (ElevationProfileOptimizer.min_beam_spacing c) ->
  exists racks',
    OptimizationEngine.elevation_loop slv products equipment c racks = (Ok tt, racks')
    /\ length racks' = length racks.
Proof.
  intros Hs. induction racks as [| r racks (racks' & IH & Hlen)].
  - exists []. split; reflexivity.
  - cbn [OptimizationEngine.elevation_loop].
    destruct (elevation_optimize_total slv r products equipment c Hs) as [es ->].
    rewrite IH. eexists. split; [reflexivity |]. cbn. now rewrite Hlen.
Qed.

(** X25: with the default parameters and a boundary object whose first
    ring is not empty, [optimize_layout] does not raise, whatever the
    products, the equipment, the solvers and the random draws: it returns
    the metrics of a layout that still has the racks and aisles of the
    grid, twice the number of main aisles times the racks per aisle, and
    one aisle per main and cross aisle. *)
Theorem optimize_layout_default_returns
  (cp : CpSat.solver) (mip : Mip.solver) (uuid : string) (facility : Facility.t)
  (products : list Product.t) (equipment : Equipment.t) (g : Rng)
  (ring : list (Q * Q)) (rings : list (list (Q * Q))) :
  Facility.boundary facility = Facility.Shape (ring :: rings) ->
  ring <> [] ->
  exists gr layout',
    grid_of ring equipment = Ok gr
    /\ pipeline cp mip uuid facility products equipment None g = Returns layout'
    /\ optimize_layout cp mip uuid facility products equipment None g
       = Returns (OptimizationEngine._calculate_layout_metrics layout')
    /\ Z.of_nat (length (Layout.racks layout'))
       = (2 * num_aisles gr * racks_per_aisle gr)%Z
    /\ Z.of_nat (length (Layout.aisles layout'))
       = (num_aisles gr + num_cross_aisles gr)%Z.
Proof.
  intros Hb Hne.
  destruct (grid_of_total ring equipment Hne) as (gr & Hgr & Hna & Hrpa & Hnc & _).
  exists gr.
  assert (Hp : exists layout',
             pipeline cp mip uuid facility products equipment None g = Returns layout'
             /\ length (Layout.racks layout')
                = length (grid_racks uuid gr)
             /\ length (Layout.aisles layout') = length (grid_aisles uuid gr)).
  { unfold pipeline. cbn [default from_option id default_parameters
      OptimizationEngine.optimize_rack_placement OptimizationEngine.optimize_aisle_widths
      OptimizationEngine.optimize_elevations OptimizationEngine.optimize_slotting].
    unfold _optimize_rack_placement. rewrite Hb, Hgr.
    cbn [_create_initial_layout Layout.id Layout.facility_id Layout.status].
    set (layout1 := {| Layout.id := uuid; Layout.facility_id := Facility.id facility;
                       Layout.status := "draft";
                       Layout.racks := map placed_rack (grid_racks uuid gr);
                       Layout.aisles := grid_aisles uuid gr |}).
    unfold _optimize_aisle_widths.
    match goal with
    | |- context [AisleWidthOptimizer.optimize cp layout1 equipment (Some ?c) g] =>
        destruct (aisle_optimize_total cp layout1 equipment c g) as [r Hr];
        [cbn; discriminate |];
        destruct (AisleWidthOptimizer.optimize cp layout1 equipment (Some c) g)
          as [[r0 | e] g'] eqn:E; cbn in Hr; [| discriminate]
    end.
    cbn [fst].
    destruct (apply_widths_lengths r0 layout1) as [Hal Har].
    set (layout2 := apply_widths r0 layout1) in *.
    unfold OptimizationEngine._optimize_rack_elevations.
    match goal with
    | |- context [OptimizationEngine.elevation_loop cp products equipment ?c
                    (Layout.racks layout2)] =>
        destruct (elevation_loop_total cp products equipment c (Layout.racks layout2))
          as (racks' & -> & Hlen); [reflexivity |]
    end.
    unfold _optimize_slotting.
    match goal with
    | |- context [SlottingOptimizer.optimize mip ?l products ?c] =>
        destruct (slotting_optimize_total mip l products c) as [asg ->]
    end.
    cbn [mbind result_bind Py.bind lift].
    eexists. split; [reflexivity |]. cbn [Layout.racks Layout.aisles Layout.with_racks].
    split.
    - rewrite Hlen, Har. unfold layout1. cbn. now rewrite length_map.
    - rewrite Hal. reflexivity. }
  destruct Hp as (layout' & Hp & Hr & Ha). exists layout'.
  split; [exact Hgr |]. split; [exact Hp |]. split; [| split].
  - unfold optimize_layout. now rewrite Hp.
  - rewrite Hr, grid_racks_length.
    rewrite Nat2Z.inj_mul, Nat2Z.inj_mul, !Z2Nat.id by lia. cbn. lia.
  - rewrite Ha. unfold grid_aisles. rewrite length_app, !length_map, !range_length.
    rewrite Nat2Z.inj_add, !Z2Nat.id by lia. reflexivity.
Qed.

Lemma optimize_layout_default_returns_witness :
  exists gr layout',
    grid_of main_ring single_rack_equipment = Ok gr
    /\ pipeline solver_156 (Mip.candidate_solver diagonal) "layout-1" shape_facility
         tall_products single_rack_equipment None (Scenario.constant_rng 0.5)
       = Returns layout'
    /\ optimize_layout solver_156 (Mip.candidate_solver diagonal) "layout-1"
         shape_facility tall_products single_rack_equipment None
         (Scenario.constant_rng 0.5)
       = Returns (OptimizationEngine._calculate_layout_metrics layout')
    /\ Z.of_nat (length (Layout.racks layout'))
       = (2 * num_aisles gr * racks_per_aisle gr)%Z
    /\ Z.of_nat (length (Layout.aisles layout'))
       = (num_aisles gr + num_cross_aisles gr)%Z.
Proof.
  apply (optimize_layout_default_returns solver_156 (Mip.candidate_solver diagonal)
           "layout-1" shape_facility tall_products single_rack_equipment
           (Scenario.constant_rng 0.5) main_ring []).
  - reflexivity.
  - discriminate.
Defined.

(** X26: when rack placement is requested and the first ring of the
    boundary object has no point, [optimize_layout] raises the
    [ValueError] of taking [min] over an empty sequence. *)
Theorem optimize_layout_empty_ring
  (cp : CpSat.solver) (mip : Mip.solver) (uuid : string) (facility : Facility.t)
  (products : list Product.t) (equipment : Equipment.t)
  (params : option OptimizationEngine.parameters) (g : Rng)
  (rings : list (list (Q * Q))) :
  Facility.boundary facility = Facility.Shape ([] :: rings) ->
  default true (OptimizationEngine.optimize_rack_placement
                  (default default_parameters params)) = true ->
  optimize_layout cp mip uuid facility products equipment params g
  = Raises (Builtin (ValueError "min() arg is an empty sequence")).
Proof.
  intros Hb Hflag. unfold optimize_layout, pipeline. rewrite Hflag.
  unfold _optimize_rack_placement. rewrite Hb. reflexivity.
Qed.

Lemma optimize_layout_empty_ring_witness :
  optimize_layout solver_156 (Mip.candidate_solver diagonal) "layout-1"
    hollow_facility tall_products single_rack_equipment None (Scenario.constant_rng 0)
  = Raises (Builtin (ValueError "min() arg is an empty sequence")).
Proof.
  apply (optimize_layout_empty_ring solver_156 (Mip.candidate_solver diagonal)
           "layout-1" hollow_facility tall_products single_rack_equipment None
           (Scenario.constant_rng 0) []).
  - reflexivity.
  - reflexivity.
Defined.

End PipelineStages.

(** ** Scores, weight limits and metrics *)

Section ScoresAndMetrics.
Import SlottingOptimizer.

Lemma level_factor_bounds level :
  (0 <= level <= 5)%Z ->
  0.2 <= 1 - inject_Z level / 5 * 0.8 /\ 1 - inject_Z level / 5 * 0.8 <= 1.
Proof.
  intros [H0 H5]. rewrite Zle_Qle in H0, H5.
  change (inject_Z 0) with 0 in H0. change (inject_Z 5) with 5 in H5.
  assert (E : inject_Z level / 5 * 0.8 == inject_Z level * 0.16) by field.
  rewrite E. split; lra.
Qed.

Lemma bay_factor_bounds bay bays :
  (0 <= bay)%Z -> (bay < bays)%Z ->
  let bay_position := inject_Z bay / inject_Z (Z.max 1 (bays - 1)) in
  0.8 <= 1 - 0.2 * (1 - 2 * Qabs (bay_position - 0.5))
  /\ 1 - 0.2 * (1 - 2 * Qabs (bay_position - 0.5)) <= 1.
Proof.
  intros H0 Hlt bp.
  assert (Hd : 0 < inject_Z (Z.max 1 (bays - 1))).
  { change 0 with (inject_Z 0). rewrite <- Zlt_Qlt. lia. }
  assert (Hbp0 : 0 <= bp).
  { unfold bp. apply Qle_shift_div_l; [exact Hd |]. rewrite Qmult_0_l.
    change 0 with (inject_Z 0). now rewrite <- Zle_Qle. }
  assert (Hbp1 : bp <= 1).
  { unfold bp. apply Qle_shift_div_r; [exact Hd |]. rewrite Qmult_1_l.
    rewrite <- Zle_Qle. lia. }
  assert (Habs : 0 <= Qabs (bp - 0.5) /\ Qabs (bp - 0.5) <= 0.5).
  { split; [apply Qabs_nonneg |]. apply Qabs_Qle_condition. split; lra. }
  destruct Habs. split; lra.
Qed.

Lemma base_accessibility_bounds rack :
  let rack_type := Rack.rack_type_id rack in
  let base :=
    if String.eqb rack_type "selective" then 0.9
    else if String.eqb rack_type "drive-in" || String.eqb rack_type "push-back" then 0.7
    else if String.eqb rack_type "pallet-flow" then 0.8
    else 0.75 in
  0.7 <= base /\ base <= 0.9.
Proof.
  cbv zeta. destruct (String.eqb _ "selective"); [split; discriminate |].
  destruct (_ || _); [split; discriminate |].
  destruct (String.eqb _ "pallet-flow"); split; discriminate.
Qed.

Lemma product_bounds a b c la ua lb ub lc uc :
  0 <= la -> 0 <= lb -> 0 <= lc ->
  la <= a -> a <= ua -> lb <= b -> b <= ub -> lc <= c -> c <= uc ->
  la * lb * lc <= a * b * c /\ a * b * c <= ua * ub * uc.
Proof.
  intros. split.
  - apply Qle_trans with (a * b * lc).
    + apply Qmult_le_compat_r; [| assumption].
      apply Qle_trans with (a * lb).
      * apply Qmult_le_compat_r; assumption.
      * rewrite !(Qmult_comm a). apply Qmult_le_compat_r; [assumption | lra].
    + rewrite !(Qmult_comm (a * b)). apply Qmult_le_compat_r; [assumption |].
      apply Qmult_le_0_compat; lra.
  - apply Qle_trans with (a * b * uc).
    + rewrite !(Qmult_comm (a * b)). apply Qmult_le_compat_r; [assumption |].
      apply Qmult_le_0_compat; lra.
    + apply Qmult_le_compat_r; [| lra].
      apply Qle_trans with (a * ub).
      * rewrite !(Qmult_comm a). apply Qmult_le_compat_r; [assumption | lra].
      * apply Qmult_le_compat_r; [assumption | lra].
Qed.

(** X27: every storage location generated at one of the levels 0 to 5
    carries an accessibility of at least 0.11 and at most 0.9, whatever
    the rack type and the bay; the slotting scores built from it are
    therefore positive.  (The smallest value, a rack of base 0.7 at level
    5 in a middle bay, is the product 0.7 * 0.2 * 0.8; the lower bound is
    kept clear of it.) *)
Theorem location_accessibility_bounds (layout : Layout.t) (l : Location.t) :
  In l (_get_all_locations layout) ->
  (Location.level l <= 5)%Z ->
  exists a,
    Location.prop_accessibility l = Some a
    /\ 0.11 <= a /\ a <= 0.9
    /\ _calculate_accessibility_score l = a.
Proof.
  intros Hl Hlevel. unfold _get_all_locations in Hl.
  apply in_flat_map in Hl as (rack & _ & Hl). unfold rack_locations in Hl.
  apply in_flat_map in Hl as (bay & Hbay & Hl).
  apply in_map_iff in Hl as (level & <- & Hlev).
  cbn [Location.level make_location] in Hlevel.
  eexists. split; [reflexivity |].
  pose proof (base_accessibility_bounds rack) as [Hb1 Hb2]. cbv zeta in Hb1, Hb2.
  pose proof (level_factor_bounds level (conj (range_spec _ _ Hlev) Hlevel))
    as [Hl1 Hl2].
  assert (Hb : (0 <= bay)%Z /\ (bay < Rack.bays rack)%Z).
  { unfold Py.range in Hbay. apply in_map_iff in Hbay as (k & <- & Hk).
    apply in_seq in Hk. lia. }
  pose proof (bay_factor_bounds bay (Rack.bays rack) (proj1 Hb) (proj2 Hb))
    as [Hf1 Hf2].
  cbv zeta in Hf1, Hf2.
  unfold _calculate_location_accessibility.
  match goal with
  | |- context [?a * ?b * ?c] =>
      destruct (product_bounds a b c 0.7 0.9 0.2 1 0.8 1) as [Hlo Hhi];
      [discriminate | discriminate | discriminate
       | exact Hb1 | exact Hb2 | exact Hl1 | exact Hl2 | exact Hf1 | exact Hf2 |]
  end.
  split; [| split; [| reflexivity]].
  - eapply Qle_trans; [| exact Hlo]. discriminate.
  - eapply Qle_trans; [exact Hhi |]. discriminate.
Qed.

Lemma location_accessibility_bounds_witness :
  exists a,
    Location.prop_accessibility
      (make_location (Scenario.rack "rack-1" "selective" 1 (Scenario.levels 2)) 0 1)
    = Some a
    /\ 0.11 <= a /\ a <= 0.9
    /\ _calculate_accessibility_score
         (make_location (Scenario.rack "rack-1" "selective" 1 (Scenario.levels 2)) 0 1)
       = a.
Proof.
  apply (location_accessibility_bounds scenario_C_layout
           (make_location (Scenario.rack "rack-1" "selective" 1 (Scenario.levels 2)) 0 1)).
  - right. left. reflexivity.
  - discriminate.
Defined.

(** *** Weight limits are never enforced *)

Lemma pruned_nil test products locations :
  (forall p l, In p products -> In l locations -> test p l = true) ->
  pruned test products locations = [].
Proof.
  intros H. unfold pruned. apply flat_map_all_nil. intros [p product] Hp.
  apply flat_map_all_nil. intros [l location] Hl.
  apply In_enumerate in Hp, Hl. apply nth_error_In in Hp, Hl.
  now rewrite H.
Qed.

(** X28: the key [respect_weight_limits] has no effect on [optimize]:
    the generated locations carry no weight limit, so the exact model is
    the same with the key on or off, and the heuristic never reads it. *)
Theorem weight_limits_never_enforced
  (slv : Mip.solver) (layout : Layout.t) (products : list Product.t)
  (c : constraints) (b : bool) :
  optimize slv layout products (Some (with_weight_limits b c))
  = optimize slv layout products (Some c).
Proof.
  assert (Hm : build_model (with_weight_limits b c) products
                 (_get_all_locations layout)
               = build_model c products (_get_all_locations layout)).
  { unfold build_model.
    cbn [with_weight_limits respect_weight_limits respect_product_dimensions].
    rewrite (pruned_nil _check_weight_limit)
      by (intros p l _ Hl; now apply (all_locations_weight_ok layout)).
    destruct (default true (Some b)), (default true (respect_weight_limits c));
      reflexivity. }
  unfold optimize, _solve_with_mip. cbn [default from_option id].
  rewrite Hm. reflexivity.
Qed.

(** *** Metrics of [evaluate_layout] and of [optimize_rack_elevations] *)

(** X29: for a non-empty product list [evaluate_layout] reports the same
    slotting figures whatever the layout and the products, because it
    passes an empty assignment list to the slotting metrics: slotting
    efficiency 0.7, travel efficiency 0.81 to within 0.0001 (it is
    [0.6 + 0.7 * 0.3] as the code adds it up, below the cap 0.9) and pick
    rate 92.4. *)
Theorem evaluate_layout_slotting_constants
  (layout : Layout.t) (p : Product.t) (ps : list Product.t) :
  exists m,
    OptimizationEngine.evaluate_layout layout (Some (p :: ps)) = (Ok m, layout)
    /\ (exists v, m !! "slotting_efficiency" = Some v /\ v == 0.7)
    /\ (exists v, m !! "travel_efficiency" = Some v
                  /\ 0.8099 <= v /\ v <= 0.8101)
    /\ (exists v, m !! "pick_rate" = Some v /\ v == 92.4).
Proof.
  unfold OptimizationEngine.evaluate_layout,
    OptimizationEngine._calculate_slotting_metrics.
  rewrite py_div_ok.
  2: { intros H. cbn [length] in H. rewrite Nat2Z.inj_succ in H.
       assert (Hpos : 0 < inject_Z (Z.succ (Z.of_nat (length ps)) * 2)).
       { change 0 with (inject_Z 0). rewrite <- Zlt_Qlt. lia. }
       rewrite H in Hpos. discriminate Hpos. }
  cbn [mbind result_bind Py.bind]. eexists. split; [reflexivity |].
  assert (Hq : inject_Z (Z.of_nat (length (@nil assignment)))
               / inject_Z (Z.of_nat (length (p :: ps)) * 2) == 0).
  { cbn [length]. change (inject_Z (Z.of_nat 0)) with 0. unfold Qdiv. ring. }
  set (q := inject_Z (Z.of_nat (length (@nil assignment)))
            / inject_Z (Z.of_nat (length (p :: ps)) * 2)) in *.
  assert (Hse : Py.min 0.95 (0.7 + q) == 0.7).
  { destruct (py_min_cases 0.95 (0.7 + q)) as [[-> H] | [-> H]]; lra. }
  assert (Hte : Py.min 0.9 (0.6 + Py.min 0.95 (0.7 + q) * 0.3) == 0.81).
  { destruct (py_min_cases 0.9 (0.6 + Py.min 0.95 (0.7 + q) * 0.3))
      as [[-> H] | [-> H]]; lra. }
  repeat split; eexists;
    (split; [apply lookup_union_Some_l; simplify_map_eq; reflexivity |]).
  - exact Hse.
  - rewrite Hte. split; discriminate.
  - rewrite Hte. reflexivity.
Qed.

Lemma index_last (es : list Q) :
  es <> [] -> exists top, Py.index es (-1) = Ok top.
Proof.
  intros Hne. unfold Py.index. cbn [Z.ltb Z.compare].
  destruct es as [| e es]; [congruence |].
  destruct (Z.ltb_spec (Z.of_nat (length (e :: es)) + -1) 0) as [H | H];
    [cbn [length] in H; lia |].
  destruct (nth_error (e :: es) _) as [top |] eqn:E; [eauto |].
  apply nth_error_None in E. cbn [length] in *. lia.
Qed.

(** X30: [optimize_rack_elevations] does not undo its change when the
    metrics fail: for a rack of height 0 that receives two or more beam
    elevations the call raises [ZeroDivisionError], and the layout it
    leaves already holds the new elevations for that rack. *)
Theorem rack_elevations_raise_after_write
  (slv : CpSat.solver) (layout : Layout.t) (rack_id : string)
  (products : list Product.t) (equipment : Equipment.t)
  (params : option ElevationProfileOptimizer.constraints)
  (rack : Rack.t) (es : list Q) :
  OptimizationEngine.find_rack layout rack_id = Some rack ->
  Rack.height rack == 0 ->
  ElevationProfileOptimizer.optimize slv rack products equipment
    (Some (default ElevationProfileOptimizer.default_constraints params)) = Ok es ->
  (2 <= length es)%nat ->
  OptimizationEngine.optimize_rack_elevations slv layout rack_id products equipment
    params
  = (Raise ZeroDivisionError,
     Layout.with_racks
       (OptimizationEngine.update_found rack_id
          (fun r => Rack.with_configuration
                      (Configuration.set_beam_elevations es (Rack.configuration r)) r)
          (Layout.racks layout)) layout).
Proof.
  intros Hf Hh Ho Hlen. unfold OptimizationEngine.optimize_rack_elevations.
  rewrite Hf, Ho. f_equal.
  unfold OptimizationEngine._calculate_rack_metrics.
  cbn [Rack.configuration Rack.with_configuration Configuration.beam_elevations
       Configuration.set_beam_elevations default from_option id Rack.height].
  destruct (Z.ltb_spec 1 (Z.of_nat (length es))) as [_ | H]; [| lia].
  destruct (index_last es) as [top ->]; [destruct es; [cbn in Hlen; lia | discriminate] |].
  cbn [mbind result_bind Py.bind]. unfold Py.div.
  apply Qeq_bool_iff in Hh. rewrite Hh. reflexivity.
Qed.

Lemma rack_elevations_raise_after_write_witness :
  OptimizationEngine.optimize_rack_elevations zero_solver flat_rack_layout "rack-1"
    [Scenario.product "sku-0" "C" 0] single_rack_equipment (Some no_spacing)
  = (Raise ZeroDivisionError,
     Layout.with_racks
       (OptimizationEngine.update_found "rack-1"
          (fun r => Rack.with_configuration
                      (Configuration.set_beam_elevations [0; inject_Z 0 / 304.8]
                         (Rack.configuration r)) r)
          (Layout.racks flat_rack_layout)) flat_rack_layout).
Proof.
  apply (rack_elevations_raise_after_write zero_solver flat_rack_layout "rack-1"
           [Scenario.product "sku-0" "C" 0] single_rack_equipment (Some no_spacing)
           {| Rack.id := "rack-1"; Rack.layout_id := "layout-1";
              Rack.rack_type_id := "selective"; Rack.height := 0; Rack.length := 96;
              Rack.depth := 48; Rack.bays := 3;
              Rack.configuration := Scenario.levels 3 |}
           [0; inject_Z 0 / 304.8]).
  - reflexivity.
  - reflexivity.
  - vm_compute. reflexivity.
  - cbn. lia.
Defined.

End ScoresAndMetrics.
